(** * Smart Patient Flow pre-visit assistant: retrieval and triage engine

    A shallow embedding of [src/vector_db.py], [src/rag_pipeline.py] and
    [src/patient_intake.py], and the properties of the triage decision
    engine stated in the specification.

    Conventions of the embedding.
    - A Python [str] is a [string], one [ascii] per character; the text the
      engine inspects is ASCII, and the non-ASCII literals of the source
      are kept byte for byte.
    - A Python [int] is a [Z].
    - A Python [float] is an IEEE 754 double where the code adds, divides,
      compares and rounds (distances, confidence): the rational it denotes,
      an infinity or NaN, every operation rounded to the nearest double,
      ties to even (module [Float]). It is idealised as a real ([R]) where
      the code takes a square root (embedding norm).
    - A method that can raise returns [result]; a method that mutates
      [self] returns the new state.
    - Output on stdout ([print]) is not modelled. *)

From Stdlib Require Import ZArith QArith Qround Qabs Qpower Qreduction.
From Stdlib Require Import Reals Lra Lqa Lia List Bool.
From Stdlib Require Import Ascii String DecimalString DecimalNat.
From stdpp Require Import gmap strings.

Import ListNotations.
Local Open Scope string_scope.
Local Open Scope Z_scope.

(** ** The Python runtime: strings, integers, exceptions *)

Module Py.

(** An exception is the name of its class and its message. *)
Record exn := Exn { exn_class : string; exn_msg : string }.

Definition ValueError (msg : string) : exn := Exn "ValueError" msg.
Definition AttributeError (msg : string) : exn := Exn "AttributeError" msg.
Definition TypeError (msg : string) : exn := Exn "TypeError" msg.
Definition IndexError (msg : string) : exn := Exn "IndexError" msg.

Inductive result (A : Type) : Type :=
| Ok (a : A)
| Raise (e : exn).
Arguments Ok {A} a.
Arguments Raise {A} e.

Definition bind {A B} (m : result A) (k : A -> result B) : result B :=
  match m with
  | Ok a => k a
  | Raise e => Raise e
  end.

Definition raises {A} (m : result A) (cls : string) : Prop :=
  exists msg, m = Raise (Exn cls msg).

(** A value of dynamic type, as a metadata dictionary stores it or a
    lookup returns it; the corpus builder stores no floats. *)
Inductive value :=
| VNone
| VBool (b : bool)
| VInt (z : Z)
| VStr (s : string).

Definition code (c : ascii) : nat := nat_of_ascii c.

Definition lower_char (c : ascii) : ascii :=
  if ((65 <=? code c) && (code c <=? 90))%nat
  then ascii_of_nat (code c + 32) else c.

Definition upper_char (c : ascii) : ascii :=
  if ((97 <=? code c) && (code c <=? 122))%nat
  then ascii_of_nat (code c - 32) else c.

Fixpoint map_chars (f : ascii -> ascii) (s : string) : string :=
  match s with
  | EmptyString => EmptyString
  | String c s' => String (f c) (map_chars f s')
  end.

(** [s.lower()] and [s.upper()] *)
Definition lower : string -> string := map_chars lower_char.
Definition upper : string -> string := map_chars upper_char.

(** [needle in hay] *)
Fixpoint contains (needle hay : string) : bool :=
  String.prefix needle hay ||
  match hay with
  | EmptyString => false
  | String _ hay' => contains needle hay'
  end.

(** [sep.join(parts)] *)
Definition join (sep : string) (parts : list string) : string :=
  String.concat sep parts.

(** White space of [str.split()] and [str.strip()]. *)
Definition is_space (c : ascii) : bool :=
  ((9 <=? code c) && (code c <=? 13) || (28 <=? code c) && (code c <=? 32))%nat.

(** White space of [int()] on an ASCII string. *)
Definition is_c_space (c : ascii) : bool :=
  ((9 <=? code c) && (code c <=? 13) || (code c =? 32))%nat.

Fixpoint split_go (cur : string) (s : string) : list string :=
  match s with
  | EmptyString => if String.eqb cur "" then [] else [cur]
  | String c s' =>
      if is_space c
      then (if String.eqb cur "" then split_go "" s' else cur :: split_go "" s')
      else split_go (cur ++ String c "") s'
  end.

(** [s.split()] *)
Definition split : string -> list string := split_go "".

Fixpoint lstrip (s : string) : string :=
  match s with
  | String c s' => if is_space c then lstrip s' else s
  | EmptyString => EmptyString
  end.

(** [s.strip()] *)
Definition strip (s : string) : string :=
  String.rev (lstrip (String.rev (lstrip s))).

(** [s[:n]] *)
Definition take (n : nat) (s : string) : string := String.substring 0 n s.

(** [s.split(sep)[0]]: the text before the first [sep]. *)
Fixpoint before_first (sep s : string) : string :=
  if String.prefix sep s then EmptyString
  else match s with
       | EmptyString => EmptyString
       | String c s' => String c (before_first sep s')
       end.

(** The text after the first [sep], if [sep] occurs. *)
Fixpoint after_first (sep s : string) : option string :=
  if String.prefix sep s
  then Some (String.substring (String.length sep) (String.length s) s)
  else match s with
       | EmptyString => None
       | String _ s' => after_first sep s'
       end.

(** [s.split(sep)[1]] for a non-empty [sep]; [None] is the IndexError. *)
Definition split_second (sep s : string) : option string :=
  option_map (before_first sep) (after_first sep s).

(** [str(n)] *)
Definition str_of_nat (n : nat) : string :=
  NilZero.string_of_uint (Nat.to_uint n).

Definition str_of_Z (z : Z) : string :=
  NilZero.string_of_int (Z.to_int z).

(** [str(v)], as an f-string renders a value *)
Definition str (v : value) : string :=
  match v with
  | VNone => "None"
  | VBool true => "True"
  | VBool false => "False"
  | VInt z => str_of_Z z
  | VStr s => s
  end.

Definition type_name (v : value) : string :=
  match v with
  | VNone => "NoneType"
  | VBool _ => "bool"
  | VInt _ => "int"
  | VStr _ => "str"
  end.

(** The error of [v.attr] on a value without that attribute. *)
Definition no_attribute (v : value) (attr : string) : exn :=
  AttributeError ("'" ++ type_name v ++ "' object has no attribute '" ++ attr ++ "'").

(** [v == s] for a text [s] *)
Definition is_str (v : value) (s : string) : bool :=
  match v with
  | VStr t => String.eqb t s
  | _ => false
  end.

(** The text after the last underscore of [s], if it has one. *)
Fixpoint after_last_underscore (s : string) : option string :=
  match s with
  | EmptyString => None
  | String c s' =>
      match after_last_underscore s' with
      | Some t => Some t
      | None => if Ascii.eqb c "_" then Some s' else None
      end
  end.

Definition digit_value (c : ascii) : option Z :=
  if ((48 <=? code c) && (code c <=? 57))%nat
  then Some (Z.of_nat (code c - 48)) else None.

Fixpoint skip_c_space (s : string) : string :=
  match s with
  | String c s' => if is_c_space c then skip_c_space s' else s
  | EmptyString => EmptyString
  end.

(** The digits of a decimal literal, single underscores allowed between
    digits: the value, the number of digits and the rest of the text. *)
Fixpoint scan_digits (prev_underscore : bool) (acc : Z) (n : nat) (s : string)
  : option (Z * nat * string) :=
  match s with
  | EmptyString => if prev_underscore then None else Some (acc, n, s)
  | String c s' =>
      match digit_value c with
      | Some d => scan_digits false (10 * acc + d) (S n) s'
      | None =>
          if Ascii.eqb c "_"
          then (if prev_underscore then None else scan_digits true acc n s')
          else if prev_underscore then None else Some (acc, n, s)
      end
  end.

(** [sys.get_int_max_str_digits()], the interpreter's default. *)
Definition int_max_str_digits : nat := 4300.

(** [int(s)] on text: optional white space, an optional sign, decimal
    digits, optional white space. [None] is the ValueError. *)
Definition int (s : string) : option Z :=
  let s1 := skip_c_space s in
  let '(sign, s2) :=
    match s1 with
    | String "+" r => (1, r)
    | String "-" r => (-1, r)
    | _ => (1, s1)
    end in
  match s2 with
  | String "_" _ => None
  | _ =>
      match scan_digits false 0 0 s2 with
      | Some (v, n, rest) =>
          if (n =? 0)%nat then None
          else if negb (String.eqb (skip_c_space rest) "") then None
          else if (int_max_str_digits <? n)%nat then None
          else Some (sign * v)
      | None => None
      end
  end.

End Py.

(** ** Floats: IEEE 754 binary64, as CPython has them *)

Module Float.

(** A double is the rational it denotes, an infinity or NaN. The two
    zeros are one value: the code modelled here never divides by a float
    and never prints one. *)
Inductive float :=
| Finite (x : Q)
| Infinity (negative : bool)
| NaN.

(** The nearest integer, ties to the even one. *)
Definition round_half_even (x : Q) : Z :=
  let f := Qfloor x in
  match Qcompare (x - inject_Z f)%Q (1 # 2)%Q with
  | Lt => f
  | Gt => f + 1
  | Eq => if Z.even f then f else f + 1
  end.

Definition pow2 (k : Z) : Q := (2 ^ k)%Q.

(** For [0 < x], the [e] with [2^e <= x < 2^(e+1)]. *)
Definition log2_floor (x : Q) : Z :=
  let l := Z.log2 (Qnum x) - Z.log2 (Zpos (Qden x)) in
  if Qle_bool (pow2 l) x then l else l - 1.

(** The exponent of the spacing of the doubles around [x]: 53 significant
    bits, and [2^-1074] in the subnormal range. *)
Definition ulp_exponent (x : Q) : Z :=
  Z.max (log2_floor (Qabs x) - 52) (-1074).

(** The multiple of the spacing nearest to [x], ties to the even one. *)
Definition nearest (x : Q) : Q :=
  let k := ulp_exponent x in
  (inject_Z (round_half_even (x / pow2 k)) * pow2 k)%Q.

(** Rounding of an exact result to a double: overflow gives an infinity. *)
Definition round (x : Q) : float :=
  let y := nearest x in
  if Qle_bool (pow2 1024) (Qabs y) then Infinity (negb (Qle_bool 0 y))
  else Finite (Qred y).

(** The decimal literal [n/d], as in [0.1] or [0.85]. *)
Definition decimal (n : Z) (d : positive) : float := round (n # d).

(** [float(n)], and the literal [n.0], for an int below [2^1024]. *)
Definition of_int (n : Z) : float := round (inject_Z n).

(** [a + b] *)
Definition add (a b : float) : float :=
  match a, b with
  | Finite x, Finite y => round (x + y)
  | NaN, _ | _, NaN => NaN
  | Infinity s, Infinity t => if Bool.eqb s t then Infinity s else NaN
  | Infinity s, Finite _ | Finite _, Infinity s => Infinity s
  end.

(** [-a] *)
Definition opp (a : float) : float :=
  match a with
  | Finite x => Finite (Qred (- x))
  | Infinity s => Infinity (negb s)
  | NaN => NaN
  end.

(** [a - b] *)
Definition sub (a b : float) : float := add a (opp b).

(** [a / n] for an int [n] with [0 < n < 2^1024], as the length of a list
    is: the int is converted to the nearest double first. *)
Definition div_int (a : float) (n : positive) : float :=
  match a with
  | Finite x => round (x / nearest (inject_Z (Zpos n)))
  | _ => a
  end.

(** [a < b] and [a <= b]: false when either is NaN. *)
Definition ltb (a b : float) : bool :=
  match a, b with
  | Finite x, Finite y => negb (Qle_bool y x)
  | Infinity true, Finite _ | Finite _, Infinity false
  | Infinity true, Infinity false => true
  | _, _ => false
  end.

Definition leb (a b : float) : bool :=
  match a, b with
  | Finite x, Finite y => Qle_bool x y
  | Infinity true, Finite _ | Finite _, Infinity false
  | Infinity true, Infinity false => true
  | Infinity s, Infinity t => Bool.eqb s t
  | _, _ => false
  end.

(** [max(a, b)] and [min(a, b)]: the builtin keeps its first argument
    unless the second compares greater (smaller). *)
Definition max2 (a b : float) : float := if ltb a b then b else a.
Definition min2 (a b : float) : float := if ltb b a then b else a.

(** [round(a, 2)]: the double nearest to the decimal with two places
    nearest to the exact value of [a], ties to the even digit; infinities
    and NaN round to themselves. *)
Definition round2 (a : float) : float :=
  match a with
  | Finite x => round (round_half_even (x * 100) # 100)
  | _ => a
  end.

(** [sum(l)] on floats: the int 0, then one addition per item, each
    rounded (CPython up to 3.11; later versions compensate the rounding
    errors of the partial sums). *)
Definition sum (l : list float) : float := fold_left add l (Finite 0).

End Float.

(** ** data_processor.py *)

Module DataProcessor.

(** [Document]: a text, its scalar metadata and the name of its source. *)
Record Document := {
  content : string;
  metadata : gmap string Py.value;
  source : string
}.

End DataProcessor.

(** ** vector_db.py *)

Module VectorDB.
Import DataProcessor.

(** One record of the ChromaDB collection. *)
Record IndexedRecord := {
  rec_id : string;
  rec_document : string;
  rec_metadata : gmap string Py.value;
  rec_embedding : list R
}.

(** The answer of [collection.query], one inner list per query embedding. *)
Record QueryResult := {
  documents : option (list (list string));
  metadatas : option (list (list (gmap string Py.value)));
  distances : option (list (list Float.float))
}.

(** The ChromaDB collection behind [self.collection]: its records, and
    the nearest-neighbour search of the index, which belongs to the
    external library and is left open. *)
Record Collection := {
  name : string;
  records : list IndexedRecord;
  nn_search : list IndexedRecord -> list (list R) -> nat ->
              option (gmap string Py.value) -> Py.result QueryResult
}.

(** [collection.count()] *)
Definition count (c : Collection) : nat := length (records c).

(** [collection.query(query_embeddings=.., n_results=.., where=..)] *)
Definition query (c : Collection) (embs : list (list R)) (n : nat)
    (where_ : option (gmap string Py.value)) : Py.result QueryResult :=
  nn_search c (records c) embs n where_.

Fixpoint has_duplicate (ids : list string) : bool :=
  match ids with
  | [] => false
  | i :: rest => existsb (String.eqb i) rest || has_duplicate rest
  end.

Definition to_records (ids documents : list string)
    (metadatas : list (gmap string Py.value)) (embeddings : list (list R))
  : list IndexedRecord :=
  map (fun x => let '(id, doc, m, e) := x in
                {| rec_id := id; rec_document := doc;
                   rec_metadata := m; rec_embedding := e |})
      (combine (combine (combine ids documents) metadatas) embeddings).

(** [collection.add(ids=.., documents=.., metadatas=.., embeddings=..)]:
    ChromaDB rejects lists of unequal length, a batch that repeats an id
    and a record whose metadata is an empty dict, and skips a record
    whose id the collection already holds. *)
Definition add (c : Collection) (ids documents : list string)
    (metadatas : list (gmap string Py.value)) (embeddings : list (list R))
  : Py.result Collection :=
  if negb ((length documents =? length ids)%nat
           && (length metadatas =? length ids)%nat
           && (length embeddings =? length ids)%nat)
  then Py.Raise (Py.ValueError "Unequal lengths for fields")
  else if has_duplicate ids
  then Py.Raise (Py.Exn "DuplicateIDError" "Expected IDs to be unique")
  else if existsb (fun m => bool_decide (m = ∅)) metadatas
  then Py.Raise (Py.ValueError
                   "Expected metadata to be a non-empty dict, got 0 metadata attributes")
  else
    let held := map rec_id (records c) in
    let fresh :=
      List.filter (fun r => negb (existsb (String.eqb (rec_id r)) held))
        (to_records ids documents metadatas embeddings) in
    Py.Ok {| name := name c; records := records c ++ fresh; nn_search := nn_search c |}.

(** [client.reset()] followed by [get_or_create_collection]. *)
Definition emptied (c : Collection) : Collection :=
  {| name := "healthcare_knowledge"; records := []; nn_search := nn_search c |}.

Record HealthcareVectorDB := {
  persist_directory : string;
  embedding_model_name : string;
  use_custom_embeddings : bool;
  (** [SentenceTransformer.encode], when the model was loaded *)
  embedding_model : option (list string -> list (list R));
  collection : Collection
}.

(** [__init__]: [persisted] is the collection found under
    [persist_directory], [loaded] the sentence-embedding model, [None]
    when the import or the load failed. *)
Definition init (persist_dir : string) (persisted : Collection)
    (loaded : option (list string -> list (list R))) : HealthcareVectorDB :=
  {| persist_directory := persist_dir;
     embedding_model_name := "all-MiniLM-L6-v2";
     use_custom_embeddings := match loaded with Some _ => false | None => true end;
     embedding_model := loaded;
     collection := persisted |}.

Definition enumerate {A} (l : list A) : list (nat * A) :=
  combine (seq 0 (length l)) l.

Definition mem (w : string) (l : list string) : bool :=
  existsb (String.eqb w) l.

Section Hashed.
(** The builtin [hash] on [str]: one function for the life of an
    interpreter process (it is salted at start-up). *)
Variable hash : string -> Z.

(** [embedding[pos] += x] *)
Definition bump (pos : nat) (x : R) (embedding : list R) : list R :=
  alter (fun y => (y + x)%R) pos embedding.

(** The body of the loop of [simple_embedding]. *)
Definition embed_word (embedding : list R) (iw : nat * string) : list R :=
  let '(i, word) := iw in
  let word_hash := hash word mod 1000 in
  let pos := Z.to_nat ((word_hash * 13) mod 384) in
  let e1 := bump pos (1 / INR (i + 1))%R embedding in
  let e2 := if mem word ["pain"; "chest"; "heart"; "emergency"]
            then bump 0 2%R e1 else e1 in
  let e3 := if mem word ["insurance"; "copay"; "coverage"]
            then bump 1 2%R e2 else e2 in
  if mem word ["appointment"; "schedule"; "time"]
  then bump 2 2%R e3 else e3.

(** The vector before normalisation. *)
Definition accumulate (words : list string) : list R :=
  fold_left embed_word (enumerate (firstn 20 words)) (repeat 0%R 384).

(** [sum(x*x for x in embedding)] *)
Definition squares (embedding : list R) : R :=
  fold_left Rplus (map (fun x => (x * x)%R) embedding) 0%R.

(** The sum of the entries. *)
Definition total (embedding : list R) : R := fold_right Rplus 0%R embedding.

(** [sum(x*x for x in embedding) ** 0.5] *)
Definition l2_norm (embedding : list R) : R := sqrt (squares embedding).

Definition normalize (embedding : list R) : list R :=
  let norm := l2_norm embedding in
  if Rlt_dec 0 norm then map (fun x => (x / norm)%R) embedding else embedding.

Definition simple_embedding (text : string) : list R :=
  normalize (accumulate (Py.split (Py.lower text))).

Definition create_embeddings (self : HealthcareVectorDB) (texts : list string)
  : list (list R) :=
  if use_custom_embeddings self
  then map simple_embedding texts
  else match embedding_model self with
       | Some encode => encode texts
       | None => map simple_embedding texts
       end.

(** The ids [add_documents] assigns: [f"{doc.source}_{i}"] over
    [enumerate(documents)]. *)
Definition document_ids (docs : list Document) : list string :=
  map (fun id => let '(i, doc) := id in
                 source doc ++ "_" ++ Py.str_of_nat i) (enumerate docs).

(** The ids in the words of the specification: the source and the
    sequential index of the document within that source. *)
Definition index_within_source (docs : list Document) (k : nat) (doc : Document)
  : nat :=
  length (List.filter (fun d => String.eqb (source d) (source doc)) (firstn k docs)).

Definition spec_document_ids (docs : list Document) : list string :=
  map (fun id => let '(i, doc) := id in
                 source doc ++ "_" ++ Py.str_of_nat (index_within_source docs i doc))
      (enumerate docs).

Definition with_collection (self : HealthcareVectorDB) (c : Collection)
  : HealthcareVectorDB :=
  {| persist_directory := persist_directory self;
     embedding_model_name := embedding_model_name self;
     use_custom_embeddings := use_custom_embeddings self;
     embedding_model := embedding_model self;
     collection := c |}.

Definition add_documents (self : HealthcareVectorDB) (docs : list Document)
  : Py.result HealthcareVectorDB :=
  match docs with
  | [] => Py.Ok self
  | _ =>
      let embeddings := create_embeddings self (map content docs) in
      Py.bind (add (collection self) (document_ids docs) (map content docs)
                 (map metadata docs) embeddings)
        (fun c => Py.Ok (with_collection self c))
  end.

(** [search]: the first embedding of the query is handed to the index. *)
Definition search (self : HealthcareVectorDB) (q : string) (n_results : nat)
    (filter_metadata : option (gmap string Py.value)) : Py.result QueryResult :=
  match create_embeddings self [q] with
  | query_embedding :: _ =>
      query (collection self) [query_embedding] n_results filter_metadata
  | [] => Py.Raise (Py.IndexError "list index out of range")
  end.

(** [get_collection_stats()["total_documents"]] *)
Definition total_documents (self : HealthcareVectorDB) : nat :=
  count (collection self).

Definition reset_database (self : HealthcareVectorDB) : HealthcareVectorDB :=
  with_collection self (emptied (collection self)).

(** What [setup_vector_database] does besides opening the store. *)
Inductive setup_event :=
| ProcessAllData
| AddDocuments (n : nat).

(** [setup_vector_database]: [persisted] and [loaded] are what
    [HealthcareVectorDB(persist_directory=db_dir)] finds, [corpus] is
    what [HealthcareDataProcessor(data_dir).process_all_data()]
    returns. The result comes with the events of the run. *)
Definition setup_vector_database (db_dir : string) (persisted : Collection)
    (loaded : option (list string -> list (list R)))
    (corpus : list Document) (reset : bool)
  : list setup_event * Py.result HealthcareVectorDB :=
  let vector_db := init db_dir persisted loaded in
  let vector_db := if reset then reset_database vector_db else vector_db in
  if (0 <? total_documents vector_db)%nat
  then ([], Py.Ok vector_db)
  else
    match corpus with
    | [] => ([ProcessAllData], Py.Ok vector_db)
    | _ => ([ProcessAllData; AddDocuments (length corpus)],
            add_documents vector_db corpus)
    end.

End Hashed.

End VectorDB.

(** ** rag_pipeline.py *)

Module Rag.

(** One retrieved document: [{'content', 'metadata', 'distance'}]. *)
Record context_doc := {
  content : string;
  metadata : gmap string Py.value;
  distance : Float.float
}.

(** One source descriptor:
    [{'type', 'content_preview', 'relevance_score'}]. *)
Record source_info := {
  type : Py.value;
  content_preview : string;
  relevance_score : Float.float
}.

Record RAGResponse := {
  answer : string;
  sources : list source_info;
  confidence : Float.float;
  triage_info : option (gmap string Py.value);
  next_steps : option (list string)
}.

Record HealthcareRAGPipeline := {
  vector_db : VectorDB.HealthcareVectorDB;
  llm_type : string;
  use_advanced_llm : bool;
  (** [SystemMessage is not None and HumanMessage is not None] *)
  messages_available : bool;
  (** [self.llm(messages).content] on a context and a question, [None]
      when the call raises *)
  llm : string -> string -> option string
}.

(** [sum(distances) / len(distances)] for the distances [d :: ds]. *)
Definition average (d : Float.float) (ds : list Float.float) : Float.float :=
  Float.div_int (Float.sum (d :: ds)) (Pos.of_succ_nat (length ds)).

(** [d.get(key)] *)
Definition get (d : gmap string Py.value) (key : string) : Py.value :=
  default Py.VNone (d !! key).

(** [d.get(key, dflt)] *)
Definition get_or (d : gmap string Py.value) (key : string) (dflt : Py.value)
  : Py.value :=
  default dflt (d !! key).

Definition first_row {A} (rows : option (list (list A))) : Py.result (list A) :=
  match rows with
  | None => Py.Raise (Py.TypeError "'NoneType' object is not subscriptable")
  | Some [] => Py.Raise (Py.IndexError "list index out of range")
  | Some (row :: _) => Py.Ok row
  end.

(** [rows[0][i]] *)
Definition cell {A} (rows : option (list (list A))) (i : nat) : Py.result A :=
  Py.bind (first_row rows) (fun row =>
    match row !! i with
    | Some x => Py.Ok x
    | None => Py.Raise (Py.IndexError "list index out of range")
    end).

(** The loop of [retrieve_context] over [enumerate(results['documents'][0])]. *)
Fixpoint collect (i : nat) (docs : list string)
    (metas : option (list (list (gmap string Py.value))))
    (dists : option (list (list Float.float))) : Py.result (list context_doc) :=
  match docs with
  | [] => Py.Ok []
  | doc :: docs' =>
      Py.bind (cell metas i) (fun m =>
      Py.bind (cell dists i) (fun d =>
      Py.bind (collect (S i) docs' metas dists) (fun rest =>
      Py.Ok ({| content := doc; metadata := m; distance := d |} :: rest))))
  end.

Definition format_doc (doc : context_doc) : string :=
  let source_type := get_or (metadata doc) "type" (Py.VStr "unknown") in
  match source_type with
  | Py.VStr "triage" => "TRIAGE INFO: " ++ content doc
  | Py.VStr "department" => "DEPARTMENT INFO: " ++ content doc
  | Py.VStr "insurance" => "INSURANCE INFO: " ++ content doc
  | Py.VStr "faq" => "FAQ: " ++ content doc
  | Py.VStr "hospital_info" => "HOSPITAL INFO: " ++ content doc
  | _ => content doc
  end.

Definition format_context (context_docs : list context_doc) : string :=
  match context_docs with
  | [] => "No relevant information found in the knowledge base."
  | _ => Py.join "

" (map format_doc context_docs)
  end.

Definition is_triage (doc : context_doc) : bool :=
  match get (metadata doc) "type" with
  | Py.VStr "triage" => true
  | _ => false
  end.

Definition extract_triage_info (context_docs : list context_doc)
  : option (gmap string Py.value) :=
  match find is_triage context_docs with
  | Some doc =>
      let m := metadata doc in
      Some (<["urgency_level" := get m "urgency_level"]>
           (<["department" := get m "department"]>
           (<["priority" := get m "priority"]>
           (<["symptoms" := get m "symptoms"]>
           (<["warning_signs" := get m "warning_signs"]> ∅)))))
  | None => None
  end.

Definition emergency_text : string := "ðŸš¨ IMPORTANT: Based on your symptoms, you may need immediate medical attention. 
            
If you're experiencing severe symptoms, please:
- Call 911 for emergency care
- Go to the nearest emergency room
- Don't wait for an appointment

For urgent but non-emergency symptoms, visit our Urgent Care department.

DISCLAIMER: This is not medical advice. Please consult a qualified healthcare provider for proper medical evaluation.".

Definition insurance_head : string := "Based on our records:

".

Definition insurance_tail : string := "

âœ… We accept most major insurance plans
ðŸ’° Copays vary by plan and service type
ðŸ“ž Please call to verify your specific plan coverage

DISCLAIMER: This is not medical advice. Please consult a qualified healthcare provider.".

Definition appointment_head : string := "Here's what you need to know:

".

Definition appointment_tail : string := "

ðŸ“‹ Required documents: Photo ID, insurance card, medication list
â° Arrive 15-30 minutes early for check-in
ðŸ“ž Call ahead to confirm appointment and requirements

DISCLAIMER: This is not medical advice. Please consult a qualified healthcare provider.".

Definition default_head : string := "Based on our hospital information:

".

Definition default_tail : string := "

For specific medical questions or to schedule appointments, please contact SuperHealth Medical Center directly at (555) 123-HEALTH.

DISCLAIMER: This is not medical advice. Please consult a qualified healthcare provider.".

Definition generate_simple_response (q context : string) : string :=
  let query_lower := Py.lower q in
  if existsb (fun keyword => Py.contains keyword query_lower)
       ["severe"; "emergency"; "urgent"; "chest pain"; "difficulty breathing";
        "unconscious"]
  then emergency_text
  else if Py.contains "insurance" query_lower || Py.contains "copay" query_lower
          || Py.contains "coverage" query_lower
  then insurance_head ++ context ++ insurance_tail
  else if Py.contains "appointment" query_lower || Py.contains "visit" query_lower
          || Py.contains "documents" query_lower
  then appointment_head ++ context ++ appointment_tail
  else default_head ++ context ++ default_tail.

Definition generate_advanced_response (self : HealthcareRAGPipeline)
    (q context : string) : string :=
  if negb (use_advanced_llm self) then generate_simple_response q context
  else if messages_available self
  then match llm self context q with
       | Some text => text
       | None => generate_simple_response q context
       end
  else generate_simple_response q context.

Definition generic_steps : list string :=
      ["ðŸ“ž Contact hospital for specific guidance";
       "Prepare required documents (ID, insurance card)";
       "Review hospital policies and procedures";
       "Plan arrival time based on appointment type"].

(** [generate_next_steps]; a hint whose urgency is not text has no
    [upper] method. *)
Definition generate_next_steps (triage : option (gmap string Py.value))
    (q : string) : Py.result (list string) :=
  let or_generic (steps : list string) :=
    match steps with [] => generic_steps | _ => steps end in
  match triage with
  | Some info =>
      if bool_decide (info = ∅) then Py.Ok generic_steps
      else
        match get_or info "urgency_level" (Py.VStr "") with
        | Py.VStr u =>
            let urgency := Py.upper u in
            let department := get_or info "department" (Py.VStr "") in
            Py.Ok (or_generic
              (if String.eqb urgency "EMERGENCY" then
                 ["ðŸš¨ Seek immediate emergency care or call 911";
                  "Go to the nearest emergency room";
                  "Bring valid ID and insurance card";
                  "Don't drive yourself if experiencing severe symptoms"]
               else if String.eqb urgency "URGENT" then
                 ["ðŸ“ž Schedule same-day appointment with " ++ Py.str department;
                  "Consider urgent care if department unavailable";
                  "Prepare symptom timeline and current medications";
                  "Arrive 15-30 minutes early for check-in"]
               else if String.eqb urgency "ROUTINE" then
                 ["ðŸ“… Schedule appointment with " ++ Py.str department;
                  "Gather medical history and current medications";
                  "Prepare list of questions for provider";
                  "Verify insurance coverage and copay"]
               else []))
        | v => Py.Raise (Py.no_attribute v "upper")
        end
  | None => Py.Ok generic_steps
  end.

Definition calculate_confidence (context_docs : list context_doc) (q : string)
  : Float.float :=
  match context_docs with
  | [] => Float.decimal 1 10
  | doc :: docs =>
      let avg_distance := average (distance doc) (map distance docs) in
      let base_confidence :=
        Float.max2 (Float.decimal 1 10) (Float.sub (Float.of_int 1) avg_distance) in
      let query_lower := Py.lower q in
      let base_confidence :=
        if existsb (fun doc => Py.contains query_lower (Py.lower (content doc)))
             context_docs
        then Float.min2 (Float.of_int 1) (Float.add base_confidence (Float.decimal 2 10))
        else base_confidence in
      Float.round2 base_confidence
  end.

Definition source_of (doc : context_doc) : source_info :=
  {| type := get_or (metadata doc) "type" (Py.VStr "unknown");
     content_preview :=
       if (200 <? String.length (content doc))%nat
       then Py.take 200 (content doc) ++ "..."
       else content doc;
     relevance_score := Float.round2 (Float.sub (Float.of_int 1) (distance doc)) |}.

Definition fallback_response : RAGResponse :=
  {| answer := "I don't have specific information about that topic in our knowledge base. Please contact SuperHealth Medical Center directly at (555) 123-HEALTH for assistance.";
     sources := [];
     confidence := Float.decimal 1 10;
     triage_info := None;
     next_steps := Some ["ðŸ“ž Contact hospital directly for assistance"] |}.

Section Hashed.
Variable hash : string -> Z.

Definition retrieve_context (self : HealthcareRAGPipeline) (q : string)
    (max_results : nat) : Py.result (list context_doc) :=
  Py.bind (VectorDB.search hash (vector_db self) q max_results None)
    (fun results =>
       match VectorDB.documents results with
       | None | Some [] => Py.Ok []
       | Some (docs :: _) =>
           collect 0 docs (VectorDB.metadatas results) (VectorDB.distances results)
       end).

Definition process_query (self : HealthcareRAGPipeline) (q : string)
  : Py.result RAGResponse :=
  Py.bind (retrieve_context self q 5) (fun context_docs =>
    match context_docs with
    | [] => Py.Ok fallback_response
    | _ =>
        let context := format_context context_docs in
        let triage := extract_triage_info context_docs in
        let text :=
          if use_advanced_llm self
          then generate_advanced_response self q context
          else generate_simple_response q context in
        Py.bind (generate_next_steps triage q) (fun steps =>
          Py.Ok {| answer := text;
                   sources := map source_of context_docs;
                   confidence := calculate_confidence context_docs q;
                   triage_info := triage;
                   next_steps := Some steps |})
    end).

End Hashed.

End Rag.

(** ** patient_intake.py *)

Module Intake.

Record PatientInfo := {
  age : option Z;
  gender : option string;
  chief_complaint : option string;
  symptoms : list string;
  symptom_duration : option string;
  symptom_severity : option Z;
  pain_location : option string;
  medical_history : list string;
  current_medications : list string;
  allergies : list string;
  insurance_provider : option string;
  insurance_member_id : option string;
  phone_number : option string;
  email : option string;
  preferred_time : option string;
  urgency_perception : option string;
  session_id : string;
  timestamp : string
}.

Record TriageRecommendation := {
  urgency_level : Py.value;
  recommended_department : Py.value;
  estimated_wait_time : Py.value;
  priority_score : Py.value;
  next_steps : list string;
  required_documents : list string;
  preparation_instructions : list string;
  recommended_time_slots : list string;
  alternative_options : list string;
  insurance_coverage : gmap string Py.value;
  estimated_cost : Py.value;
  warning_signs : list string;
  medical_disclaimer : string
}.

Record VisitPlan := {
  patient_info : PatientInfo;
  triage_recommendation : TriageRecommendation;
  check_in_time : string;
  estimated_total_time : string;
  parking_info : string;
  directions : string;
  follow_up_needed : bool;
  specialist_referral : option string;
  visit_summary : string;
  confidence_score : Float.float
}.

Record PatientIntakeSystem := {
  rag_pipeline : Rag.HealthcareRAGPipeline;
  current_patient : option PatientInfo;
  severity_mappings : gmap string Z;
  emergency_keywords : list string;
  time_slots : gmap string (list string)
}.

(** [__init__] *)
Definition init (pipeline : Rag.HealthcareRAGPipeline) : PatientIntakeSystem :=
  {| rag_pipeline := pipeline;
     current_patient := None;
     severity_mappings :=
       <["mild" := 1]> (<["moderate" := 5]> (<["severe" := 9]>
       (<["unbearable" := 10]> ∅)));
     emergency_keywords :=
       ["chest pain"; "difficulty breathing"; "unconscious"; "bleeding heavily";
        "severe injury"; "overdose"; "suicide"; "heart attack"; "stroke";
        "allergic reaction"; "severe burn"; "broken bone"; "head injury"];
     time_slots :=
       <["emergency" := ["immediately"; "ASAP"]]>
       (<["urgent" := ["within 2 hours"; "today if possible"; "this evening"]]>
       (<["routine" := ["within 1-2 weeks"; "next available appointment";
                        "at your convenience"]]> ∅)) |}.

(** [PatientInfo()]: every field at its default; the two stamps are
    what the clock gives when the record is created. *)
Definition new_patient (sid stamp : string) : PatientInfo :=
  {| age := None; gender := None; chief_complaint := None; symptoms := [];
     symptom_duration := None; symptom_severity := None; pain_location := None;
     medical_history := []; current_medications := []; allergies := [];
     insurance_provider := None; insurance_member_id := None;
     phone_number := None; email := None;
     preferred_time := None; urgency_perception := None;
     session_id := sid; timestamp := stamp |}.

Definition with_patient (self : PatientIntakeSystem) (p : option PatientInfo)
  : PatientIntakeSystem :=
  {| rag_pipeline := rag_pipeline self;
     current_patient := p;
     severity_mappings := severity_mappings self;
     emergency_keywords := emergency_keywords self;
     time_slots := time_slots self |}.

Definition start_new_intake (sid stamp : string) (self : PatientIntakeSystem)
  : PatientIntakeSystem :=
  with_patient self (Some (new_patient sid stamp)).

Definition session_not_started : Py.exn :=
  Py.ValueError "Must start intake session first".

Definition no_patient_information : Py.exn :=
  Py.ValueError "No patient information available".

(** [collect_basic_info]: starts a session when there is none; [sid]
    and [stamp] are the stamps that session would get. *)
Definition collect_basic_info (sid stamp : string) (age_ : Z) (gender_ : string)
    (self : PatientIntakeSystem) : PatientIntakeSystem :=
  let self :=
    match current_patient self with
    | None => start_new_intake sid stamp self
    | Some _ => self
    end in
  match current_patient self with
  | None => self
  | Some p =>
      with_patient self (Some
        {| age := Some age_; gender := Some (Py.lower gender_);
           chief_complaint := chief_complaint p; symptoms := symptoms p;
           symptom_duration := symptom_duration p;
           symptom_severity := symptom_severity p;
           pain_location := pain_location p;
           medical_history := medical_history p;
           current_medications := current_medications p;
           allergies := allergies p;
           insurance_provider := insurance_provider p;
           insurance_member_id := insurance_member_id p;
           phone_number := phone_number p; email := email p;
           preferred_time := preferred_time p;
           urgency_perception := urgency_perception p;
           session_id := session_id p; timestamp := timestamp p |})
  end.

(** The conversion of the severity argument at the end of
    [collect_symptoms]. *)
Definition convert_severity (self : PatientIntakeSystem) (severity : string) : Z :=
  match severity_mappings self !! Py.lower severity with
  | Some n => n
  | None =>
      match Py.int severity with
      | Some n => n
      | None => 5
      end
  end.

Definition collect_symptoms (chief : string) (symptoms_ : list string)
    (duration severity : string) (location : option string)
    (self : PatientIntakeSystem) : Py.result PatientIntakeSystem :=
  match current_patient self with
  | None => Py.Raise session_not_started
  | Some p =>
      Py.Ok (with_patient self (Some
        {| age := age p; gender := gender p;
           chief_complaint := Some chief; symptoms := symptoms_;
           symptom_duration := Some duration;
           symptom_severity := Some (convert_severity self severity);
           pain_location := location;
           medical_history := medical_history p;
           current_medications := current_medications p;
           allergies := allergies p;
           insurance_provider := insurance_provider p;
           insurance_member_id := insurance_member_id p;
           phone_number := phone_number p; email := email p;
           preferred_time := preferred_time p;
           urgency_perception := urgency_perception p;
           session_id := session_id p; timestamp := timestamp p |}))
  end.

Definition collect_medical_history (history medications allergies_ : list string)
    (self : PatientIntakeSystem) : Py.result PatientIntakeSystem :=
  match current_patient self with
  | None => Py.Raise session_not_started
  | Some p =>
      Py.Ok (with_patient self (Some
        {| age := age p; gender := gender p;
           chief_complaint := chief_complaint p; symptoms := symptoms p;
           symptom_duration := symptom_duration p;
           symptom_severity := symptom_severity p;
           pain_location := pain_location p;
           medical_history := history;
           current_medications := medications;
           allergies := allergies_;
           insurance_provider := insurance_provider p;
           insurance_member_id := insurance_member_id p;
           phone_number := phone_number p; email := email p;
           preferred_time := preferred_time p;
           urgency_perception := urgency_perception p;
           session_id := session_id p; timestamp := timestamp p |}))
  end.

Definition collect_insurance_info (provider : string) (member_id : option string)
    (self : PatientIntakeSystem) : Py.result PatientIntakeSystem :=
  match current_patient self with
  | None => Py.Raise session_not_started
  | Some p =>
      Py.Ok (with_patient self (Some
        {| age := age p; gender := gender p;
           chief_complaint := chief_complaint p; symptoms := symptoms p;
           symptom_duration := symptom_duration p;
           symptom_severity := symptom_severity p;
           pain_location := pain_location p;
           medical_history := medical_history p;
           current_medications := current_medications p;
           allergies := allergies p;
           insurance_provider := Some provider;
           insurance_member_id := member_id;
           phone_number := phone_number p; email := email p;
           preferred_time := preferred_time p;
           urgency_perception := urgency_perception p;
           session_id := session_id p; timestamp := timestamp p |}))
  end.

Definition collect_contact_info (phone : string) (email_ : option string)
    (self : PatientIntakeSystem) : Py.result PatientIntakeSystem :=
  match current_patient self with
  | None => Py.Raise session_not_started
  | Some p =>
      Py.Ok (with_patient self (Some
        {| age := age p; gender := gender p;
           chief_complaint := chief_complaint p; symptoms := symptoms p;
           symptom_duration := symptom_duration p;
           symptom_severity := symptom_severity p;
           pain_location := pain_location p;
           medical_history := medical_history p;
           current_medications := current_medications p;
           allergies := allergies p;
           insurance_provider := insurance_provider p;
           insurance_member_id := insurance_member_id p;
           phone_number := Some phone; email := email_;
           preferred_time := preferred_time p;
           urgency_perception := urgency_perception p;
           session_id := session_id p; timestamp := timestamp p |}))
  end.

Definition collect_preferences (preferred urgency : string)
    (self : PatientIntakeSystem) : Py.result PatientIntakeSystem :=
  match current_patient self with
  | None => Py.Raise session_not_started
  | Some p =>
      Py.Ok (with_patient self (Some
        {| age := age p; gender := gender p;
           chief_complaint := chief_complaint p; symptoms := symptoms p;
           symptom_duration := symptom_duration p;
           symptom_severity := symptom_severity p;
           pain_location := pain_location p;
           medical_history := medical_history p;
           current_medications := current_medications p;
           allergies := allergies p;
           insurance_provider := insurance_provider p;
           insurance_member_id := insurance_member_id p;
           phone_number := phone_number p; email := email p;
           preferred_time := Some preferred;
           urgency_perception := Some urgency;
           session_id := session_id p; timestamp := timestamp p |}))
  end.

(** [" ".join([chief_complaint or ""] + symptoms).lower()] *)
Definition symptoms_text (p : PatientInfo) : string :=
  let chief := match chief_complaint p with
               | Some c => c
               | None => ""
               end in
  Py.lower (Py.join " " (chief :: symptoms p)).

(** [if n:] on an optional integer: set, and not zero. *)
Definition nonzero (n : option Z) : option Z :=
  match n with
  | Some z => if z =? 0 then None else Some z
  | None => None
  end.

Definition keyword_flags (keywords : list string) (text : string) : list string :=
  fold_left
    (fun flags keyword =>
       if Py.contains keyword text
       then (flags ++ [("Emergency keyword detected: " ++ keyword)%string])%list
       else flags)
    keywords [].

Definition severity_flags (p : PatientInfo) : list string :=
  match nonzero (symptom_severity p) with
  | Some sev =>
      if 8 <=? sev
      then ["High severity score: " ++ Py.str_of_Z sev ++ "/10"]
      else []
  | None => []
  end.

Definition age_flags (p : PatientInfo) (text : string) : list string :=
  match nonzero (age p) with
  | Some a =>
      ((if (65 <=? a) && Py.contains "chest pain" text
        then ["Chest pain in elderly patient"] else [])
       ++
       (if (a <? 5) && Py.contains "fever" text
        then ["Fever in young child"] else []))%list
  | None => []
  end.

Definition check_emergency_indicators (self : PatientIntakeSystem)
  : bool * list string :=
  match current_patient self with
  | None => (false, [])
  | Some p =>
      let text := symptoms_text p in
      let emergency_flags :=
        (keyword_flags (emergency_keywords self) text
         ++ severity_flags p ++ age_flags p text)%list in
      ((0 <? length emergency_flags)%nat, emergency_flags)
  end.

Definition _generate_emergency_recommendation (emergency_flags : list string)
  : TriageRecommendation :=
  {| urgency_level := Py.VStr "EMERGENCY";
     recommended_department := Py.VStr "Emergency Department";
     estimated_wait_time := Py.VStr "0-5 minutes";
     priority_score := Py.VInt 1;
     next_steps :=
       ["ðŸš¨ Seek immediate emergency care";
        "Call 911 if symptoms are severe";
        "Go to nearest emergency room";
        "Do not drive yourself if experiencing severe symptoms"];
     required_documents := ["Photo ID"; "Insurance card"];
     preparation_instructions :=
       ["Bring all current medications";
        "Prepare to describe symptoms to medical staff";
        "Have emergency contact information ready"];
     recommended_time_slots := ["immediately"; "ASAP"];
     alternative_options := ["Call 911"; "Go to nearest emergency room"];
     insurance_coverage :=
       {["emergency_coverage" := Py.VStr "Emergency care typically covered"]};
     estimated_cost := Py.VStr "Emergency copay applies";
     warning_signs := emergency_flags;
     medical_disclaimer :=
       "This is an emergency situation. Seek immediate medical attention." |}.

(** [if s:] on an optional text: set, and not empty. *)
Definition nonempty (s : option string) : option string :=
  match s with
  | Some t => if String.eqb t "" then None else Some t
  | None => None
  end.

Definition _build_triage_query (p : PatientInfo) : string :=
  let query_parts :=
    match nonempty (chief_complaint p) with
    | Some c => [c]
    | None => []
    end in
  let query_parts := (query_parts ++ symptoms p)%list in
  let query_parts :=
    match nonzero (age p) with
    | Some a => (query_parts ++ [("age " ++ Py.str_of_Z a)%string])%list
    | None => query_parts
    end in
  let query_parts :=
    match nonzero (symptom_severity p) with
    | Some sev =>
        if 7 <=? sev then (query_parts ++ ["severe symptoms"])%list
        else if 4 <=? sev then (query_parts ++ ["moderate symptoms"])%list
        else query_parts
    | None => query_parts
    end in
  Py.join " " query_parts.

Definition _generate_preparation_instructions (p : PatientInfo) : list string :=
  let instructions :=
    ["Arrive 15-30 minutes before your appointment";
     "Bring a list of current medications";
     "Prepare questions for your healthcare provider"] in
  let instructions :=
    match allergies p with
    | [] => instructions
    | _ => (instructions ++ ["Be prepared to discuss your allergies"])%list
    end in
  match medical_history p with
  | [] => instructions
  | _ => (instructions ++ ["Bring relevant medical history documents"])%list
  end.

Definition _get_recommended_time_slots (self : PatientIntakeSystem)
    (urgency : Py.value) : Py.result (list string) :=
  match urgency with
  | Py.VStr u =>
      match time_slots self !! "routine" with
      | Some routine => Py.Ok (default routine (time_slots self !! Py.lower u))
      | None => Py.Raise (Py.Exn "KeyError" "'routine'")
      end
  | v => Py.Raise (Py.no_attribute v "lower")
  end.

Definition _get_alternative_options (urgency : Py.value) : list string :=
  if Py.is_str urgency "EMERGENCY"
  then ["Emergency Department"; "Call 911"; "Urgent Care (if symptoms improve)"]
  else if Py.is_str urgency "URGENT"
  then ["Urgent Care"; "Same-day appointment"; "Telehealth consultation"]
  else ["Regular appointment"; "Telehealth consultation"; "Walk-in clinic"].

Definition _get_warning_signs (p : PatientInfo) : list string :=
  let warning_signs :=
    ["Worsening symptoms"; "New severe symptoms"; "Difficulty breathing";
     "Severe pain (8/10 or higher)"] in
  let text := symptoms_text p in
  let warning_signs :=
    if Py.contains "chest" text
    then (warning_signs ++
          ["Pain radiating to arm or jaw"; "Sweating with chest pain";
           "Nausea with chest pain"])%list
    else warning_signs in
  if Py.contains "headache" text
  then (warning_signs ++
        ["Sudden severe headache"; "Headache with stiff neck";
         "Headache with vision changes"])%list
  else warning_signs.

(** A result together with the queries handed to
    [rag_pipeline.process_query] on the way, in order. *)
Definition traced (A : Type) : Type := list string * Py.result A.

Definition emergency_copay_of (content : string) : option string :=
  if Py.contains "Emergency Copay:" content
  then option_map (fun rest => Py.strip (Py.before_first "
" rest)) (Py.split_second "Emergency Copay:" content)
  else None.

Section Hashed.
Variable hash : string -> Z.

Definition get_insurance_info (self : PatientIntakeSystem) (provider : string)
  : traced (gmap string Py.value) :=
  let q := "insurance coverage copay " ++ provider in
  ([q],
   Py.bind (Rag.process_query hash (rag_pipeline self) q) (fun response =>
     let contact := Py.VStr "Contact insurance for details" in
     let insurance_info : gmap string Py.value :=
       <["provider" := Py.VStr provider]>
       (<["accepted" := Py.VBool true]>
       (<["emergency_copay" := contact]>
       (<["urgent_care_copay" := contact]>
       (<["specialist_copay" := contact]>
       (<["primary_care_copay" := contact]>
       (<["notes" := Py.VStr (Rag.answer response)]> ∅)))))) in
     Py.Ok (fold_left
       (fun (info : gmap string Py.value) src =>
          if Py.is_str (Rag.type src) "insurance"
             && Py.contains (Py.lower provider) (Py.lower (Rag.content_preview src))
          then match emergency_copay_of (Rag.content_preview src) with
               | Some copay => <["emergency_copay" := Py.VStr copay]> info
               | None => info
               end
          else info)
       (Rag.sources response) insurance_info))).

Definition generate_triage_recommendation (self : PatientIntakeSystem)
  : traced TriageRecommendation :=
  match current_patient self with
  | None => ([], Py.Raise no_patient_information)
  | Some p =>
      let '(is_emergency, emergency_flags) := check_emergency_indicators self in
      if is_emergency
      then ([], Py.Ok (_generate_emergency_recommendation emergency_flags))
      else
        let q := _build_triage_query p in
        match Rag.process_query hash (rag_pipeline self) q with
        | Py.Raise e => ([q], Py.Raise e)
        | Py.Ok response =>
            let hint :=
              match Rag.triage_info response with
              | Some info => if bool_decide (info = ∅) then None else Some info
              | None => None
              end in
            let from_hint (key : string) (dflt : Py.value) :=
              match hint with
              | Some info => Rag.get_or info key dflt
              | None => dflt
              end in
            let urgency := from_hint "urgency_level" (Py.VStr "ROUTINE") in
            let '(asked, insurance) :=
              match nonempty (insurance_provider p) with
              | Some provider => get_insurance_info self provider
              | None => ([], Py.Ok ∅)
              end in
            (q :: asked,
             Py.bind insurance (fun insurance_info =>
             Py.bind (_get_recommended_time_slots self urgency) (fun slots =>
             Py.Ok
               {| urgency_level := urgency;
                  recommended_department :=
                    from_hint "department" (Py.VStr "Internal Medicine");
                  estimated_wait_time :=
                    from_hint "estimated_wait" (Py.VStr "15-30 minutes");
                  priority_score := from_hint "priority" (Py.VInt 3);
                  next_steps := default [] (Rag.next_steps response);
                  required_documents :=
                    ["Photo ID"; "Insurance card"; "Medication list"];
                  preparation_instructions :=
                    _generate_preparation_instructions p;
                  recommended_time_slots := slots;
                  alternative_options := _get_alternative_options urgency;
                  insurance_coverage := insurance_info;
                  estimated_cost :=
                    Rag.get_or insurance_info "primary_care_copay"
                      (Py.VStr "Contact insurance for estimate");
                  warning_signs := _get_warning_signs p;
                  medical_disclaimer :=
                    "This is not medical advice. Please consult a qualified healthcare provider for proper medical evaluation and treatment." |})))
        end
  end.

Definition str_of_option_Z (n : option Z) : string :=
  match n with
  | Some z => Py.str_of_Z z
  | None => "None"
  end.

Definition str_of_option (s : option string) : string :=
  match s with
  | Some t => t
  | None => "None"
  end.

Definition _generate_visit_summary (p : PatientInfo)
    (triage_rec : TriageRecommendation) : string :=
  let summary_parts :=
    ["Patient: " ++ str_of_option_Z (age p) ++ "-year-old "
       ++ str_of_option (gender p);
     "Chief complaint: " ++ str_of_option (chief_complaint p);
     "Recommended: " ++ Py.str (recommended_department triage_rec);
     "Urgency: " ++ Py.str (urgency_level triage_rec);
     "Estimated wait: " ++ Py.str (estimated_wait_time triage_rec)] in
  let summary_parts :=
    match nonempty (insurance_provider p) with
    | Some provider => (summary_parts ++ [("Insurance: " ++ provider)%string])%list
    | None => summary_parts
    end in
  Py.join " | " summary_parts.

(** [generate_visit_plan]; [in_two_hours] is
    [(now + timedelta(hours=2)).strftime("%I:%M %p today")]. *)
Definition generate_visit_plan (in_two_hours : string)
    (self : PatientIntakeSystem) : traced VisitPlan :=
  match current_patient self with
  | None => ([], Py.Raise no_patient_information)
  | Some p =>
      let '(asked, triage) := generate_triage_recommendation self in
      (asked,
       Py.bind triage (fun triage_rec =>
         let urgency := urgency_level triage_rec in
         let '(check_in, total) :=
           if Py.is_str urgency "EMERGENCY" then ("Immediately", "2-4 hours")
           else if Py.is_str urgency "URGENT" then (in_two_hours, "1-2 hours")
           else ("Next available appointment", "1 hour") in
         Py.Ok
           {| patient_info := p;
              triage_recommendation := triage_rec;
              check_in_time := check_in;
              estimated_total_time := total;
              parking_info :=
                "Free parking available in main lot. Valet service for emergency patients.";
              directions :=
                "Enter through main entrance. Follow signs to appropriate department.";
              follow_up_needed :=
                Py.is_str urgency "URGENT" || Py.is_str urgency "ROUTINE";
              specialist_referral := None;
              visit_summary := _generate_visit_summary p triage_rec;
              confidence_score := Float.decimal 85 100 |}))
  end.

End Hashed.

(** The fields set by [__init__] never change: only [current_patient]
    does. *)
Inductive reachable : PatientIntakeSystem -> Prop :=
| reach_init pipeline : reachable (init pipeline)
| reach_start sid stamp s :
    reachable s -> reachable (start_new_intake sid stamp s)
| reach_basic sid stamp a g s :
    reachable s -> reachable (collect_basic_info sid stamp a g s)
| reach_symptoms c l d v loc s s' :
    reachable s -> collect_symptoms c l d v loc s = Py.Ok s' -> reachable s'
| reach_history h m a s s' :
    reachable s -> collect_medical_history h m a s = Py.Ok s' -> reachable s'
| reach_insurance pr mid s s' :
    reachable s -> collect_insurance_info pr mid s = Py.Ok s' -> reachable s'
| reach_contact ph em s s' :
    reachable s -> collect_contact_info ph em s = Py.Ok s' -> reachable s'
| reach_preferences t u s s' :
    reachable s -> collect_preferences t u s = Py.Ok s' -> reachable s'.

Definition configured (s : PatientIntakeSystem) : Prop :=
  s = with_patient (init (rag_pipeline s)) (current_patient s).

(** The severity a call of [collect_symptoms] leaves in the session. *)
Definition stored_severity (r : Py.result PatientIntakeSystem) : option Z :=
  match r with
  | Py.Ok s =>
      match current_patient s with
      | Some p => symptom_severity p
      | None => None
      end
  | Py.Raise _ => None
  end.

Definition severity_labels : list string :=
  ["mild"; "moderate"; "severe"; "unbearable"].

End Intake.

(** ** A store without documents, and the systems built on it *)

Module Fixtures.

Definition no_rows : VectorDB.QueryResult :=
  {| VectorDB.documents := Some [[]];
     VectorDB.metadatas := Some [[]];
     VectorDB.distances := Some [[]] |}.

(** An index that never finds anything. *)
Definition silent_collection : VectorDB.Collection :=
  {| VectorDB.name := "healthcare_knowledge";
     VectorDB.records := [];
     VectorDB.nn_search := fun _ _ _ _ => Py.Ok no_rows |}.

Definition silent_db : VectorDB.HealthcareVectorDB :=
  VectorDB.init "./chroma_db" silent_collection None.

Definition silent_pipeline : Rag.HealthcareRAGPipeline :=
  {| Rag.vector_db := silent_db;
     Rag.llm_type := "simple";
     Rag.use_advanced_llm := false;
     Rag.messages_available := false;
     Rag.llm := fun _ _ => None |}.

(** Another hash with the same residues modulo 1000. *)
Definition shifted_hash : string -> Z := fun _ => 1000.

Definition faq : DataProcessor.Document :=
  {| DataProcessor.content := "Q: What should I bring?
A: Photo ID and insurance card";
     DataProcessor.metadata := {["type" := Py.VStr "faq"]};
     DataProcessor.source := "hospital_faqs" |}.

Definition cardiology : DataProcessor.Document :=
  {| DataProcessor.content := "Department: Cardiology";
     DataProcessor.metadata := {["type" := Py.VStr "department"]};
     DataProcessor.source := "department_policies" |}.

(** A store that holds one record already. *)
Definition held_collection : VectorDB.Collection :=
  {| VectorDB.name := "healthcare_knowledge";
     VectorDB.records :=
       [ {| VectorDB.rec_id := "hospital_faqs_0";
            VectorDB.rec_document := DataProcessor.content faq;
            VectorDB.rec_metadata := DataProcessor.metadata faq;
            VectorDB.rec_embedding := repeat 0%R 384 |} ];
     VectorDB.nn_search := VectorDB.nn_search silent_collection |}.

(** A second handle on the empty store, opened elsewhere. *)
Definition other_db : VectorDB.HealthcareVectorDB :=
  VectorDB.init "./elsewhere" silent_collection None.

(** An index that always finds one insurance document at distance 0.3. *)
Definition copay_doc : Rag.context_doc :=
  {| Rag.content := "Insurance Provider: Acme Health
Emergency Copay: $250
Urgent Care Copay: $75";
     Rag.metadata := {["type" := Py.VStr "insurance"]};
     Rag.distance := Float.decimal 3 10 |}.

Definition copay_collection : VectorDB.Collection :=
  {| VectorDB.name := "healthcare_knowledge";
     VectorDB.records := [];
     VectorDB.nn_search := fun _ _ _ _ =>
       Py.Ok {| VectorDB.documents := Some [[Rag.content copay_doc]];
                VectorDB.metadatas := Some [[Rag.metadata copay_doc]];
                VectorDB.distances := Some [[Rag.distance copay_doc]] |} |}.

Definition copay_pipeline : Rag.HealthcareRAGPipeline :=
  {| Rag.vector_db := VectorDB.init "./chroma_db" copay_collection None;
     Rag.llm_type := "simple";
     Rag.use_advanced_llm := false;
     Rag.messages_available := false;
     Rag.llm := fun _ _ => None |}.

(** A hash that sends every word to bucket 0. *)
Definition flat_hash : string -> Z := fun _ => 0.

(** The builtin hash of another interpreter process, salted otherwise. *)
Definition salted_hash : string -> Z := fun _ => 1.

Definition fresh_system : Intake.PatientIntakeSystem :=
  Intake.init silent_pipeline.

(** An infant (age 0) with a fever, severity mild. *)
Definition infant_with_fever : Intake.PatientInfo :=
  {| Intake.age := Some 0; Intake.gender := Some "female";
     Intake.chief_complaint := Some "high fever";
     Intake.symptoms := ["fever"];
     Intake.symptom_duration := Some "1 day";
     Intake.symptom_severity := Some 1;
     Intake.pain_location := None;
     Intake.medical_history := []; Intake.current_medications := [];
     Intake.allergies := [];
     Intake.insurance_provider := None; Intake.insurance_member_id := None;
     Intake.phone_number := None; Intake.email := None;
     Intake.preferred_time := None; Intake.urgency_perception := None;
     Intake.session_id := "20240101_090000";
     Intake.timestamp := "2024-01-01T09:00:00" |}.

Definition infant_system (pipeline : Rag.HealthcareRAGPipeline)
  : Intake.PatientIntakeSystem :=
  Intake.with_patient (Intake.init pipeline) (Some infant_with_fever).

(** A man of 55 with severe chest pain, and a man of 70 with mild
    chest pain. *)
Definition chest_pain_at_55 : Py.result Intake.PatientIntakeSystem :=
  Intake.collect_symptoms "severe chest pain" ["chest pain"; "shortness of breath"]
    "1 hour" "severe" None
    (Intake.collect_basic_info "20240101_090000" "2024-01-01T09:00:00" 55 "male"
       fresh_system).

Definition chest_pain_at_70 : Py.result Intake.PatientIntakeSystem :=
  Intake.collect_symptoms "mild chest pain" [] "1 hour" "mild" None
    (Intake.collect_basic_info "20240101_090000" "2024-01-01T09:00:00" 70 "male"
       fresh_system).

(** The triage of a session, when the intake calls went through. *)
Definition triage_of (session : Py.result Intake.PatientIntakeSystem)
  : Intake.traced Intake.TriageRecommendation :=
  match session with
  | Py.Ok s => Intake.generate_triage_recommendation flat_hash s
  | Py.Raise e => ([], Py.Raise e)
  end.

(** A session just started on the empty store. *)
Definition started_system : Intake.PatientIntakeSystem :=
  Intake.start_new_intake "20240101_090000" "2024-01-01T09:00:00" fresh_system.

(** The session that the intake calls leave for that infant. *)
Definition infant_session (pipeline : Rag.HealthcareRAGPipeline)
  : Py.result Intake.PatientIntakeSystem :=
  Intake.collect_symptoms "high fever" ["fever"] "1 day" "mild" None
    (Intake.collect_basic_info "20240101_090000" "2024-01-01T09:00:00" 0 "Female"
       (Intake.init pipeline)).

End Fixtures.

(** ** More stores and pipelines *)

Module Cases.

(** A pipeline over an index that always answers [results]. *)
Definition answering (results : VectorDB.QueryResult) : Rag.HealthcareRAGPipeline :=
  {| Rag.vector_db :=
       VectorDB.init "./chroma_db"
         {| VectorDB.name := "healthcare_knowledge";
            VectorDB.records := [];
            VectorDB.nn_search := fun _ _ _ _ => Py.Ok results |} None;
     Rag.llm_type := "simple";
     Rag.use_advanced_llm := false;
     Rag.messages_available := false;
     Rag.llm := fun _ _ => None |}.

(** A triage document whose metadata carries no urgency level. *)
Definition bare_triage : Rag.context_doc :=
  {| Rag.content := "Symptoms: rash";
     Rag.metadata := {["type" := Py.VStr "triage"]};
     Rag.distance := Float.decimal 4 10 |}.

Definition bare_triage_results : VectorDB.QueryResult :=
  {| VectorDB.documents := Some [[Rag.content bare_triage]];
     VectorDB.metadatas := Some [[Rag.metadata bare_triage]];
     VectorDB.distances := Some [[Rag.distance bare_triage]] |}.

(** A triage document as the corpus builder writes it. *)
Definition rash_triage : Rag.context_doc :=
  {| Rag.content := "Symptoms: rash, itching
Urgency Level: routine";
     Rag.metadata :=
       <["type" := Py.VStr "triage"]>
       (<["urgency_level" := Py.VStr "routine"]>
       (<["department" := Py.VStr "Dermatology"]>
       (<["priority" := Py.VInt 4]> ∅)));
     Rag.distance := Float.decimal 2 10 |}.

(** An answer with two documents and one row of metadata too short. *)
Definition short_metadata_results : VectorDB.QueryResult :=
  {| VectorDB.documents := Some [["first"; "second"]];
     VectorDB.metadatas := Some [[∅]];
     VectorDB.distances := Some [[Float.decimal 1 10; Float.decimal 2 10]] |}.

Definition rash_results : VectorDB.QueryResult :=
  {| VectorDB.documents := Some [[Rag.content Fixtures.copay_doc; Rag.content rash_triage]];
     VectorDB.metadatas := Some [[Rag.metadata Fixtures.copay_doc; Rag.metadata rash_triage]];
     VectorDB.distances := Some [[Rag.distance Fixtures.copay_doc; Rag.distance rash_triage]] |}.

(** The intake of a woman of 28 with a rash, insured with Acme Health. *)
Definition rash_session (pipeline : Rag.HealthcareRAGPipeline)
  : Py.result Intake.PatientIntakeSystem :=
  Py.bind
    (Intake.collect_symptoms "skin rash" ["rash"; "itching"] "2 days" "mild" None
       (Intake.collect_basic_info "20240101_090000" "2024-01-01T09:00:00" 28 "female"
          (Intake.init pipeline)))
    (Intake.collect_insurance_info "Acme Health" None).

(** The patient record those calls leave, and the system holding it. *)
Definition rash_patient : Intake.PatientInfo :=
  {| Intake.age := Some 28; Intake.gender := Some "female";
     Intake.chief_complaint := Some "skin rash";
     Intake.symptoms := ["rash"; "itching"];
     Intake.symptom_duration := Some "2 days";
     Intake.symptom_severity := Some 1;
     Intake.pain_location := None; Intake.medical_history := [];
     Intake.current_medications := []; Intake.allergies := [];
     Intake.insurance_provider := Some "Acme Health";
     Intake.insurance_member_id := None; Intake.phone_number := None;
     Intake.email := None; Intake.preferred_time := None;
     Intake.urgency_perception := None;
     Intake.session_id := "20240101_090000";
     Intake.timestamp := "2024-01-01T09:00:00" |}.

Definition rash_system (pipeline : Rag.HealthcareRAGPipeline)
  : Intake.PatientIntakeSystem :=
  Intake.with_patient (Intake.init pipeline) (Some rash_patient).

(** The insurance document found at another distance. *)
Definition copay_at (d : Float.float) : Rag.context_doc :=
  {| Rag.content := Rag.content Fixtures.copay_doc;
     Rag.metadata := Rag.metadata Fixtures.copay_doc;
     Rag.distance := d |}.

(** A document at a negative distance, as an index over an inner-product
    space reports it. *)
Definition inner_product_doc : Rag.context_doc :=
  {| Rag.content := "Visiting hours are 9 AM to 8 PM";
     Rag.metadata := {["type" := Py.VStr "faq"]};
     Rag.distance := Float.decimal (-5) 10 |}.

Definition inner_product_results : VectorDB.QueryResult :=
  {| VectorDB.documents := Some [[Rag.content inner_product_doc]];
     VectorDB.metadatas := Some [[Rag.metadata inner_product_doc]];
     VectorDB.distances := Some [[Rag.distance inner_product_doc]] |}.

(** A patient of 70 who reports every emergency keyword at the highest
    severity. *)
Definition every_alarm : Py.result Intake.PatientIntakeSystem :=
  Intake.collect_symptoms "chest pain after a stroke"
    ["difficulty breathing"; "unconscious"; "bleeding heavily"; "severe injury";
     "overdose"; "suicide"; "heart attack"; "allergic reaction"; "severe burn";
     "broken bone"; "head injury"]
    "1 hour" "unbearable" None
    (Intake.collect_basic_info "20240101_090000" "2024-01-01T09:00:00" 70 "male"
       Fixtures.fresh_system).

(** A document that comes without metadata. *)
Definition untyped_note : DataProcessor.Document :=
  {| DataProcessor.content := "Cafeteria opens at 7 AM";
     DataProcessor.metadata := ∅;
     DataProcessor.source := "notes" |}.

(** The same store behind a generative model that fails on every call. *)
Definition with_failing_llm (p : Rag.HealthcareRAGPipeline) : Rag.HealthcareRAGPipeline :=
  {| Rag.vector_db := Rag.vector_db p;
     Rag.llm_type := "openai";
     Rag.use_advanced_llm := true;
     Rag.messages_available := true;
     Rag.llm := fun _ _ => None |}.

End Cases.

(** * Properties *)

Example int_examples :
  map Py.int [" 7 "; "+7"; "1_0"; "-0_3"; "5.0"; ""; "1__0"; "_1"; "1_"; "+ 5"; "x"]
  = [Some 7; Some 7; Some 10; Some (-3); None; None; None; None; None; None; None].
Proof. reflexivity. Qed.

Example split_example :
  Py.split "  Chest  pain
 now " = ["Chest"; "pain"; "now"].
Proof. reflexivity. Qed.

Example infant_session_is :
  forall pipeline,
    Fixtures.infant_session pipeline
    = Py.Ok (Fixtures.infant_system pipeline).
Proof. intros. reflexivity. Qed.

(** ** Session state *)

Section SessionState.
Import Intake.

Lemma configured_with_patient s p :
  configured s -> configured (with_patient s p).
Proof.
  unfold configured. intros H. rewrite H at 1. reflexivity.
Qed.

Ltac session_step H :=
  unfold collect_symptoms, collect_medical_history, collect_insurance_info,
    collect_contact_info, collect_preferences in H;
  match type of H with
  | context [current_patient ?s] => destruct (current_patient s); [|discriminate]
  end;
  injection H as <-; apply configured_with_patient; assumption.

Lemma reachable_configured s : reachable s -> configured s.
Proof.
  induction 1 as [pl| | ? ? ? ? s ? IH |? ? ? ? ? ? ? ? IH E|? ? ? ? ? ? IH E
                 |? ? ? ? ? IH E|? ? ? ? ? IH E|? ? ? ? ? IH E].
  - reflexivity.
  - apply configured_with_patient; assumption.
  - unfold collect_basic_info.
    destruct (current_patient s) eqn:E.
    + rewrite E. apply configured_with_patient; assumption.
    + cbn. apply configured_with_patient, configured_with_patient; assumption.
  - session_step E.
  - session_step E.
  - session_step E.
  - session_step E.
  - session_step E.
Qed.

(** C2 as stated fails: a collection method called without a session
    raises the built-in [ValueError], and so does plan generation; the
    names [SessionNotStartedError] and [NoPatientDataError] are not
    classes of the code. *)
Lemma session_errors_are_value_errors :
  collect_symptoms "cough" [] "1 day" "mild" None Fixtures.fresh_system
    = Py.Raise (Py.Exn "ValueError" "Must start intake session first")
  /\ ~ Py.raises
         (collect_symptoms "cough" [] "1 day" "mild" None Fixtures.fresh_system)
         "SessionNotStartedError"
  /\ snd (generate_visit_plan Fixtures.flat_hash "11:00 AM today" Fixtures.fresh_system)
    = Py.Raise (Py.Exn "ValueError" "No patient information available")
  /\ ~ Py.raises
         (snd (generate_visit_plan Fixtures.flat_hash "11:00 AM today"
                 Fixtures.fresh_system))
         "NoPatientDataError".
Proof.
  repeat split; try reflexivity; intros [msg H]; cbv in H; discriminate H.
Qed.

(** C2 (amended). Without a session, the five collection methods after
    the basic-info step raise [ValueError("Must start intake session
    first")], plan and triage generation raise [ValueError("No patient
    information available")] before any retrieval, and
    [collect_basic_info] starts a session itself and records age and
    gender in it. *)
Theorem session_state_contract (hash : string -> Z) (self : PatientIntakeSystem) :
  current_patient self = None ->
  (forall c l d v loc,
      collect_symptoms c l d v loc self = Py.Raise (Py.ValueError "Must start intake session first"))
  /\ (forall h m a,
      collect_medical_history h m a self = Py.Raise (Py.ValueError "Must start intake session first"))
  /\ (forall pr mid,
      collect_insurance_info pr mid self = Py.Raise (Py.ValueError "Must start intake session first"))
  /\ (forall ph em,
      collect_contact_info ph em self = Py.Raise (Py.ValueError "Must start intake session first"))
  /\ (forall t u,
      collect_preferences t u self = Py.Raise (Py.ValueError "Must start intake session first"))
  /\ (forall t,
      generate_visit_plan hash t self
      = ([], Py.Raise (Py.ValueError "No patient information available")))
  /\ generate_triage_recommendation hash self
     = ([], Py.Raise (Py.ValueError "No patient information available"))
  /\ (forall sid stamp a g,
      collect_basic_info sid stamp a g self
      = collect_basic_info sid stamp a g (start_new_intake sid stamp self)
      /\ exists p, current_patient (collect_basic_info sid stamp a g self) = Some p
                   /\ age p = Some a /\ gender p = Some (Py.lower g)
                   /\ session_id p = sid).
Proof.
  intros E.
  unfold collect_symptoms, collect_medical_history, collect_insurance_info,
    collect_contact_info, collect_preferences, generate_visit_plan,
    generate_triage_recommendation, collect_basic_info.
  rewrite E. repeat split; try reflexivity.
  cbn. eexists. repeat split.
Qed.

Lemma session_state_contract_witness :
  current_patient Fixtures.fresh_system = None
  /\ generate_triage_recommendation Fixtures.flat_hash Fixtures.fresh_system
     = ([], Py.Raise (Py.ValueError "No patient information available")).
Proof.
  split; [reflexivity|].
  apply (session_state_contract Fixtures.flat_hash Fixtures.fresh_system).
  reflexivity.
Defined.

End SessionState.

(** ** Severity *)

Section Severity.
Import Intake.

Lemma severity_lookup (pl : Rag.HealthcareRAGPipeline) (k : string) :
  severity_mappings (init pl) !! k =
  if decide (k = "mild") then Some 1
  else if decide (k = "moderate") then Some 5
  else if decide (k = "severe") then Some 9
  else if decide (k = "unbearable") then Some 10
  else None.
Proof.
  cbn [severity_mappings init].
  rewrite !lookup_insert, lookup_empty.
  repeat case_decide; congruence.
Qed.

Lemma convert_severity_configured (self : PatientIntakeSystem) (v : string) :
  configured self ->
  convert_severity self v =
  if decide (Py.lower v = "mild") then 1
  else if decide (Py.lower v = "moderate") then 5
  else if decide (Py.lower v = "severe") then 9
  else if decide (Py.lower v = "unbearable") then 10
  else match Py.int v with
       | Some n => n
       | None => 5
       end.
Proof.
  intros C. unfold convert_severity. rewrite C.
  change (severity_mappings (with_patient (init (rag_pipeline self)) (current_patient self)))
    with (severity_mappings (init (rag_pipeline self))).
  rewrite severity_lookup.
  repeat case_decide; reflexivity.
Qed.

(** The three rules of [collect_symptoms]: in a started session it
    stores 1, 5, 9 and 10 for mild, moderate, severe and unbearable in any
    capitalisation, the integer [int(severity)] for any other text that
    [int] accepts, and 5 for the rest. The labels and the default lie
    between 1 and 10. *)
Theorem collect_symptoms_severity (self : PatientIntakeSystem)
    (c : string) (l : list string) (d v : string) (loc : option string) :
  reachable self ->
  current_patient self <> None ->
  exists n,
    stored_severity (collect_symptoms c l d v loc self) = Some n
    /\ (Py.lower v = "mild" -> n = 1)
    /\ (Py.lower v = "moderate" -> n = 5)
    /\ (Py.lower v = "severe" -> n = 9)
    /\ (Py.lower v = "unbearable" -> n = 10)
    /\ (~ In (Py.lower v) severity_labels ->
        forall z, Py.int v = Some z -> n = z)
    /\ (~ In (Py.lower v) severity_labels -> Py.int v = None -> n = 5)
    /\ (In (Py.lower v) severity_labels \/ Py.int v = None -> 1 <= n <= 10).
Proof.
  intros R S.
  pose proof (convert_severity_configured self v (reachable_configured self R)) as E.
  exists (convert_severity self v). split.
  - unfold collect_symptoms. destruct (current_patient self); [reflexivity|congruence].
  - rewrite E. unfold severity_labels. cbn [In].
    repeat case_decide; repeat split; intros.
    all: try lia; try congruence.
    all: try (exfalso; intuition congruence).
    all: destruct (Py.int v) eqn:Hint; try congruence; try lia.
    all: try (exfalso; intuition congruence).
Qed.

Lemma collect_symptoms_severity_witness :
  reachable Fixtures.started_system
  /\ current_patient Fixtures.started_system <> None
  /\ Py.lower "SeVere" = "severe"
  /\ stored_severity
       (collect_symptoms "Chest" [] "1h" "SeVere" None Fixtures.started_system)
     = Some 9.
Proof.
  assert (R : reachable Fixtures.started_system) by (apply reach_start, reach_init).
  assert (S : current_patient Fixtures.started_system <> None) by discriminate.
  split; [exact R|]. split; [exact S|]. split; [reflexivity|].
  destruct (collect_symptoms_severity Fixtures.started_system
              "Chest" [] "1h" "SeVere" None R S) as (n & E & _ & _ & H & _).
  rewrite E, (H eq_refl). reflexivity.
Defined.

(** A number is stored as parsed, a label in any other wording is not a
    label. *)
Example severity_examples :
  map (fun v => stored_severity
                  (collect_symptoms "Chest" [] "1h" v None Fixtures.started_system))
      ["mild"; "Moderate"; "SEVERE"; "unbearable"; " 7 "; "42"; "-3";
       "Very Severe"; ""; "7.5"]
  = [Some 1; Some 5; Some 9; Some 10; Some 7; Some 42; Some (-3);
     Some 5; Some 5; Some 5].
Proof. vm_compute. reflexivity. Qed.

(** C5. The severity is not held to the 1-10 scale its field is
    documented with: in a session just started, a numeric string is stored
    as [int] parses it, also when the number is 0, negative or above 10. *)
Theorem numeric_severity_unchecked (pipeline : Rag.HealthcareRAGPipeline)
    (sid stamp c d : string) (l : list string) (loc : option string) :
  map (fun v => stored_severity
                  (collect_symptoms c l d v loc
                     (start_new_intake sid stamp (init pipeline))))
      ["42"; "11"; "0"; "-3"; " 7 "]
  = [Some 42; Some 11; Some 0; Some (-3); Some 7].
Proof.
  assert (R : reachable (start_new_intake sid stamp (init pipeline)))
    by apply reach_start, reach_init.
  assert (E : forall v,
             stored_severity
               (collect_symptoms c l d v loc (start_new_intake sid stamp (init pipeline)))
             = Some (convert_severity (start_new_intake sid stamp (init pipeline)) v))
    by reflexivity.
  cbn [map]. rewrite !E.
  rewrite !(convert_severity_configured _ _ (reachable_configured _ R)).
  reflexivity.
Qed.

End Severity.

(** ** Emergency indicators *)

Section Emergency.
Import Intake.

Lemma keyword_flags_from (ks : list string) (t : string) (acc : list string) :
  fold_left
    (fun flags keyword =>
       if Py.contains keyword t
       then (flags ++ [("Emergency keyword detected: " ++ keyword)%string])%list
       else flags) ks acc
  = (acc ++ map (fun k => ("Emergency keyword detected: " ++ k)%string)
              (List.filter (fun k => Py.contains k t) ks))%list.
Proof.
  revert acc. induction ks as [|k ks IH]; intros acc; cbn.
  - symmetry. apply app_nil_r.
  - rewrite IH. destruct (Py.contains k t); cbn.
    + rewrite <- app_assoc. reflexivity.
    + reflexivity.
Qed.

Lemma keyword_flags_filter (ks : list string) (t : string) :
  keyword_flags ks t
  = map (fun k => ("Emergency keyword detected: " ++ k)%string)
      (List.filter (fun k => Py.contains k t) ks).
Proof. unfold keyword_flags. rewrite keyword_flags_from. reflexivity. Qed.

Lemma keyword_flag_shape (ks : list string) (t x : string) :
  In x (keyword_flags ks t) ->
  exists k, x = ("Emergency keyword detected: " ++ k)%string.
Proof.
  rewrite keyword_flags_filter, in_map_iff. intros (k & <- & _). eauto.
Qed.

Lemma severity_flag_shape (p : PatientInfo) (x : string) :
  In x (severity_flags p) -> exists k, x = ("High severity score: " ++ k)%string.
Proof.
  unfold severity_flags.
  destruct (nonzero (symptom_severity p)) as [sev|]; [|intros []].
  destruct (8 <=? sev); [|intros []].
  intros [<-|[]]. eauto.
Qed.

Lemma age_flags_without_age (p : PatientInfo) (t : string) :
  age p = None \/ age p = Some 0 -> age_flags p t = [].
Proof. unfold age_flags. intros [-> | ->]; reflexivity. Qed.

(** C10. With the age unset or 0 the two age rules add nothing: the flags
    are those of the keywords and of the severity, and neither the
    young-child nor the elderly flag is among them, fever or not. *)
Theorem age_rules_skipped_without_age (self : PatientIntakeSystem) (p : PatientInfo) :
  current_patient self = Some p ->
  age p = None \/ age p = Some 0 ->
  snd (check_emergency_indicators self)
  = (keyword_flags (emergency_keywords self) (symptoms_text p) ++ severity_flags p)%list
  /\ ~ In "Fever in young child" (snd (check_emergency_indicators self))
  /\ ~ In "Chest pain in elderly patient" (snd (check_emergency_indicators self)).
Proof.
  intros E A. unfold check_emergency_indicators. rewrite E. cbn [snd].
  rewrite (age_flags_without_age p _ A), app_nil_r.
  split; [reflexivity|].
  split; intros H; apply in_app_or in H; destruct H as [H|H].
  - apply keyword_flag_shape in H. destruct H as [k H]. discriminate H.
  - apply severity_flag_shape in H. destruct H as [k H]. discriminate H.
  - apply keyword_flag_shape in H. destruct H as [k H]. discriminate H.
  - apply severity_flag_shape in H. destruct H as [k H]. discriminate H.
Qed.

Lemma age_rules_skipped_without_age_witness :
  age Fixtures.infant_with_fever = Some 0
  /\ 0 < 5
  /\ Py.contains "fever" (symptoms_text Fixtures.infant_with_fever) = true
  /\ ~ In "Fever in young child"
       (snd (check_emergency_indicators
               (with_patient Fixtures.fresh_system (Some Fixtures.infant_with_fever)))).
Proof.
  split; [reflexivity|]. split; [lia|]. split; [reflexivity|].
  apply (age_rules_skipped_without_age
           (with_patient Fixtures.fresh_system (Some Fixtures.infant_with_fever))
           Fixtures.infant_with_fever).
  - reflexivity.
  - right. reflexivity.
Defined.

Example infant_fever_no_flag :
  check_emergency_indicators
    (with_patient Fixtures.fresh_system (Some Fixtures.infant_with_fever))
  = (false, []).
Proof. vm_compute. reflexivity. Qed.

Lemma extract_triage_info_no_wait (docs : list Rag.context_doc)
    (info : gmap string Py.value) :
  Rag.extract_triage_info docs = Some info -> info !! "estimated_wait" = None.
Proof.
  unfold Rag.extract_triage_info.
  destruct (find Rag.is_triage docs); [|discriminate].
  intros [= <-]. rewrite !lookup_insert, lookup_empty.
  repeat case_decide; congruence.
Qed.

Lemma process_query_no_wait (hash : string -> Z) (pl : Rag.HealthcareRAGPipeline)
    (q : string) (r : Rag.RAGResponse) (info : gmap string Py.value) :
  Rag.process_query hash pl q = Py.Ok r ->
  Rag.triage_info r = Some info -> info !! "estimated_wait" = None.
Proof.
  unfold Rag.process_query.
  destruct (Rag.retrieve_context hash pl q 5) as [docs|e]; [|discriminate].
  cbn [Py.bind]. destruct docs as [|doc docs].
  - intros [= <-]. discriminate.
  - destruct (Rag.generate_next_steps _ q) as [steps|e]; [|discriminate].
    cbn [Py.bind]. intros [= <-]. cbn [Rag.triage_info].
    apply extract_triage_info_no_wait.
Qed.

(** The emergency branch: the fixed recommendation, the flags as warning
    signs, and no query to the pipeline. *)
Lemma emergency_fast_path (hash : string -> Z) (self : PatientIntakeSystem)
    (p : PatientInfo) :
  current_patient self = Some p ->
  fst (check_emergency_indicators self) = true ->
  generate_triage_recommendation hash self
  = ([], Py.Ok (_generate_emergency_recommendation
                  (snd (check_emergency_indicators self)))).
Proof.
  intros E H. unfold generate_triage_recommendation. rewrite E.
  destruct (check_emergency_indicators self) as [b flags]. cbn in H. subst b.
  reflexivity.
Qed.

(** The other branch: the triage query goes to the pipeline first, and a
    recommendation, if one comes back, carries the default wait. *)
Lemma routine_path (hash : string -> Z) (self : PatientIntakeSystem)
    (p : PatientInfo) :
  current_patient self = Some p ->
  fst (check_emergency_indicators self) = false ->
  (exists rest,
      fst (generate_triage_recommendation hash self) = _build_triage_query p :: rest)
  /\ match snd (generate_triage_recommendation hash self) with
     | Py.Ok r => estimated_wait_time r = Py.VStr "15-30 minutes"
     | Py.Raise _ => True
     end.
Proof.
  intros E H. unfold generate_triage_recommendation. rewrite E.
  destruct (check_emergency_indicators self) as [b flags]. cbn in H. subst b.
  destruct (Rag.process_query hash (rag_pipeline self) (_build_triage_query p))
    as [response|e] eqn:PQ.
  - destruct (match nonempty (insurance_provider p) with
              | Some provider => get_insurance_info hash self provider
              | None => ([], Py.Ok ∅)
              end) as [asked insurance].
    cbn [fst snd]. split; [eauto|].
    destruct insurance as [info|e]; [|exact I]. cbn [Py.bind].
    destruct (_get_recommended_time_slots self _) as [slots|e]; [|exact I].
    cbn [Py.bind estimated_wait_time].
    destruct (Rag.triage_info response) as [hint|] eqn:T; [|reflexivity].
    case_bool_decide; [reflexivity|].
    unfold Rag.get_or. rewrite (process_query_no_wait _ _ _ _ _ PQ T). reflexivity.
  - cbn [fst snd]. split; [eauto|exact I].
Qed.

(** The indicators of the code fire on a keyword, on a severity of 8 or
    more, and on the two age rules when the age is not 0. *)
Lemma indicator_fires (self : PatientIntakeSystem) (p : PatientInfo) :
  current_patient self = Some p ->
  (exists k, In k (emergency_keywords self)
             /\ Py.contains k (symptoms_text p) = true)
  \/ (exists sev, symptom_severity p = Some sev /\ 8 <= sev)
  \/ (exists a, age p = Some a /\ 65 <= a
                /\ Py.contains "chest pain" (symptoms_text p) = true)
  \/ (exists a, age p = Some a /\ a < 5 /\ a <> 0
                /\ Py.contains "fever" (symptoms_text p) = true) ->
  fst (check_emergency_indicators self) = true.
Proof.
  intros E H. unfold check_emergency_indicators. rewrite E. cbn [fst].
  apply Nat.ltb_lt. rewrite !length_app.
  destruct H as [(k & Hin & Hk)|[(sev & Hs & Hge)|[(a & Ha & Hge & Hc)|(a & Ha & Hlt & Hnz & Hf)]]].
  - assert (0 < length (keyword_flags (emergency_keywords self) (symptoms_text p)))%nat;
      [|lia].
    rewrite keyword_flags_filter, length_map.
    assert (In k (List.filter (fun k => Py.contains k (symptoms_text p)) (emergency_keywords self)))
      as Hin' by (apply filter_In; auto).
    destruct (List.filter _ _); [destruct Hin'|cbn; lia].
  - assert (0 < length (severity_flags p))%nat; [|lia].
    unfold severity_flags, nonzero. rewrite Hs.
    destruct (Z.eqb_spec sev 0); [lia|].
    destruct (Z.leb_spec 8 sev); [cbn; lia|lia].
  - assert (0 < length (age_flags p (symptoms_text p)))%nat; [|lia].
    unfold age_flags, nonzero. rewrite Ha.
    destruct (Z.eqb_spec a 0); [lia|].
    destruct (Z.leb_spec 65 a); [|lia]. rewrite Hc. cbn. lia.
  - assert (0 < length (age_flags p (symptoms_text p)))%nat; [|lia].
    unfold age_flags, nonzero. rewrite Ha.
    destruct (Z.eqb_spec a 0); [lia|].
    destruct (Z.ltb_spec a 5); [|lia]. rewrite Hf, length_app. cbn. lia.
Qed.

(** Away from age 0 the fast path is as the specification has it: any of
    the four indicators gives the fixed emergency recommendation, with
    the flags as warning signs and without a query to the pipeline. *)
Lemma emergency_when_indicated (hash : string -> Z) (self : PatientIntakeSystem)
    (p : PatientInfo) :
  reachable self ->
  current_patient self = Some p ->
  age p <> Some 0 ->
  (exists k,
      In k ["chest pain"; "difficulty breathing"; "unconscious"; "bleeding heavily";
            "severe injury"; "overdose"; "suicide"; "heart attack"; "stroke";
            "allergic reaction"; "severe burn"; "broken bone"; "head injury"]
      /\ Py.contains k (symptoms_text p) = true)
  \/ (exists sev, symptom_severity p = Some sev /\ 8 <= sev)
  \/ (exists a, age p = Some a /\ 65 <= a
                /\ Py.contains "chest pain" (symptoms_text p) = true)
  \/ (exists a, age p = Some a /\ a < 5
                /\ Py.contains "fever" (symptoms_text p) = true) ->
  exists flags r,
    check_emergency_indicators self = (true, flags)
    /\ generate_triage_recommendation hash self = ([], Py.Ok r)
    /\ urgency_level r = Py.VStr "EMERGENCY"
    /\ priority_score r = Py.VInt 1
    /\ estimated_wait_time r = Py.VStr "0-5 minutes"
    /\ warning_signs r = flags.
Proof.
  intros R E A H.
  assert (F : fst (check_emergency_indicators self) = true).
  { apply (indicator_fires self p E).
    destruct H as [(k & Hin & Hk)|[Hs|[Ha|(a & Ha & Hlt & Hf)]]].
    - left. exists k. split; [|exact Hk].
      rewrite (reachable_configured self R). exact Hin.
    - right. left. exact Hs.
    - right. right. left. exact Ha.
    - right. right. right. exists a. repeat split; try assumption.
      intros ->. apply A. exact Ha. }
  pose proof (emergency_fast_path hash self p E F) as G.
  destruct (check_emergency_indicators self) as [b flags]. cbn in F. subst b.
  exists flags, (_generate_emergency_recommendation flags).
  split; [reflexivity|]. split; [exact G|]. repeat split.
Qed.

Example chest_pain_at_55_is_emergency :
  Fixtures.triage_of Fixtures.chest_pain_at_55
  = ([], Py.Ok (_generate_emergency_recommendation
                  ["Emergency keyword detected: chest pain";
                   "High severity score: 9/10"])).
Proof. vm_compute. reflexivity. Qed.

Example chest_pain_at_70_is_emergency :
  Fixtures.triage_of Fixtures.chest_pain_at_70
  = ([], Py.Ok (_generate_emergency_recommendation
                  ["Emergency keyword detected: chest pain";
                   "Chest pain in elderly patient"])).
Proof. vm_compute. reflexivity. Qed.

(** C1 at an infant with a fever. Age 0 is below 5 and the text has
    "fever", yet no flag is raised: the triage query is handed to the
    pipeline, and whatever it answers the recommendation is not the
    emergency one (its wait is "15-30 minutes"). *)
Theorem infant_fever_not_escalated (hash : string -> Z)
    (pipeline : Rag.HealthcareRAGPipeline) :
  Fixtures.infant_session pipeline = Py.Ok (Fixtures.infant_system pipeline)
  /\ (exists a, age Fixtures.infant_with_fever = Some a /\ a < 5)
  /\ Py.contains "fever" (symptoms_text Fixtures.infant_with_fever) = true
  /\ check_emergency_indicators (Fixtures.infant_system pipeline) = (false, [])
  /\ (exists rest,
        fst (generate_triage_recommendation hash (Fixtures.infant_system pipeline))
        = "high fever fever" :: rest)
  /\ match snd (generate_triage_recommendation hash (Fixtures.infant_system pipeline)) with
     | Py.Ok r => estimated_wait_time r = Py.VStr "15-30 minutes"
                  /\ estimated_wait_time r <> Py.VStr "0-5 minutes"
     | Py.Raise _ => True
     end.
Proof.
  set (self := Fixtures.infant_system pipeline).
  assert (C : check_emergency_indicators self = (false, [])) by (vm_compute; reflexivity).
  split; [reflexivity|]. split; [exists 0; split; [reflexivity|lia]|].
  split; [reflexivity|]. split; [exact C|].
  destruct (routine_path hash self Fixtures.infant_with_fever eq_refl) as [Q W].
  { rewrite C. reflexivity. }
  split; [exact Q|].
  destruct (snd (generate_triage_recommendation hash self)); [|exact I].
  rewrite W. split; [reflexivity|discriminate].
Qed.

(** On the store without documents the infant is triaged as routine. *)
Example infant_fever_routine :
  generate_triage_recommendation Fixtures.flat_hash
    (Fixtures.infant_system Fixtures.silent_pipeline)
  = (["high fever fever"],
     Py.Ok
       {| urgency_level := Py.VStr "ROUTINE";
          recommended_department := Py.VStr "Internal Medicine";
          estimated_wait_time := Py.VStr "15-30 minutes";
          priority_score := Py.VInt 3;
          next_steps := default [] (Rag.next_steps Rag.fallback_response);
          required_documents := ["Photo ID"; "Insurance card"; "Medication list"];
          preparation_instructions :=
            ["Arrive 15-30 minutes before your appointment";
             "Bring a list of current medications";
             "Prepare questions for your healthcare provider"];
          recommended_time_slots :=
            ["within 1-2 weeks"; "next available appointment"; "at your convenience"];
          alternative_options :=
            ["Regular appointment"; "Telehealth consultation"; "Walk-in clinic"];
          insurance_coverage := ∅;
          estimated_cost := Py.VStr "Contact insurance for estimate";
          warning_signs :=
            ["Worsening symptoms"; "New severe symptoms"; "Difficulty breathing";
             "Severe pain (8/10 or higher)"];
          medical_disclaimer :=
            "This is not medical advice. Please consult a qualified healthcare provider for proper medical evaluation and treatment." |}).
Proof. vm_compute. reflexivity. Qed.

End Emergency.

(** ** Floats *)

Section Floats.
Import Float.

Lemma round_half_even_cases (x : Q) :
  round_half_even x = Qfloor x \/ round_half_even x = Qfloor x + 1.
Proof.
  unfold round_half_even. destruct (Qcompare _ _); [destruct (Z.even _)| |]; auto.
Qed.

Lemma round_half_even_Z (n : Z) : round_half_even (inject_Z n) = n.
Proof.
  unfold round_half_even. rewrite Qfloor_Z.
  destruct (Qcompare_spec (inject_Z n - inject_Z n) (1 # 2)) as [E|E|E];
    [exfalso; Lqa.lra|reflexivity|exfalso; Lqa.lra].
Qed.

Lemma round_half_even_monotone (x y : Q) :
  (x <= y)%Q -> round_half_even x <= round_half_even y.
Proof.
  intros H. pose proof (Qfloor_resp_le x y H) as F.
  destruct (Z.eq_dec (Qfloor x) (Qfloor y)) as [E|N].
  - unfold round_half_even. rewrite <- E. set (f := Qfloor x) in *.
    destruct (Qcompare_spec (x - inject_Z f) (1 # 2)) as [Cx|Cx|Cx];
      destruct (Qcompare_spec (y - inject_Z f) (1 # 2)) as [Cy|Cy|Cy];
      try destruct (Z.even f); try lia; exfalso; Lqa.lra.
  - destruct (round_half_even_cases x) as [-> | ->];
      destruct (round_half_even_cases y) as [-> | ->]; lia.
Qed.

Lemma round_half_even_above (x : Q) (n : Z) :
  (inject_Z n <= x)%Q -> n <= round_half_even x.
Proof.
  intros H. rewrite <- (round_half_even_Z n). apply round_half_even_monotone, H.
Qed.

Lemma round_half_even_below (x : Q) (n : Z) :
  (x <= inject_Z n)%Q -> round_half_even x <= n.
Proof.
  intros H. rewrite <- (round_half_even_Z n). apply round_half_even_monotone, H.
Qed.

Section Scaling.
Local Open Scope Q_scope.

Lemma pow2_pos (k : Z) : 0 < pow2 k.
Proof. apply Qpower_0_lt. reflexivity. Qed.

Lemma pow2_plus (a b : Z) : pow2 (a + b) == pow2 a * pow2 b.
Proof. apply Qpower_plus. discriminate. Qed.

Lemma pow2_le (a b : Z) : (a <= b)%Z -> pow2 a <= pow2 b.
Proof. intros H. apply Qpower_le_compat_l; [exact H|discriminate]. Qed.

Lemma pow2_lt (a b : Z) : (a < b)%Z -> pow2 a < pow2 b.
Proof. intros H. apply Qpower_lt_compat_l; [exact H|reflexivity]. Qed.

Lemma pow2_Z (j : Z) : (0 <= j)%Z -> pow2 j == inject_Z (2 ^ j).
Proof. intros H. unfold pow2. rewrite Zpower_Qpower by exact H. reflexivity. Qed.

Lemma fraction_lt (p q r s : Z) :
  (0 < q)%Z -> (0 < s)%Z -> (p * s < r * q)%Z ->
  inject_Z p / inject_Z q < inject_Z r / inject_Z s.
Proof.
  intros Hq Hs H.
  assert (Q0 : 0 < inject_Z q) by (change 0 with (inject_Z 0); rewrite <- Zlt_Qlt; exact Hq).
  assert (S0 : 0 < inject_Z s) by (change 0 with (inject_Z 0); rewrite <- Zlt_Qlt; exact Hs).
  apply Qlt_shift_div_l; [exact S0|].
  setoid_replace (inject_Z p / inject_Z q * inject_Z s)
    with (inject_Z p * inject_Z s / inject_Z q) using relation Qeq by (field; Lqa.lra).
  apply Qlt_shift_div_r; [exact Q0|].
  rewrite <- !inject_Z_mult, <- Zlt_Qlt. exact H.
Qed.

Lemma log2_floor_spec (x : Q) :
  0 < x -> pow2 (log2_floor x) <= x /\ x < pow2 (log2_floor x + 1).
Proof.
  intros H. destruct x as [a b]. unfold log2_floor. cbn [Qnum Qden].
  assert (A : (0 < a)%Z) by (unfold Qlt in H; cbn in H; lia).
  pose proof (Z.log2_spec a A) as [A1 A2].
  pose proof (Z.log2_spec (Zpos b) (Pos2Z.is_pos b)) as [B1 B2].
  pose proof (Z.log2_nonneg a) as A0. pose proof (Z.log2_nonneg (Zpos b)) as B0.
  set (la := Z.log2 a) in *. set (lb := Z.log2 (Zpos b)) in *.
  assert (PA : (0 < 2 ^ la)%Z) by (apply Z.pow_pos_nonneg; lia).
  assert (PB : (0 < 2 ^ lb)%Z) by (apply Z.pow_pos_nonneg; lia).
  assert (PA' : (0 < 2 ^ Z.succ la)%Z) by (apply Z.pow_pos_nonneg; lia).
  assert (PB' : (0 < 2 ^ Z.succ lb)%Z) by (apply Z.pow_pos_nonneg; lia).
  assert (Lo : pow2 (la - lb - 1) < a # b).
  { rewrite Qmake_Qdiv. replace (la - lb - 1)%Z with (la - Z.succ lb)%Z by lia.
    unfold pow2. rewrite Qpower_minus by discriminate. fold (pow2 la) (pow2 (Z.succ lb)).
    rewrite !pow2_Z by lia. apply fraction_lt; [exact PB'|lia|nia]. }
  assert (Hi : a # b < pow2 (la - lb + 1)).
  { rewrite Qmake_Qdiv. replace (la - lb + 1)%Z with (Z.succ la - lb)%Z by lia.
    unfold pow2. rewrite Qpower_minus by discriminate. fold (pow2 lb) (pow2 (Z.succ la)).
    rewrite !pow2_Z by lia. apply fraction_lt; [lia|exact PB|nia]. }
  destruct (Qle_bool (pow2 (la - lb)) (a # b)) eqn:T.
  - apply Qle_bool_iff in T. split; [exact T|exact Hi].
  - split.
    + apply Qlt_le_weak. exact Lo.
    + replace (la - lb - 1 + 1)%Z with (la - lb)%Z by lia.
      apply Qnot_le_lt. intros C. apply Qle_bool_iff in C. congruence.
Qed.

End Scaling.

Section Grid.
Local Open Scope Q_scope.

Lemma ulp_exponent_min (x : Q) : (-1074 <= ulp_exponent x)%Z.
Proof. unfold ulp_exponent. lia. Qed.

Lemma ulp_exponent_above (x : Q) : Qabs x < pow2 (ulp_exponent x + 53).
Proof.
  destruct (Qeq_dec x 0) as [E|N].
  - assert (Z0 : Qabs x == 0) by (rewrite E; reflexivity).
    apply Qle_lt_trans with 0; [rewrite Z0; apply Qle_refl|apply pow2_pos].
  - assert (P : 0 < Qabs x).
    { pose proof (Qabs_nonneg x) as H. apply Qle_lteq in H. destruct H as [H|H]; [exact H|].
      exfalso. apply N. symmetry in H.
      destruct (Qabs_Qle_condition x 0) as [C _]. rewrite H in C.
      specialize (C (Qle_refl _)). Lqa.lra. }
    destruct (log2_floor_spec (Qabs x) P) as [_ U].
    eapply Qlt_le_trans; [exact U|]. apply pow2_le. unfold ulp_exponent. lia.
Qed.

Lemma ulp_exponent_below (x : Q) :
  ~ x == 0 -> (-1074 < ulp_exponent x)%Z -> pow2 (ulp_exponent x + 52) <= Qabs x.
Proof.
  intros N K.
  assert (P : 0 < Qabs x).
  { pose proof (Qabs_nonneg x) as H. apply Qle_lteq in H. destruct H as [H|H]; [exact H|].
    exfalso. apply N. symmetry in H.
    destruct (Qabs_Qle_condition x 0) as [C _]. rewrite H in C.
    specialize (C (Qle_refl _)). Lqa.lra. }
  destruct (log2_floor_spec (Qabs x) P) as [L _].
  unfold ulp_exponent in *.
  replace (Z.max (log2_floor (Qabs x) - 52) (-1074) + 52)%Z with (log2_floor (Qabs x)) by lia.
  exact L.
Qed.

Lemma scaled_below (x : Q) (k n : Z) :
  x <= inject_Z n * pow2 k ->
  inject_Z (round_half_even (x / pow2 k)) * pow2 k <= inject_Z n * pow2 k.
Proof.
  intros H. pose proof (pow2_pos k) as P.
  apply Qmult_le_compat_r; [|apply Qlt_le_weak, P].
  rewrite <- Zle_Qle. apply round_half_even_below.
  apply Qle_shift_div_r; [exact P|exact H].
Qed.

Lemma scaled_above (x : Q) (k n : Z) :
  inject_Z n * pow2 k <= x ->
  inject_Z n * pow2 k <= inject_Z (round_half_even (x / pow2 k)) * pow2 k.
Proof.
  intros H. pose proof (pow2_pos k) as P.
  apply Qmult_le_compat_r; [|apply Qlt_le_weak, P].
  rewrite <- Zle_Qle. apply round_half_even_above.
  apply Qle_shift_div_l; [exact P|exact H].
Qed.

(** A power of two above the ulp is on the grid. *)
Lemma pow2_on_grid (t k : Z) :
  (k <= t)%Z -> pow2 t == inject_Z (2 ^ (t - k)) * pow2 k.
Proof.
  intros H. rewrite <- pow2_Z by lia. rewrite <- pow2_plus.
  replace (t - k + k)%Z with t by lia. reflexivity.
Qed.

Lemma nearest_below (x : Q) (t : Z) :
  (ulp_exponent x <= t)%Z -> x <= pow2 t -> nearest x <= pow2 t.
Proof.
  intros K H. unfold nearest. rewrite (pow2_on_grid t _ K) in *.
  apply scaled_below. exact H.
Qed.

Lemma nearest_above (x : Q) (t : Z) :
  (ulp_exponent x <= t)%Z -> pow2 t <= x -> pow2 t <= nearest x.
Proof.
  intros K H. unfold nearest. rewrite (pow2_on_grid t _ K) in *.
  apply scaled_above. exact H.
Qed.

Lemma nearest_below_opp (x : Q) (t : Z) :
  (ulp_exponent x <= t)%Z -> x <= - pow2 t -> nearest x <= - pow2 t.
Proof.
  intros K H. unfold nearest. rewrite (pow2_on_grid t _ K) in *.
  setoid_replace (- (inject_Z (2 ^ (t - ulp_exponent x)) * pow2 (ulp_exponent x)))
    with (inject_Z (- 2 ^ (t - ulp_exponent x)) * pow2 (ulp_exponent x)) using relation Qeq in H
    by (rewrite inject_Z_opp; ring).
  setoid_replace (- (inject_Z (2 ^ (t - ulp_exponent x)) * pow2 (ulp_exponent x)))
    with (inject_Z (- 2 ^ (t - ulp_exponent x)) * pow2 (ulp_exponent x))
    using relation Qeq by (rewrite inject_Z_opp; ring).
  apply scaled_below. exact H.
Qed.

Lemma nearest_above_opp (x : Q) (t : Z) :
  (ulp_exponent x <= t)%Z -> - pow2 t <= x -> - pow2 t <= nearest x.
Proof.
  intros K H. unfold nearest. rewrite (pow2_on_grid t _ K) in *.
  setoid_replace (- (inject_Z (2 ^ (t - ulp_exponent x)) * pow2 (ulp_exponent x)))
    with (inject_Z (- 2 ^ (t - ulp_exponent x)) * pow2 (ulp_exponent x)) using relation Qeq in H
    by (rewrite inject_Z_opp; ring).
  setoid_replace (- (inject_Z (2 ^ (t - ulp_exponent x)) * pow2 (ulp_exponent x)))
    with (inject_Z (- 2 ^ (t - ulp_exponent x)) * pow2 (ulp_exponent x))
    using relation Qeq by (rewrite inject_Z_opp; ring).
  apply scaled_above. exact H.
Qed.

Lemma nearest_nonneg (x : Q) : 0 <= x -> 0 <= nearest x.
Proof.
  intros H. unfold nearest.
  setoid_replace 0 with (inject_Z 0 * pow2 (ulp_exponent x)) using relation Qeq by ring.
  apply scaled_above. setoid_replace (inject_Z 0 * pow2 (ulp_exponent x)) with 0 using relation Qeq by ring.
  exact H.
Qed.

Lemma nearest_nonpos (x : Q) : x <= 0 -> nearest x <= 0.
Proof.
  intros H. unfold nearest.
  setoid_replace 0 with (inject_Z 0 * pow2 (ulp_exponent x)) using relation Qeq by ring.
  apply scaled_below. setoid_replace (inject_Z 0 * pow2 (ulp_exponent x)) with 0 using relation Qeq by ring.
  exact H.
Qed.

Lemma nearest_monotone (x y : Q) : x <= y -> nearest x <= nearest y.
Proof.
  intros H.
  destruct (Qlt_le_dec 0 x) as [X0|X0]; [|destruct (Qlt_le_dec y 0) as [Y0|Y0]].
  - (* 0 < x <= y *)
    assert (Y0 : 0 < y) by Lqa.lra.
    pose proof (ulp_exponent_above x) as Ax. pose proof (ulp_exponent_above y) as Ay.
    rewrite Qabs_pos in Ax, Ay by Lqa.lra.
    destruct (Z.lt_trichotomy (ulp_exponent x) (ulp_exponent y)) as [L|[E|G]].
    + assert (By : pow2 (ulp_exponent y + 52) <= Qabs y).
      { apply ulp_exponent_below; [Lqa.lra|]. pose proof (ulp_exponent_min x). lia. }
      rewrite Qabs_pos in By by Lqa.lra.
      apply Qle_trans with (pow2 (ulp_exponent y + 52)).
      * apply nearest_below; [lia|].
        apply Qle_trans with (pow2 (ulp_exponent x + 53)); [Lqa.lra|apply pow2_le; lia].
      * apply nearest_above; [lia|exact By].
    + unfold nearest. rewrite E. pose proof (pow2_pos (ulp_exponent y)) as P.
      apply Qmult_le_compat_r; [|Lqa.lra].
      rewrite <- Zle_Qle. apply round_half_even_monotone.
      apply Qmult_le_compat_r; [exact H|]. apply Qlt_le_weak, Qinv_lt_0_compat, P.
    + exfalso.
      assert (Bx : pow2 (ulp_exponent x + 52) <= Qabs x).
      { apply ulp_exponent_below; [Lqa.lra|]. pose proof (ulp_exponent_min y). lia. }
      rewrite Qabs_pos in Bx by Lqa.lra.
      assert (pow2 (ulp_exponent y + 53) <= pow2 (ulp_exponent x + 52)) by (apply pow2_le; lia).
      Lqa.lra.
  - (* x <= y < 0 *)
    pose proof (ulp_exponent_above x) as Ax. pose proof (ulp_exponent_above y) as Ay.
    rewrite Qabs_neg in Ax, Ay by Lqa.lra.
    destruct (Z.lt_trichotomy (ulp_exponent x) (ulp_exponent y)) as [L|[E|G]].
    + exfalso.
      assert (By : pow2 (ulp_exponent y + 52) <= Qabs y).
      { apply ulp_exponent_below; [Lqa.lra|]. pose proof (ulp_exponent_min x). lia. }
      rewrite Qabs_neg in By by Lqa.lra.
      assert (pow2 (ulp_exponent x + 53) <= pow2 (ulp_exponent y + 52)) by (apply pow2_le; lia).
      Lqa.lra.
    + unfold nearest. rewrite E. pose proof (pow2_pos (ulp_exponent y)) as P.
      apply Qmult_le_compat_r; [|Lqa.lra].
      rewrite <- Zle_Qle. apply round_half_even_monotone.
      apply Qmult_le_compat_r; [exact H|]. apply Qlt_le_weak, Qinv_lt_0_compat, P.
    + assert (Bx : pow2 (ulp_exponent x + 52) <= Qabs x).
      { apply ulp_exponent_below; [Lqa.lra|]. pose proof (ulp_exponent_min y). lia. }
      rewrite Qabs_neg in Bx by Lqa.lra.
      apply Qle_trans with (- pow2 (ulp_exponent x + 52)).
      * apply nearest_below_opp; [lia|Lqa.lra].
      * apply nearest_above_opp; [lia|].
        assert (pow2 (ulp_exponent y + 53) <= pow2 (ulp_exponent x + 52)) by (apply pow2_le; lia).
        Lqa.lra.
  - (* x <= 0 <= y *)
    apply Qle_trans with 0; [apply nearest_nonpos, X0|apply nearest_nonneg, Y0].
Qed.

End Grid.

Section Order.

Lemma Qle_bool_false (a b : Q) : Qle_bool a b = false -> (b < a)%Q.
Proof.
  intros H. apply Qnot_le_lt. intros C. apply Qle_bool_iff in C. congruence.
Qed.

Lemma float_round_monotone (x y : Q) : (x <= y)%Q -> leb (round x) (round y) = true.
Proof.
  intros H. pose proof (nearest_monotone x y H) as N. unfold round.
  pose proof (pow2_pos 1024) as P.
  set (nx := nearest x) in *. set (ny := nearest y) in *.
  destruct (Qle_bool (pow2 1024) (Qabs nx)) eqn:Ox;
    destruct (Qle_bool (pow2 1024) (Qabs ny)) eqn:Oy;
    try apply Qle_bool_iff in Ox; try apply Qle_bool_iff in Oy;
    try apply Qle_bool_false in Ox; try apply Qle_bool_false in Oy.
  - destruct (Qle_bool 0 nx) eqn:Sx; destruct (Qle_bool 0 ny) eqn:Sy; try reflexivity.
    exfalso. apply Qle_bool_iff in Sx. apply Qle_bool_false in Sy. Lqa.lra.
  - destruct (Qle_bool 0 nx) eqn:Sx; [|reflexivity].
    exfalso. apply Qle_bool_iff in Sx.
    rewrite Qabs_pos in Ox by exact Sx. rewrite Qabs_pos in Oy by Lqa.lra. Lqa.lra.
  - destruct (Qle_bool 0 ny) eqn:Sy; [reflexivity|].
    exfalso. apply Qle_bool_false in Sy.
    rewrite Qabs_neg in Oy by Lqa.lra. rewrite Qabs_neg in Ox by Lqa.lra. Lqa.lra.
  - cbn [leb]. apply Qle_bool_iff. rewrite !Qred_correct. exact N.
Qed.

Lemma float_ltb_leb (a b : float) : ltb a b = true -> leb a b = true.
Proof.
  destruct a as [x|[]|], b as [y|[]|]; cbn [leb ltb]; try congruence.
  intros H. apply negb_true_iff, Qle_bool_false in H.
  apply Qle_bool_iff. Lqa.lra.
Qed.

Lemma float_leb_trans (a b c : float) :
  leb a b = true -> leb b c = true -> leb a c = true.
Proof.
  destruct a as [x|[]|], b as [y|[]|], c as [z|[]|]; cbn [leb Bool.eqb];
    intros H1 H2; try congruence.
  apply Qle_bool_iff in H1, H2. apply Qle_bool_iff. Lqa.lra.
Qed.

Lemma float_max2_above (a b : float) :
  leb a a = true -> leb a (max2 a b) = true.
Proof.
  intros R. unfold max2. destruct (ltb a b) eqn:L; [apply float_ltb_leb, L|exact R].
Qed.

Lemma float_max2_below (a b c : float) :
  leb a c = true -> leb b c = true -> leb (max2 a b) c = true.
Proof. intros A B. unfold max2. destruct (ltb a b); assumption. Qed.

Lemma float_min2_below (a b : float) :
  leb a a = true -> leb (min2 a b) a = true.
Proof.
  intros R. unfold min2. destruct (ltb b a) eqn:L; [apply float_ltb_leb, L|exact R].
Qed.

Lemma float_min2_above (a b c : float) :
  leb c a = true -> leb c b = true -> leb c (min2 a b) = true.
Proof. intros A B. unfold min2. destruct (ltb b a); assumption. Qed.

(** Adding a float that is not negative to one that is at least [c]. *)
Lemma float_add_above (c : Q) (a b : float) :
  round c = Finite c ->
  leb (Finite c) a = true -> leb (Finite 0) b = true ->
  leb (Finite c) (add a b) = true.
Proof.
  intros R A B. destruct a as [x|[]|], b as [y|[]|]; cbn [leb] in A, B;
    try discriminate; cbn [add Bool.eqb]; try reflexivity.
  apply Qle_bool_iff in A, B. rewrite <- R. apply float_round_monotone. Lqa.lra.
Qed.

Lemma float_sub_below (c : Q) (b : float) :
  round c = Finite c ->
  leb (Finite 0) b = true -> leb (sub (Finite c) b) (Finite c) = true.
Proof.
  intros R B. destruct b as [y|[]|]; cbn [leb] in B;
    try discriminate; unfold sub; cbn [add opp negb]; try reflexivity.
  apply Qle_bool_iff in B. rewrite <- R. apply float_round_monotone.
  rewrite Qred_correct. Lqa.lra.
Qed.

Lemma float_round2_above (c : Q) (n : Z) (a : float) :
  (inject_Z n <= c * 100)%Q ->
  leb (Finite c) a = true -> leb (round (n # 100)) (round2 a) = true.
Proof.
  intros C A. destruct a as [x|[]|]; cbn [leb] in A; try discriminate; cbn [round2].
  - apply Qle_bool_iff in A. apply float_round_monotone.
    unfold Qle. cbn. apply Z.mul_le_mono_nonneg_r; [lia|].
    apply round_half_even_above. Lqa.lra.
  - destruct (round (n # 100)) as [y|[]|] eqn:E; try reflexivity.
    exfalso. revert E. unfold round. destruct (Qle_bool _ _); discriminate.
Qed.

Lemma float_round2_below (c : Q) (n : Z) (a : float) :
  (c * 100 <= inject_Z n)%Q ->
  leb a (Finite c) = true -> leb (round2 a) (round (n # 100)) = true.
Proof.
  intros C A. destruct a as [x|[]|]; cbn [leb] in A; try discriminate; cbn [round2].
  - apply Qle_bool_iff in A. apply float_round_monotone.
    unfold Qle. cbn. apply Z.mul_le_mono_nonneg_r; [lia|].
    apply round_half_even_below. Lqa.lra.
  - destruct (round (n # 100)) as [y|[]|] eqn:E; try reflexivity.
    exfalso. revert E. unfold round. destruct (Qle_bool _ _); discriminate.
Qed.

Lemma float_round_zero : round 0 = Finite 0.
Proof. vm_compute. reflexivity. Qed.

Lemma float_add_nonneg (a b : float) :
  leb (Finite 0) a = true -> leb (Finite 0) b = true -> leb (Finite 0) (add a b) = true.
Proof. apply float_add_above, float_round_zero. Qed.

Lemma float_sum_nonneg (l : list float) :
  Forall (fun d => leb (Finite 0) d = true) l -> leb (Finite 0) (sum l) = true.
Proof.
  unfold sum. assert (G : forall acc, leb (Finite 0) acc = true ->
    Forall (fun d => leb (Finite 0) d = true) l ->
    leb (Finite 0) (fold_left add l acc) = true).
  { induction l as [|d l IH]; intros acc A H; [exact A|].
    inversion H; subst. cbn [fold_left]. apply IH; [apply float_add_nonneg; assumption|assumption]. }
  apply G. reflexivity.
Qed.

Lemma float_div_int_nonneg (a : float) (n : positive) :
  leb (Finite 0) a = true -> leb (Finite 0) (div_int a n) = true.
Proof.
  intros A. unfold div_int. destruct a as [x|[]|]; cbn [leb] in A; try discriminate;
    [|reflexivity].
  assert (P : (1 <= nearest (inject_Z (Zpos n)))%Q).
  { apply Qle_trans with (nearest 1); [vm_compute; discriminate|].
    apply nearest_monotone. change 1%Q with (inject_Z 1). rewrite <- Zle_Qle. lia. }
  apply Qle_bool_iff in A. rewrite <- float_round_zero. apply float_round_monotone.
  apply Qle_shift_div_l; Lqa.lra.
Qed.

End Order.

End Floats.

(** ** Retrieval and confidence *)

Section Retrieval.
Import Rag.

Lemma tenth_value :
  Float.decimal 1 10 = Float.Finite (3602879701896397 # 36028797018963968).
Proof. vm_compute. reflexivity. Qed.

Lemma fifth_value :
  Float.decimal 2 10 = Float.Finite (3602879701896397 # 18014398509481984).
Proof. vm_compute. reflexivity. Qed.

Lemma one_value : Float.of_int 1 = Float.Finite 1.
Proof. vm_compute. reflexivity. Qed.

Lemma zero_value : Float.of_int 0 = Float.Finite 0.
Proof. vm_compute. reflexivity. Qed.

Lemma existsb_false {A} (f : A -> bool) (l : list A) :
  (forall x, In x l -> f x = false) -> existsb f l = false.
Proof.
  intros H. induction l as [|x l IH]; [reflexivity|].
  cbn [existsb]. rewrite (H x) by (left; reflexivity).
  apply IH. intros y Hy. apply H. right. exact Hy.
Qed.

(** The floor: [max(0.1, _)] is at least 0.1, the boost and the rounding
    keep it there. *)
Lemma calculate_confidence_floor (docs : list context_doc) (q : string) :
  Float.leb (Float.decimal 1 10) (calculate_confidence docs q) = true.
Proof.
  destruct docs as [|doc docs]; [vm_compute; reflexivity|].
  unfold calculate_confidence.
  set (avg := average (distance doc) (map distance docs)).
  assert (B : Float.leb (Float.decimal 1 10)
                (Float.max2 (Float.decimal 1 10) (Float.sub (Float.of_int 1) avg)) = true)
    by (apply float_max2_above; vm_compute; reflexivity).
  set (base := Float.max2 (Float.decimal 1 10) (Float.sub (Float.of_int 1) avg)) in *.
  assert (R : forall b, Float.leb (Float.decimal 1 10) b = true ->
                        Float.leb (Float.decimal 1 10) (Float.round2 b) = true).
  { intros b Hb.
    replace (Float.decimal 1 10) with (Float.round (10 # 100)) at 1
      by (vm_compute; reflexivity).
    rewrite tenth_value in Hb.
    apply (float_round2_above (3602879701896397 # 36028797018963968) 10 b);
      [vm_compute; discriminate|exact Hb]. }
  apply R. destruct (existsb _ _); [|exact B].
  apply float_min2_above; [vm_compute; reflexivity|].
  rewrite tenth_value, fifth_value in *.
  apply float_add_above; [vm_compute; reflexivity|exact B|vm_compute; reflexivity].
Qed.

(** The cap: with distances that are not negative the average is not
    negative, [1.0 - avg] is at most 1, and so is all that follows. *)
Lemma calculate_confidence_cap (docs : list context_doc) (q : string) :
  Forall (fun doc => Float.leb (Float.of_int 0) (distance doc) = true) docs ->
  Float.leb (calculate_confidence docs q) (Float.of_int 1) = true.
Proof.
  intros Hd. destruct docs as [|doc docs]; [vm_compute; reflexivity|].
  unfold calculate_confidence.
  assert (Ha : Float.leb (Float.Finite 0) (average (distance doc) (map distance docs))
               = true).
  { unfold average. apply float_div_int_nonneg, float_sum_nonneg.
    rewrite zero_value in Hd. change (distance doc :: map distance docs)
      with (map distance (doc :: docs)).
    apply Forall_map. exact Hd. }
  set (avg := average (distance doc) (map distance docs)) in *.
  assert (B : Float.leb (Float.max2 (Float.decimal 1 10) (Float.sub (Float.of_int 1) avg))
                (Float.of_int 1) = true).
  { apply float_max2_below; [vm_compute; reflexivity|].
    rewrite one_value. apply float_sub_below; [vm_compute; reflexivity|exact Ha]. }
  set (base := Float.max2 (Float.decimal 1 10) (Float.sub (Float.of_int 1) avg)) in *.
  assert (R : forall b, Float.leb b (Float.of_int 1) = true ->
                        Float.leb (Float.round2 b) (Float.of_int 1) = true).
  { intros b Hb.
    replace (Float.of_int 1) with (Float.round (100 # 100)) by (vm_compute; reflexivity).
    replace (Float.of_int 1) with (Float.Finite 1) in Hb by (vm_compute; reflexivity).
    apply (float_round2_below 1 100 b); [vm_compute; discriminate|exact Hb]. }
  apply R. destruct (existsb _ _); [|exact B].
  apply float_min2_below. vm_compute. reflexivity.
Qed.

Section WithHash.
Variable hash : string -> Z.

Lemma process_query_confidence (self : HealthcareRAGPipeline) (q : string)
    (docs : list context_doc) (r : RAGResponse) :
  retrieve_context hash self q 5 = Py.Ok docs ->
  process_query hash self q = Py.Ok r ->
  confidence r = calculate_confidence docs q.
Proof.
  unfold process_query. intros ->. cbn [Py.bind].
  destruct docs as [|doc docs].
  - intros [= <-]. reflexivity.
  - destruct (generate_next_steps _ q); [|discriminate].
    intros [= <-]. reflexivity.
Qed.

(** Confidence in double arithmetic: [0.375 + 0.2] falls just below
    0.575 and rounds to 0.57, the tie 0.375 goes to the even digit, and
    the four distances sum to 2.7800000000000002. *)
Example confidence_examples :
  calculate_confidence [Cases.copay_at (Float.decimal 625 1000)] "copay"
  = Float.decimal 57 100
  /\ calculate_confidence [Cases.copay_at (Float.decimal 625 1000)] "wait times"
     = Float.decimal 38 100
  /\ calculate_confidence
       (map Cases.copay_at [Float.decimal 74 100; Float.decimal 18 100;
                            Float.decimal 35 100; Float.decimal 151 100]) "wait times"
     = Float.decimal 3 10
  /\ calculate_confidence [Cases.copay_at Float.NaN] "wait times" = Float.decimal 1 10
  /\ calculate_confidence [Cases.copay_at (Float.Infinity true)] "wait times"
     = Float.Infinity false.
Proof. repeat split; vm_compute; reflexivity. Qed.



(** C4. When retrieval finds nothing, [process_query] returns the fixed
    fallback: no sources, confidence 0.1, no triage hint, one next step
    (contact the hospital), and an answer that has no information and
    points to the hospital's own number. *)
Theorem empty_retrieval_fallback (self : HealthcareRAGPipeline) (q : string) :
  retrieve_context hash self q 5 = Py.Ok [] ->
  process_query hash self q = Py.Ok fallback_response
  /\ sources fallback_response = []
  /\ confidence fallback_response = Float.decimal 1 10
  /\ triage_info fallback_response = None
  /\ (exists step, next_steps fallback_response = Some [step]
                   /\ Py.contains "Contact hospital directly for assistance" step = true)
  /\ Py.contains "I don't have specific information about that topic"
       (answer fallback_response) = true
  /\ Py.contains "Please contact SuperHealth Medical Center directly"
       (answer fallback_response) = true.
Proof.
  intros R. unfold process_query. rewrite R. cbn [Py.bind].
  split; [reflexivity|]. split; [reflexivity|]. split; [reflexivity|].
  split; [reflexivity|]. split; [eexists; split; reflexivity|].
  split; reflexivity.
Qed.

(** Retrieval is empty when the index answers without documents. *)
Lemma retrieve_context_empty (self : HealthcareRAGPipeline) (q : string)
    (results : VectorDB.QueryResult) :
  VectorDB.search hash (vector_db self) q 5 None = Py.Ok results ->
  VectorDB.documents results = None
  \/ VectorDB.documents results = Some []
  \/ (exists rows, VectorDB.documents results = Some ([] :: rows)) ->
  retrieve_context hash self q 5 = Py.Ok [].
Proof.
  intros S H. unfold retrieve_context. rewrite S. cbn [Py.bind].
  destruct H as [-> |[-> |[rows ->]]]; reflexivity.
Qed.

End WithHash.


Lemma empty_retrieval_fallback_witness :
  retrieve_context Fixtures.flat_hash Fixtures.silent_pipeline "wait times" 5 = Py.Ok []
  /\ process_query Fixtures.flat_hash Fixtures.silent_pipeline "wait times"
     = Py.Ok fallback_response.
Proof.
  assert (R : retrieve_context Fixtures.flat_hash Fixtures.silent_pipeline "wait times" 5
              = Py.Ok []) by (vm_compute; reflexivity).
  split; [exact R|].
  apply (empty_retrieval_fallback Fixtures.flat_hash Fixtures.silent_pipeline "wait times" R).
Defined.

End Retrieval.

(** ** The knowledge store *)

Section Store.
Import DataProcessor VectorDB.

Lemma digits_have_no_underscore (d : Decimal.uint) :
  Py.after_last_underscore (NilEmpty.string_of_uint d) = None.
Proof. induction d; cbn; try rewrite IHd; reflexivity. Qed.

Lemma str_of_nat_no_underscore (n : nat) :
  Py.after_last_underscore (Py.str_of_nat n) = None.
Proof.
  unfold Py.str_of_nat, NilZero.string_of_uint.
  destruct (Nat.to_uint n); try apply digits_have_no_underscore. reflexivity.
Qed.

Lemma to_uint_nonnil (n : nat) : Nat.to_uint n <> Decimal.Nil.
Proof.
  rewrite <- (Unsigned.of_to n), Unsigned.to_of.
  unfold Decimal.unorm. destruct (Decimal.nzhead (Nat.to_uint n)); discriminate.
Qed.

Lemma str_of_nat_inj (n m : nat) : Py.str_of_nat n = Py.str_of_nat m -> n = m.
Proof.
  unfold Py.str_of_nat. intros H.
  assert (E : Some (Nat.to_uint n) = Some (Nat.to_uint m)).
  { rewrite <- (NilZero.usu (Nat.to_uint n)), <- (NilZero.usu (Nat.to_uint m)).
    - rewrite H. reflexivity.
    - apply to_uint_nonnil.
    - apply to_uint_nonnil. }
  injection E as E. apply Unsigned.to_uint_inj. exact E.
Qed.

Lemma after_last_underscore_app (a t : string) :
  Py.after_last_underscore t = None ->
  Py.after_last_underscore (a ++ "_" ++ t) = Some t.
Proof.
  intros Ht. induction a as [|c a IH].
  - change (Py.after_last_underscore (String "_" t) = Some t).
    cbn [Py.after_last_underscore]. rewrite Ht. reflexivity.
  - change (Py.after_last_underscore (String c (a ++ "_" ++ t)) = Some t).
    cbn [Py.after_last_underscore]. rewrite IH. reflexivity.
Qed.

Lemma enumerate_fst {A} (l : list A) (start : nat) :
  map fst (combine (seq start (length l)) l) = seq start (length l).
Proof.
  revert start. induction l as [|x l IH]; intros start; cbn; [reflexivity|].
  rewrite IH. reflexivity.
Qed.

Lemma enumerate_lookup {A} (l : list A) (start i : nat) (x : A) :
  l !! i = Some x ->
  combine (seq start (length l)) l !! i = Some ((start + i)%nat, x).
Proof.
  revert start i. induction l as [|y l IH]; intros start i; [discriminate|].
  destruct i as [|i].
  - intros [= ->]. cbn. rewrite Nat.add_0_r. reflexivity.
  - intros H.
    change (combine (seq (S start) (length l)) l !! i = Some ((start + S i)%nat, x)).
    rewrite (IH (S start) i H). do 2 f_equal. lia.
Qed.

Lemma document_ids_length (docs : list Document) :
  length (document_ids docs) = length docs.
Proof.
  unfold document_ids, enumerate.
  rewrite length_map, length_combine, length_seq. lia.
Qed.

Lemma document_ids_lookup (docs : list Document) (i : nat) (doc : Document) :
  docs !! i = Some doc ->
  document_ids docs !! i = Some (source doc ++ "_" ++ Py.str_of_nat i).
Proof.
  intros H. unfold document_ids, enumerate.
  rewrite list_lookup_fmap, (enumerate_lookup docs 0 i doc H). reflexivity.
Qed.

Lemma document_ids_NoDup (docs : list Document) : List.NoDup (document_ids docs).
Proof.
  apply (NoDup_map_inv Py.after_last_underscore).
  unfold document_ids. rewrite map_map.
  rewrite (map_ext _ (fun id : nat * Document => Some (Py.str_of_nat (fst id)))).
  - rewrite <- (map_map fst (fun i => Some (Py.str_of_nat i))).
    unfold enumerate. rewrite enumerate_fst.
    apply Finite.Injective_map_NoDup; [|apply seq_NoDup].
    intros n m [= H]. apply str_of_nat_inj. exact H.
  - intros [i doc]. cbn [fst].
    apply after_last_underscore_app, str_of_nat_no_underscore.
Qed.

Lemma has_duplicate_NoDup (ids : list string) :
  List.NoDup ids -> has_duplicate ids = false.
Proof.
  induction 1 as [|i ids Hnot _ IH]; cbn; [reflexivity|].
  rewrite IH, orb_false_r.
  destruct (existsb (String.eqb i) ids) eqn:E; [|reflexivity].
  apply existsb_exists in E. destruct E as (j & Hj & Heq).
  apply String.eqb_eq in Heq. subst j. contradiction.
Qed.

Lemma to_records_ids (ids documents : list string)
    (metadatas : list (gmap string Py.value)) (embeddings : list (list R)) :
  length documents = length ids -> length metadatas = length ids ->
  length embeddings = length ids ->
  map rec_id (to_records ids documents metadatas embeddings) = ids.
Proof.
  unfold to_records. rewrite map_map.
  revert documents metadatas embeddings.
  induction ids as [|i ids IH]; intros [|d ds] [|m ms] [|e es]; cbn;
    try discriminate; try reflexivity.
  intros [= H1] [= H2] [= H3]. rewrite IH; auto.
Qed.

(** C6 as stated fails: the second of two documents from different
    sources is numbered 1 by the code and 0 within its source. *)
Lemma ids_count_across_sources :
  document_ids [Fixtures.faq; Fixtures.cardiology]
    = ["hospital_faqs_0"; "department_policies_1"]
  /\ spec_document_ids [Fixtures.faq; Fixtures.cardiology]
    = ["hospital_faqs_0"; "department_policies_0"]
  /\ document_ids [Fixtures.faq; Fixtures.cardiology]
     <> spec_document_ids [Fixtures.faq; Fixtures.cardiology].
Proof.
  split; [reflexivity|]. split; [reflexivity|]. discriminate.
Qed.

Section WithHash.
Variable hash : string -> Z.

Lemma add_documents_nonempty (self : HealthcareVectorDB) (docs : list Document) :
  docs <> [] ->
  add_documents hash self docs
  = Py.bind (add (collection self) (document_ids docs) (map content docs)
               (map metadata docs) (create_embeddings hash self (map content docs)))
      (fun c => Py.Ok (with_collection self c)).
Proof. destruct docs; [congruence|reflexivity]. Qed.

Lemma metadata_accepted (docs : list Document) :
  Forall (fun doc => metadata doc <> ∅) docs ->
  existsb (fun m : gmap string Py.value => bool_decide (m = ∅)) (map metadata docs)
  = false.
Proof.
  induction 1 as [|doc docs H _ IH]; [reflexivity|].
  cbn [map existsb]. rewrite IH, orb_false_r. apply bool_decide_eq_false_2, H.
Qed.

Lemma fresh_store_holds_ids (docs : list Document) (self : HealthcareVectorDB) :
  use_custom_embeddings self = true ->
  records (collection self) = [] ->
  Forall (fun doc => metadata doc <> ∅) docs ->
  exists self', add_documents hash self docs = Py.Ok self'
                /\ map rec_id (records (collection self')) = document_ids docs.
Proof.
  intros U E M.
  destruct docs as [|doc docs]; [exists self; rewrite E; split; reflexivity|].
  rewrite add_documents_nonempty by discriminate.
  unfold add, create_embeddings. rewrite U, E.
  rewrite !length_map, document_ids_length, !Nat.eqb_refl.
  rewrite (has_duplicate_NoDup _ (document_ids_NoDup _)).
  rewrite (metadata_accepted _ M).
  cbn [negb andb Py.bind]. eexists. split; [reflexivity|].
  cbn [collection with_collection records app].
  rewrite forallb_filter_id.
  - apply to_records_ids; rewrite !length_map, ?document_ids_length; reflexivity.
  - apply forallb_forall. intros r _. reflexivity.
Qed.

Lemma to_records_lookup (ids documents : list string)
    (metadatas : list (gmap string Py.value)) (embeddings : list (list R))
    (i : nat) (r : IndexedRecord) :
  to_records ids documents metadatas embeddings !! i = Some r ->
  ids !! i = Some (rec_id r) /\ documents !! i = Some (rec_document r)
  /\ metadatas !! i = Some (rec_metadata r).
Proof.
  unfold to_records. revert documents metadatas embeddings i.
  induction ids as [|id ids IH]; intros [|d ds] [|m ms] [|e es] i; cbn;
    try discriminate.
  destruct i as [|i]; cbn.
  - intros [= <-]. repeat split.
  - apply IH.
Qed.

(** What a successful [add_documents] stores: behind the records held
    before, records of documents of this call under their positional
    ids; all of them when the collection was empty. *)
Lemma add_documents_stores (docs : list Document) (self self' : HealthcareVectorDB) :
  add_documents hash self docs = Py.Ok self' ->
  exists stored,
    records (collection self') = (records (collection self) ++ stored)%list
    /\ Forall (fun r => exists i doc,
                 docs !! i = Some doc
                 /\ rec_id r = (source doc ++ "_" ++ Py.str_of_nat i)%string
                 /\ rec_document r = content doc) stored
    /\ (records (collection self) = [] -> map rec_id stored = document_ids docs).
Proof.
  destruct docs as [|d0 docs0].
  - intros [= <-]. exists []. rewrite app_nil_r.
    split; [reflexivity|]. split; [constructor|reflexivity].
  - rewrite add_documents_nonempty by discriminate.
    generalize (d0 :: docs0). clear d0 docs0. intros docs. unfold add.
    destruct (negb _) eqn:L; [discriminate|].
    destruct (has_duplicate _); [discriminate|].
    destruct (existsb _ (map metadata docs)); [discriminate|].
    cbn [Py.bind]. intros [= <-]. cbn [collection with_collection records].
    eexists. split; [reflexivity|]. split.
    + apply List.Forall_forall. intros r Hr.
      apply List.filter_In in Hr. destruct Hr as [Hr _].
      apply list_elem_of_In, list_elem_of_lookup_1 in Hr. destruct Hr as [i Hi].
      apply to_records_lookup in Hi. destruct Hi as (I & D & _).
      assert (Hlt : (i < length docs)%nat).
      { rewrite <- document_ids_length. eapply lookup_lt_Some. exact I. }
      destruct (lookup_lt_is_Some_2 docs i Hlt) as [doc Hdoc].
      exists i, doc. split; [exact Hdoc|].
      rewrite (document_ids_lookup docs i doc Hdoc) in I.
      rewrite list_lookup_fmap, Hdoc in D. cbn in D.
      split; congruence.
    + intros E. rewrite E. cbn [map].
      apply negb_false_iff in L. apply andb_true_iff in L. destruct L as [L L3].
      apply andb_true_iff in L. destruct L as [L1 L2].
      apply Nat.eqb_eq in L1, L2, L3.
      rewrite forallb_filter_id.
      * apply to_records_ids; assumption.
      * apply forallb_forall. intros r _. reflexivity.
Qed.

(** C6 (amended). The id of a stored record is the source of its
    document, an underscore and the position of that document in the
    list handed to [add_documents], counted from 0 across all sources
    (not within its source); the ids of one call are pairwise distinct. *)
Theorem document_ids_positional (docs : list Document) :
  length (document_ids docs) = length docs
  /\ (forall i doc, docs !! i = Some doc ->
        document_ids docs !! i = Some (source doc ++ "_" ++ Py.str_of_nat i))
  /\ List.NoDup (document_ids docs)
  /\ (forall self self',
        add_documents hash self docs = Py.Ok self' ->
        exists stored,
          records (collection self') = (records (collection self) ++ stored)%list
          /\ Forall (fun r => exists i doc,
                       docs !! i = Some doc
                       /\ rec_id r = (source doc ++ "_" ++ Py.str_of_nat i)%string
                       /\ rec_document r = content doc) stored
          /\ (records (collection self) = [] ->
              map rec_id stored = document_ids docs)).
Proof.
  split; [apply document_ids_length|].
  split; [apply document_ids_lookup|].
  split; [apply document_ids_NoDup|].
  apply add_documents_stores.
Qed.

Lemma populated_store_short_circuit (db_dir : string) (persisted : Collection)
    (loaded : option (list string -> list (list R))) (corpus : list Document) :
  (0 < count persisted)%nat ->
  setup_vector_database hash db_dir persisted loaded corpus false
  = ([], Py.Ok (init db_dir persisted loaded)).
Proof.
  intros H. unfold setup_vector_database.
  change (total_documents (init db_dir persisted loaded)) with (count persisted).
  destruct (Nat.ltb_spec 0 (count persisted)); [reflexivity|lia].
Qed.

(** C7. Against a store that holds at least one document,
    [setup_vector_database] (without [reset]) returns the store as it
    found it: the population check comes before any corpus processing and
    any [add_documents], and the count is the one found. *)
Theorem setup_skips_populated_store (db_dir : string) (persisted : Collection)
    (loaded : option (list string -> list (list R))) (corpus : list Document) :
  (0 < count persisted)%nat ->
  setup_vector_database hash db_dir persisted loaded corpus false
  = ([], Py.Ok (init db_dir persisted loaded))
  /\ collection (init db_dir persisted loaded) = persisted
  /\ total_documents (init db_dir persisted loaded) = count persisted.
Proof.
  intros H. split; [apply populated_store_short_circuit; exact H|].
  split; reflexivity.
Qed.

(** Two calls in a row: when the first leaves a populated store, the
    second changes nothing and runs no ingest. *)
Lemma setup_twice (db_dir : string) (persisted : Collection)
    (loaded loaded' : option (list string -> list (list R)))
    (corpus corpus' : list Document) (first : HealthcareVectorDB) :
  snd (setup_vector_database hash db_dir persisted loaded corpus false) = Py.Ok first ->
  (0 < total_documents first)%nat ->
  exists second,
    setup_vector_database hash db_dir (collection first) loaded' corpus' false
    = ([], Py.Ok second)
    /\ collection second = collection first
    /\ total_documents second = total_documents first.
Proof.
  intros _ H.
  eexists. split; [apply populated_store_short_circuit; exact H|].
  split; reflexivity.
Qed.

(** With [reset] the store is emptied first and the corpus ingested
    again. *)
Lemma setup_with_reset (db_dir : string) (persisted : Collection)
    (loaded : option (list string -> list (list R))) (corpus : list Document) :
  corpus <> [] ->
  fst (setup_vector_database hash db_dir persisted loaded corpus true)
  = [ProcessAllData; AddDocuments (length corpus)].
Proof.
  intros H. unfold setup_vector_database. cbn.
  destruct corpus; [congruence|reflexivity].
Qed.

End WithHash.

(** The store a first run leaves from the two fixture documents. *)
Lemma first_run_populates :
  exists first,
    setup_vector_database Fixtures.flat_hash "./chroma_db" Fixtures.silent_collection
      None [Fixtures.faq; Fixtures.cardiology] false
    = ([ProcessAllData; AddDocuments 2], Py.Ok first)
    /\ map rec_id (records (collection first))
       = ["hospital_faqs_0"; "department_policies_1"].
Proof.
  assert (M : Forall (fun doc => metadata doc <> ∅) [Fixtures.faq; Fixtures.cardiology])
    by (repeat constructor; apply insert_non_empty).
  destruct (fresh_store_holds_ids Fixtures.flat_hash [Fixtures.faq; Fixtures.cardiology]
              Fixtures.silent_db eq_refl eq_refl M) as (first & E & I).
  exists first. split; [|exact I].
  unfold setup_vector_database.
  change (init "./chroma_db" Fixtures.silent_collection None) with Fixtures.silent_db.
  cbn [total_documents count Fixtures.silent_db init collection Fixtures.silent_collection
       records length Nat.ltb Nat.leb].
  change (init "./chroma_db" Fixtures.silent_collection None) with Fixtures.silent_db.
  rewrite E. reflexivity.
Qed.

Lemma document_ids_positional_witness :
  [Fixtures.faq; Fixtures.cardiology] !! 1%nat = Some Fixtures.cardiology
  /\ document_ids [Fixtures.faq; Fixtures.cardiology] !! 1%nat
     = Some "department_policies_1"
  /\ exists self',
       add_documents Fixtures.flat_hash Fixtures.silent_db
         [Fixtures.faq; Fixtures.cardiology] = Py.Ok self'
       /\ map rec_id (records (collection self'))
          = ["hospital_faqs_0"; "department_policies_1"].
Proof.
  destruct (document_ids_positional Fixtures.flat_hash [Fixtures.faq; Fixtures.cardiology])
    as (_ & L & _ & A).
  split; [reflexivity|].
  split; [exact (L 1%nat Fixtures.cardiology eq_refl)|].
  assert (M : Forall (fun doc => metadata doc <> ∅) [Fixtures.faq; Fixtures.cardiology])
    by (repeat constructor; apply insert_non_empty).
  destruct (fresh_store_holds_ids Fixtures.flat_hash [Fixtures.faq; Fixtures.cardiology]
              Fixtures.silent_db eq_refl eq_refl M) as (self' & E & _).
  exists self'. split; [exact E|].
  destruct (A Fixtures.silent_db self' E) as (stored & S & _ & I).
  rewrite S. exact (I eq_refl).
Defined.

Lemma setup_skips_populated_store_witness :
  (0 < count Fixtures.held_collection)%nat
  /\ setup_vector_database Fixtures.flat_hash "./chroma_db" Fixtures.held_collection None
       [Fixtures.faq; Fixtures.cardiology] false
     = ([], Py.Ok (init "./chroma_db" Fixtures.held_collection None))
  /\ total_documents (init "./chroma_db" Fixtures.held_collection None) = 1%nat.
Proof.
  assert (H : (0 < count Fixtures.held_collection)%nat) by (cbn; lia).
  split; [exact H|].
  destruct (setup_skips_populated_store Fixtures.flat_hash "./chroma_db"
              Fixtures.held_collection None [Fixtures.faq; Fixtures.cardiology] H)
    as (E & _ & T).
  split; [exact E|exact T].
Defined.

End Store.

(** ** The fallback embedding *)

Section Embedding.
Import VectorDB.
Local Open Scope R_scope.

Lemma fold_left_Rplus (l : list R) (a : R) :
  fold_left Rplus l a = a + fold_right Rplus 0 l.
Proof.
  revert a. induction l as [|x l IH]; intros a; cbn.
  - Lra.lra.
  - rewrite IH. Lra.lra.
Qed.

Lemma squares_cons (x : R) (v : list R) : squares (x :: v) = x * x + squares v.
Proof. unfold squares. cbn. rewrite !fold_left_Rplus. Lra.lra. Qed.

Lemma squares_nonneg (v : list R) : 0 <= squares v.
Proof.
  induction v as [|x v IH]; [unfold squares; cbn; Lra.lra|].
  rewrite squares_cons. Lra.nra.
Qed.

Lemma squares_zero (v : list R) : squares v = 0 -> Forall (fun x => x = 0) v.
Proof.
  induction v as [|x v IH]; [constructor|].
  rewrite squares_cons. intros H. pose proof (squares_nonneg v).
  constructor; [Lra.nra|apply IH; Lra.nra].
Qed.

Lemma squares_positive (v : list R) : Exists (fun x => x <> 0) v -> 0 < squares v.
Proof.
  intros H. destruct (Rle_lt_dec (squares v) 0) as [Hle|Hlt]; [|exact Hlt].
  exfalso. pose proof (squares_nonneg v).
  assert (Z : Forall (fun x => x = 0) v) by (apply squares_zero; Lra.lra).
  apply List.Exists_exists in H. destruct H as (x & Hin & Hx).
  rewrite List.Forall_forall in Z. apply Hx, Z, Hin.
Qed.

Lemma squares_scaled (v : list R) (n : R) :
  n <> 0 -> squares (map (fun x => x / n) v) = squares v / (n * n).
Proof.
  intros Hn. induction v as [|x v IH].
  - unfold squares. cbn. field. exact Hn.
  - cbn [map]. rewrite !squares_cons, IH. field. exact Hn.
Qed.

Lemma l2_norm_squares (v : list R) : l2_norm v = sqrt (squares v).
Proof. reflexivity. Qed.

Lemma normalize_unit (v : list R) : 0 < l2_norm v -> l2_norm (normalize v) = 1.
Proof.
  intros H. unfold normalize. destruct (Rlt_dec 0 (l2_norm v)); [|contradiction].
  rewrite l2_norm_squares, squares_scaled by Lra.lra.
  rewrite l2_norm_squares, sqrt_sqrt by apply squares_nonneg.
  rewrite l2_norm_squares in H.
  assert (squares v <> 0).
  { intros E. rewrite E, sqrt_0 in H. Lra.lra. }
  replace (squares v / squares v) with 1 by (field; assumption).
  apply sqrt_1.
Qed.

Lemma normalize_zero (v : list R) :
  ~ 0 < l2_norm v -> normalize v = v /\ Forall (fun x => x = 0) v.
Proof.
  intros H. unfold normalize. destruct (Rlt_dec 0 (l2_norm v)); [contradiction|].
  split; [reflexivity|]. apply squares_zero.
  apply sqrt_eq_0; [apply squares_nonneg|].
  pose proof (sqrt_pos (squares v)). rewrite l2_norm_squares in H. Lra.lra.
Qed.

Lemma normalize_length (v : list R) : length (normalize v) = length v.
Proof.
  unfold normalize. destruct (Rlt_dec 0 (l2_norm v)); [apply length_map|reflexivity].
Qed.

(** A vector with an entry that is not 0 has norm 1 once normalised; one
    without is left as it is. *)
Lemma normalize_cases (v : list R) :
  (Exists (fun x => x <> 0) (normalize v) -> l2_norm (normalize v) = 1)
  /\ (Forall (fun x => x = 0) v -> normalize v = v).
Proof.
  split.
  - intros H. destruct (Rlt_dec 0 (l2_norm v)) as [Hpos|Hnot].
    + apply normalize_unit. exact Hpos.
    + destruct (normalize_zero v Hnot) as [E Z]. rewrite E in H.
      apply List.Exists_exists in H. destruct H as (x & Hin & Hx).
      rewrite List.Forall_forall in Z. exfalso. apply Hx, Z, Hin.
  - intros Z. apply normalize_zero. intros Hpos.
    rewrite l2_norm_squares in Hpos.
    assert (E : squares v = 0).
    { clear Hpos. induction Z as [|x v -> _ IH]; [unfold squares; cbn; Lra.lra|].
      rewrite squares_cons, IH. Lra.lra. }
    rewrite E, sqrt_0 in Hpos. Lra.lra.
Qed.

Section WithHash.
Variable hash : string -> Z.

Lemma bump_length (pos : nat) (x : R) (v : list R) :
  length (bump pos x v) = length v.
Proof. apply length_alter. Qed.

Lemma embed_word_length (v : list R) (iw : nat * string) :
  length (embed_word hash v iw) = length v.
Proof.
  destruct iw as [i w]. unfold embed_word.
  repeat match goal with |- context [if ?b then _ else _] => destruct b end;
    rewrite ?bump_length; reflexivity.
Qed.

Lemma accumulate_length (words : list string) :
  length (accumulate hash words) = 384%nat.
Proof.
  unfold accumulate.
  assert (G : forall l v, length (fold_left (embed_word hash) l v) = length v).
  { induction l as [|iw l IH]; intros v; cbn; [reflexivity|].
    rewrite IH. apply embed_word_length. }
  rewrite G. apply repeat_length.
Qed.

Lemma bump_total (pos : nat) (x : R) (v : list R) :
  (pos < length v)%nat -> total (bump pos x v) = total v + x.
Proof.
  revert pos. induction v as [|y v IH]; intros pos H; cbn in H; [lia|].
  destruct pos as [|pos].
  - cbn. Lra.lra.
  - change (bump (S pos) x (y :: v)) with (y :: bump pos x v).
    cbn [total fold_right]. fold (total (bump pos x v)). fold (total v).
    rewrite IH by lia. Lra.lra.
Qed.

Lemma bump_nonneg (pos : nat) (x : R) (v : list R) :
  0 <= x -> Forall (fun y => 0 <= y) v -> Forall (fun y => 0 <= y) (bump pos x v).
Proof.
  intros Hx Hv. unfold bump. apply Forall_alter; [exact Hv|].
  intros y _ Hy. Lra.lra.
Qed.

Lemma inverse_rank_positive (i : nat) : 0 < 1 / INR (i + 1).
Proof.
  apply Rdiv_lt_0_compat; [Lra.lra|]. apply lt_0_INR. lia.
Qed.

(** One word adds its weight [1/(i+1)], and perhaps a bonus, and takes
    nothing away. *)
Lemma embed_word_grows (v : list R) (i : nat) (w : string) :
  length v = 384%nat -> Forall (fun y => 0 <= y) v ->
  Forall (fun y => 0 <= y) (embed_word hash v (i, w))
  /\ total v + 1 / INR (i + 1) <= total (embed_word hash v (i, w)).
Proof.
  intros L N. pose proof (inverse_rank_positive i) as P.
  unfold embed_word.
  set (pos := Z.to_nat ((hash w mod 1000 * 13) mod 384)).
  assert (Hpos : (pos < 384)%nat).
  { unfold pos. pose proof (Z.mod_pos_bound (hash w mod 1000 * 13) 384). lia. }
  assert (N1 : Forall (fun y => 0 <= y) (bump pos (1 / INR (i + 1)) v))
    by (apply bump_nonneg; [Lra.lra|exact N]).
  assert (T1 : total (bump pos (1 / INR (i + 1)) v) = total v + 1 / INR (i + 1))
    by (apply bump_total; lia).
  assert (L1 : length (bump pos (1 / INR (i + 1)) v) = 384%nat)
    by (rewrite bump_length; exact L).
  revert N1 T1 L1. generalize (bump pos (1 / INR (i + 1)) v). intros e1 N1 T1 L1.
  assert (S : forall b k e, (k < 384)%nat -> length e = 384%nat ->
              Forall (fun y => 0 <= y) e ->
              let e' := if b : bool then bump k 2 e else e in
              length e' = 384%nat /\ Forall (fun y => 0 <= y) e'
              /\ total e <= total e').
  { intros b k e Hk Le Ne. destruct b; cbn.
    - rewrite bump_length, bump_total by lia.
      split; [exact Le|]. split; [apply bump_nonneg; [Lra.lra|exact Ne]|Lra.lra].
    - split; [exact Le|]. split; [exact Ne|Lra.lra]. }
  destruct (S (mem w ["pain"; "chest"; "heart"; "emergency"]) 0%nat e1
              ltac:(lia) L1 N1) as (L2 & N2 & T2).
  revert L2 N2 T2.
  generalize (if mem w ["pain"; "chest"; "heart"; "emergency"] then bump 0 2 e1 else e1).
  intros e2 L2 N2 T2.
  destruct (S (mem w ["insurance"; "copay"; "coverage"]) 1%nat e2
              ltac:(lia) L2 N2) as (L3 & N3 & T3).
  revert L3 N3 T3.
  generalize (if mem w ["insurance"; "copay"; "coverage"] then bump 1 2 e2 else e2).
  intros e3 L3 N3 T3.
  destruct (S (mem w ["appointment"; "schedule"; "time"]) 2%nat e3
              ltac:(lia) L3 N3) as (L4 & N4 & T4).
  split; [exact N4|]. cbv zeta in T4. Lra.lra.
Qed.

Lemma fold_embed_grows (l : list (nat * string)) (v : list R) :
  length v = 384%nat -> Forall (fun y => 0 <= y) v ->
  Forall (fun y => 0 <= y) (fold_left (embed_word hash) l v)
  /\ total v <= total (fold_left (embed_word hash) l v).
Proof.
  revert v. induction l as [|[i w] l IH]; intros v L N; cbn [fold_left].
  - split; [exact N|Lra.lra].
  - destruct (embed_word_grows v i w L N) as [N' T'].
    pose proof (inverse_rank_positive i).
    destruct (IH (embed_word hash v (i, w))) as [N'' T''].
    + rewrite embed_word_length. exact L.
    + exact N'.
    + split; [exact N''|Lra.lra].
Qed.

Lemma total_zeros (n : nat) : total (repeat 0 n) = 0.
Proof. induction n as [|n IH]; cbn; [reflexivity|]. fold (total (repeat 0 n)). Lra.lra. Qed.

Lemma zeros_nonneg (n : nat) : Forall (fun y : R => 0 <= y) (repeat 0 n).
Proof. induction n; cbn; constructor; [Lra.lra|assumption]. Qed.

(** A text with a token has an accumulated vector with an entry that is
    not 0, and so has its embedding. *)
Lemma accumulate_nonzero (words : list string) :
  words <> [] -> Exists (fun x => x <> 0) (accumulate hash words).
Proof.
  intros H. destruct words as [|w words]; [congruence|].
  assert (T : 0 < total (accumulate hash (w :: words))).
  { unfold accumulate. cbn [firstn enumerate length seq combine fold_left].
    destruct (embed_word_grows (repeat 0 384) 0 w (repeat_length _ _) (zeros_nonneg _))
      as [N T].
    destruct (fold_embed_grows (combine (seq 1 (length (firstn 19 words))) (firstn 19 words))
                (embed_word hash (repeat 0 384) (0%nat, w))) as [_ T'].
    - rewrite embed_word_length. apply repeat_length.
    - exact N.
    - rewrite total_zeros in T. pose proof (inverse_rank_positive 0). Lra.lra. }
  revert T. generalize (accumulate hash (w :: words)). intros v T.
  induction v as [|x v IH]; [cbn in T; Lra.lra|].
  destruct (Req_dec x 0) as [-> |Hx].
  - apply Exists_cons_tl, IH. cbn in T. fold (total v) in T. Lra.lra.
  - apply Exists_cons_hd. exact Hx.
Qed.

Lemma normalize_nonzero (v : list R) :
  Exists (fun x => x <> 0) v -> Exists (fun x => x <> 0) (normalize v).
Proof.
  intros H. pose proof (squares_positive v H) as S.
  unfold normalize. destruct (Rlt_dec 0 (l2_norm v)) as [P|_]; [|exact H].
  apply List.Exists_exists in H. destruct H as (x & Hin & Hx).
  apply List.Exists_exists. exists (x / l2_norm v). split.
  - apply in_map_iff. eauto.
  - intros E. apply Hx.
    apply (Rmult_eq_reg_r (/ l2_norm v)).
    + unfold Rdiv in E. rewrite E. Lra.lra.
    + apply Rinv_neq_0_compat. Lra.lra.
Qed.

Lemma accumulate_first_twenty (words : list string) :
  accumulate hash (firstn 20 words) = accumulate hash words.
Proof. unfold accumulate. rewrite firstn_firstn. reflexivity. Qed.

(** C8. The fallback embedding has 384 entries, depends on the first 20
    white-space tokens of the lower-cased text only, has L2 norm 1 (so
    within 1e-6 of 1) whenever one of its entries is not 0, and is the
    accumulated vector itself when that vector is all zero. *)
Theorem simple_embedding_normalized (text : string) :
  length (simple_embedding hash text) = 384%nat
  /\ simple_embedding hash text
     = normalize (accumulate hash (firstn 20 (Py.split (Py.lower text))))
  /\ (forall text',
        firstn 20 (Py.split (Py.lower text')) = firstn 20 (Py.split (Py.lower text)) ->
        simple_embedding hash text' = simple_embedding hash text)
  /\ (Exists (fun x => x <> 0) (simple_embedding hash text) ->
      l2_norm (simple_embedding hash text) = 1
      /\ Rabs (l2_norm (simple_embedding hash text) - 1) <= 1 / 1000000)
  /\ (Forall (fun x => x = 0) (accumulate hash (Py.split (Py.lower text))) ->
      simple_embedding hash text = accumulate hash (Py.split (Py.lower text))
      /\ simple_embedding hash text = repeat 0 384).
Proof.
  unfold simple_embedding.
  split; [rewrite normalize_length; apply accumulate_length|].
  split; [rewrite accumulate_first_twenty; reflexivity|].
  split.
  { intros text' E.
    rewrite <- (accumulate_first_twenty (Py.split (Py.lower text'))), E.
    rewrite accumulate_first_twenty. reflexivity. }
  split.
  - intros H. apply normalize_cases in H. rewrite H.
    split; [reflexivity|].
    replace (1 - 1) with 0 by Lra.lra. rewrite Rabs_R0. Lra.lra.
  - intros Z. pose proof (proj2 (normalize_cases _) Z) as E. rewrite E.
    split; [reflexivity|].
    pose proof (accumulate_length (Py.split (Py.lower text))) as L.
    revert Z L. generalize (accumulate hash (Py.split (Py.lower text))).
    intros v Z. rewrite <- (repeat_length 0 384) at 1. 
    generalize 384%nat. intros n.
    revert n. induction Z as [|x v -> _ IH]; intros [|n] L; try discriminate L.
    + reflexivity.
    + cbn. f_equal. apply IH. cbn in L. lia.
Qed.

End WithHash.

(** The hash enters an embedding through [hash(word) % 1000] on the first
    20 tokens only. *)
Lemma embed_word_hash (hash hash' : string -> Z) (v : list R) (i : nat) (w : string) :
  hash w mod 1000 = hash' w mod 1000 ->
  embed_word hash v (i, w) = embed_word hash' v (i, w).
Proof. intros E. unfold embed_word. rewrite E. reflexivity. Qed.

Lemma fold_embed_hash (hash hash' : string -> Z) (l : list (nat * string)) (v : list R) :
  (forall iw, In iw l -> hash (snd iw) mod 1000 = hash' (snd iw) mod 1000) ->
  fold_left (embed_word hash) l v = fold_left (embed_word hash') l v.
Proof.
  revert v. induction l as [|[i w] l IH]; intros v H; cbn [fold_left]; [reflexivity|].
  rewrite (embed_word_hash hash hash' v i w) by (apply (H (i, w)); left; reflexivity).
  apply IH. intros iw Hin. apply H. right. exact Hin.
Qed.

Lemma simple_embedding_hash (hash hash' : string -> Z) (text : string) :
  (forall w, In w (firstn 20 (Py.split (Py.lower text))) ->
             hash w mod 1000 = hash' w mod 1000) ->
  simple_embedding hash text = simple_embedding hash' text.
Proof.
  intros H. unfold simple_embedding, accumulate. f_equal.
  apply fold_embed_hash. intros [i w] Hin. apply H.
  unfold enumerate in Hin. apply in_combine_r in Hin. exact Hin.
Qed.

(** With the fallback strategy the embeddings are those of
    [simple_embedding]: they are the same for two stores, or one store at
    two moments, whatever else their state, as long as the builtin hash
    gives the tokens the same residues modulo 1000, which it does within
    one interpreter process. *)
Theorem fallback_embedding_deterministic (hash hash' : string -> Z)
    (self self' : HealthcareVectorDB) (texts : list string) :
  use_custom_embeddings self = true ->
  use_custom_embeddings self' = true ->
  (forall text w, In text texts -> In w (firstn 20 (Py.split (Py.lower text))) ->
                  hash w mod 1000 = hash' w mod 1000) ->
  create_embeddings hash self texts = map (simple_embedding hash) texts
  /\ create_embeddings hash self texts = create_embeddings hash' self' texts.
Proof.
  intros U U' H. unfold create_embeddings. rewrite U, U'.
  split; [reflexivity|].
  apply map_ext_in. intros text Hin.
  apply simple_embedding_hash. intros w Hw. apply (H text w Hin Hw).
Qed.

Lemma simple_embedding_normalized_witness :
  Py.split (Py.lower "Chest pain") = ["chest"; "pain"]
  /\ Exists (fun x => x <> 0) (simple_embedding Fixtures.flat_hash "Chest pain")
  /\ l2_norm (simple_embedding Fixtures.flat_hash "Chest pain") = 1
  /\ simple_embedding Fixtures.flat_hash "CHEST   PAIN "
     = simple_embedding Fixtures.flat_hash "Chest pain"
  /\ simple_embedding Fixtures.flat_hash "  " = repeat 0 384.
Proof.
  assert (W : Py.split (Py.lower "Chest pain") = ["chest"; "pain"]) by reflexivity.
  assert (N : Exists (fun x => x <> 0) (simple_embedding Fixtures.flat_hash "Chest pain")).
  { unfold simple_embedding. apply normalize_nonzero, accumulate_nonzero.
    rewrite W. discriminate. }
  destruct (simple_embedding_normalized Fixtures.flat_hash "Chest pain")
    as (_ & _ & S & U & _).
  destruct (simple_embedding_normalized Fixtures.flat_hash "  ")
    as (_ & _ & _ & _ & Z).
  split; [exact W|]. split; [exact N|]. split; [exact (proj1 (U N))|].
  split; [apply S; reflexivity|].
  apply Z. change (accumulate Fixtures.flat_hash (Py.split (Py.lower "  ")))
    with (repeat 0 384).
  clear. generalize 384%nat. intros n. induction n; cbn; constructor; auto.
Defined.

Lemma fallback_embedding_deterministic_witness :
  use_custom_embeddings Fixtures.silent_db = true
  /\ use_custom_embeddings Fixtures.other_db = true
  /\ create_embeddings Fixtures.flat_hash Fixtures.silent_db ["chest pain"; "copay"]
     = create_embeddings Fixtures.shifted_hash Fixtures.other_db ["chest pain"; "copay"].
Proof.
  split; [reflexivity|]. split; [reflexivity|].
  apply (fallback_embedding_deterministic Fixtures.flat_hash Fixtures.shifted_hash
           Fixtures.silent_db Fixtures.other_db ["chest pain"; "copay"]
           eq_refl eq_refl).
  intros text w _ _. reflexivity.
Defined.

Lemma bump_head (x r : R) (v : list R) : hd 0 (bump 0 x (r :: v)) = r + x.
Proof. reflexivity. Qed.

Lemma bump_later (pos : nat) (x r : R) (v : list R) :
  hd 0 (bump (S pos) x (r :: v)) = r.
Proof. reflexivity. Qed.

Lemma normalize_head (v : list R) :
  (hd 0 v = 0 -> hd 0 (normalize v) = 0)
  /\ (hd 0 v <> 0 -> hd 0 (normalize v) <> 0).
Proof.
  unfold normalize. destruct (Rlt_dec 0 (l2_norm v)) as [P|_]; [|tauto].
  destruct v as [|r v]; cbn [map hd]; [tauto|]. split.
  - intros ->. unfold Rdiv. apply Rmult_0_l.
  - intros N E. unfold Rdiv in E. apply Rmult_integral in E. destruct E as [E|E].
    + exact (N E).
    + revert E. apply Rinv_neq_0_compat. Lra.lra.
Qed.

(** A single word that is no medical term leaves its weight at the
    position its hash selects. *)
Lemma accumulate_rash (hash : string -> Z) :
  accumulate hash ["rash"]
  = bump (Z.to_nat ((hash "rash" mod 1000 * 13) mod 384)) (1 / INR 1) (repeat 0 384).
Proof. reflexivity. Qed.

(** C9. The fallback embedding is not a function of the text alone: it
    goes through the builtin hash, which every interpreter process salts
    anew, and under another salt the same text gets another vector. *)
Theorem fallback_embedding_depends_on_hash :
  Py.split (Py.lower "rash") = ["rash"]
  /\ simple_embedding Fixtures.flat_hash "rash"
     <> simple_embedding Fixtures.salted_hash "rash"
  /\ create_embeddings Fixtures.flat_hash Fixtures.silent_db ["rash"]
     <> create_embeddings Fixtures.salted_hash Fixtures.silent_db ["rash"].
Proof.
  assert (W : Py.split (Py.lower "rash") = ["rash"]) by reflexivity.
  assert (D : simple_embedding Fixtures.flat_hash "rash"
              <> simple_embedding Fixtures.salted_hash "rash").
  { unfold simple_embedding. rewrite W, !accumulate_rash.
    replace (Z.to_nat ((Fixtures.flat_hash "rash" mod 1000 * 13) mod 384))
      with 0%nat by (vm_compute; reflexivity).
    replace (Z.to_nat ((Fixtures.salted_hash "rash" mod 1000 * 13) mod 384))
      with 13%nat by (vm_compute; reflexivity).
    change (repeat 0 384) with (0 :: repeat 0 383).
    intros E. apply (f_equal (hd 0)) in E.
    destruct (normalize_head (bump 0 (1 / INR 1) (0 :: repeat 0 383))) as [_ A].
    destruct (normalize_head (bump 13 (1 / INR 1) (0 :: repeat 0 383))) as [B _].
    rewrite B in E by apply bump_later.
    apply A; [|exact E]. rewrite bump_head. cbn [INR]. Lra.lra. }
  split; [exact W|]. split; [exact D|].
  unfold create_embeddings. cbn [use_custom_embeddings Fixtures.silent_db init map].
  intros E. apply D. congruence.
Qed.

End Embedding.

(** ** Text *)

Section Text.

Lemma prefix_refl (s : string) : String.prefix s s = true.
Proof.
  induction s as [|c s IH]; cbn; [reflexivity|].
  destruct (ascii_dec c c); [exact IH|congruence].
Qed.

Lemma prefix_app (n a b : string) :
  String.prefix n a = true -> String.prefix n (a ++ b) = true.
Proof.
  revert a. induction n as [|c n IH]; intros a H.
  - destruct (a ++ b); reflexivity.
  - destruct a as [|c' a]; cbn in H; [discriminate|].
    change (String c' a ++ b) with (String c' (a ++ b)). cbn [String.prefix].
    destruct (ascii_dec c c'); [apply IH; exact H|discriminate].
Qed.

Lemma contains_refl (s : string) : Py.contains s s = true.
Proof.
  destruct s; [reflexivity|]. cbn [Py.contains]. rewrite prefix_refl. reflexivity.
Qed.

Lemma contains_app_l (n a b : string) :
  Py.contains n a = true -> Py.contains n (a ++ b) = true.
Proof.
  induction a as [|c a IH]; intros H.
  - cbn in H. rewrite orb_false_r in H.
    destruct n; [|cbn in H; discriminate].
    destruct ("" ++ b); reflexivity.
  - change (String c a ++ b) with (String c (a ++ b)).
    cbn [Py.contains] in *. apply orb_true_iff in H. apply orb_true_iff.
    destruct H as [H|H].
    + left. apply (prefix_app n (String c a) b H).
    + right. apply IH. exact H.
Qed.

Lemma contains_app_r (n a b : string) :
  Py.contains n b = true -> Py.contains n (a ++ b) = true.
Proof.
  intros H. induction a as [|c a IH]; [exact H|].
  change (String c a ++ b) with (String c (a ++ b)).
  cbn [Py.contains]. rewrite IH. apply orb_true_r.
Qed.

Lemma contains_join (n sep : string) (parts : list string) (s : string) :
  In s parts -> Py.contains n s = true -> Py.contains n (Py.join sep parts) = true.
Proof.
  unfold Py.join. intros Hin Hs.
  induction parts as [|x parts IH]; [destruct Hin|].
  destruct parts as [|y parts].
  - destruct Hin as [-> |[]]. exact Hs.
  - change (String.concat sep (x :: y :: parts))
      with (x ++ sep ++ String.concat sep (y :: parts)).
    destruct Hin as [-> |Hin].
    + apply contains_app_l. exact Hs.
    + apply contains_app_r, contains_app_r, IH. exact Hin.
Qed.

Lemma map_chars_app (f : ascii -> ascii) (a b : string) :
  Py.map_chars f (a ++ b) = Py.map_chars f a ++ Py.map_chars f b.
Proof.
  induction a as [|c a IH]; [reflexivity|].
  change (String c a ++ b) with (String c (a ++ b)).
  cbn [Py.map_chars]. rewrite IH. reflexivity.
Qed.

Lemma string_app_assoc (a b c : string) : (a ++ b) ++ c = a ++ b ++ c.
Proof.
  induction a as [|x a IH]; [reflexivity|].
  change ((String x a ++ b) ++ c) with (String x ((a ++ b) ++ c)).
  rewrite IH. reflexivity.
Qed.

Lemma join_snoc (sep x : string) (parts : list string) (s : string) :
  Py.join sep ((x :: parts) ++ [s]) = Py.join sep (x :: parts) ++ sep ++ s.
Proof.
  unfold Py.join. revert x. induction parts as [|y parts IH]; intros x.
  - reflexivity.
  - change (String.concat sep ((x :: y :: parts) ++ [s]))
      with (x ++ sep ++ String.concat sep ((y :: parts) ++ [s])).
    rewrite IH.
    change (String.concat sep (x :: y :: parts))
      with (x ++ sep ++ String.concat sep (y :: parts)).
    rewrite !string_app_assoc. reflexivity.
Qed.

Lemma take_length (n : nat) (s : string) :
  (String.length (Py.take n s) <= n)%nat.
Proof.
  unfold Py.take. revert s. induction n as [|n IH]; intros s.
  - destruct s; cbn; lia.
  - destruct s as [|c s]; cbn; [lia|]. specialize (IH s). lia.
Qed.

Lemma lower_upper_char (c : ascii) :
  Py.lower_char (Py.upper_char c) = Py.lower_char c.
Proof.
  destruct c as [[] [] [] [] [] [] [] []]; reflexivity.
Qed.

Lemma lower_lower_char (c : ascii) :
  Py.lower_char (Py.lower_char c) = Py.lower_char c.
Proof.
  destruct c as [[] [] [] [] [] [] [] []]; reflexivity.
Qed.

Lemma lower_upper (s : string) : Py.lower (Py.upper s) = Py.lower s.
Proof.
  unfold Py.lower, Py.upper.
  induction s as [|c s IH]; cbn; [reflexivity|].
  rewrite lower_upper_char, IH. reflexivity.
Qed.

Lemma lower_lower (s : string) : Py.lower (Py.lower s) = Py.lower s.
Proof.
  unfold Py.lower.
  induction s as [|c s IH]; cbn; [reflexivity|].
  rewrite lower_lower_char, IH. reflexivity.
Qed.

End Text.

(** ** The response composer *)

Section Composer.
Import Rag.

Lemma string_length_app (a b : string) :
  String.length (a ++ b) = (String.length a + String.length b)%nat.
Proof.
  induction a as [|c a IH]; [reflexivity|].
  change (String c a ++ b) with (String c (a ++ b)). cbn. rewrite IH. reflexivity.
Qed.

Lemma is_triage_spec (doc : context_doc) :
  is_triage doc = true <-> metadata doc !! "type" = Some (Py.VStr "triage").
Proof.
  unfold is_triage, get. split.
  - destruct (metadata doc !! "type") as [[| | |s]|]; cbn; try discriminate.
    intros H.
    repeat (destruct s as [|[[] [] [] [] [] [] [] []] s]; try discriminate H).
    reflexivity.
  - intros ->. reflexivity.
Qed.

Lemma find_first {A} (f : A -> bool) (l : list A) :
  match find f l with
  | Some x => exists before after,
      l = (before ++ x :: after)%list /\ f x = true
      /\ Forall (fun y => f y = false) before
  | None => Forall (fun y => f y = false) l
  end.
Proof.
  induction l as [|y l IH]; cbn; [constructor|].
  destruct (f y) eqn:E.
  - exists [], l. repeat split; [exact E|constructor].
  - destruct (find f l) as [x|].
    + destruct IH as (before & after & -> & Hx & Hb).
      exists (y :: before), after. repeat split; [exact Hx|].
      constructor; assumption.
    + constructor; assumption.
Qed.

(** X1. The triage hint comes from the first retrieved document of type
    triage and from no other; it has exactly the five keys (so it is
    never an empty dictionary), each with the value of that document's
    metadata or [None]; without such a document there is no hint. *)
Theorem triage_hint_is_first_triage_document (docs : list context_doc) :
  match extract_triage_info docs with
  | Some info =>
      exists before doc after,
        docs = (before ++ doc :: after)%list
        /\ metadata doc !! "type" = Some (Py.VStr "triage")
        /\ Forall (fun d => metadata d !! "type" <> Some (Py.VStr "triage")) before
        /\ info !! "urgency_level" = Some (get (metadata doc) "urgency_level")
        /\ info !! "department" = Some (get (metadata doc) "department")
        /\ info !! "priority" = Some (get (metadata doc) "priority")
        /\ info !! "symptoms" = Some (get (metadata doc) "symptoms")
        /\ info !! "warning_signs" = Some (get (metadata doc) "warning_signs")
        /\ dom info = ({["urgency_level"; "department"; "priority"; "symptoms";
                        "warning_signs"]} : gset string)
  | None =>
      Forall (fun d => metadata d !! "type" <> Some (Py.VStr "triage")) docs
  end.
Proof.
  unfold extract_triage_info.
  pose proof (find_first is_triage docs) as F.
  assert (N : forall l, Forall (fun y => is_triage y = false) l ->
                Forall (fun d => metadata d !! "type" <> Some (Py.VStr "triage")) l).
  { intros l H. eapply List.Forall_impl; [|exact H]. intros d Hd Ht.
    apply is_triage_spec in Ht. congruence. }
  destruct (find is_triage docs) as [doc|]; [|apply N; exact F].
  destruct F as (before & after & -> & Hx & Hb).
  exists before, doc, after. split; [reflexivity|].
  split; [apply is_triage_spec; exact Hx|]. split; [apply N; exact Hb|].
  do 5 (split; [rewrite !lookup_insert; repeat case_decide; congruence|]).
  rewrite !dom_insert_L, dom_empty_L. set_solver.
Qed.

(** X2. [generate_next_steps] returns four steps whenever it returns, and
    it raises (an AttributeError) exactly when there is a non-empty hint
    whose urgency level is not text. *)
Theorem next_steps_are_four (triage : option (gmap string Py.value)) (q : string) :
  match generate_next_steps triage q with
  | Py.Ok steps =>
      length steps = 4%nat
      /\ forall info,
           triage = Some info -> info <> ∅ ->
           exists u, get_or info "urgency_level" (Py.VStr "") = Py.VStr u
  | Py.Raise e =>
      Py.exn_class e = "AttributeError"
      /\ exists info v,
           triage = Some info /\ info <> ∅
           /\ get_or info "urgency_level" (Py.VStr "") = v
           /\ forall u, v <> Py.VStr u
  end.
Proof.
  unfold generate_next_steps. destruct triage as [info|];
    [|split; [reflexivity|discriminate]].
  case_bool_decide as E; [split; [reflexivity|congruence]|].
  destruct (get_or info "urgency_level" (Py.VStr "")) as [| b | z | u] eqn:G.
  - split; [reflexivity|]. exists info, Py.VNone.
    repeat split; try assumption; discriminate.
  - split; [reflexivity|]. exists info, (Py.VBool b).
    repeat split; try assumption; discriminate.
  - split; [reflexivity|]. exists info, (Py.VInt z).
    repeat split; try assumption; discriminate.
  - split.
    + destruct (String.eqb (Py.upper u) "EMERGENCY"); [reflexivity|].
      destruct (String.eqb (Py.upper u) "URGENT"); [reflexivity|].
      destruct (String.eqb (Py.upper u) "ROUTINE"); reflexivity.
    + intros info' [= <-] _. exists u. exact G.
Qed.

(** X3. The confidence is never below 0.1, whatever the distances (the
    floor holds without any assumption on the index). *)
Theorem confidence_floor (docs : list context_doc) (q : string) :
  Float.leb (Float.decimal 1 10) (calculate_confidence docs q) = true.
Proof.
  destruct docs as [|doc docs]; [vm_compute; reflexivity|].
  apply calculate_confidence_floor.
Qed.

(** X4. Every canned answer carries the disclaimer, whatever the query
    and the context. *)
Theorem simple_response_has_disclaimer (q context : string) :
  Py.contains
    "DISCLAIMER: This is not medical advice. Please consult a qualified healthcare provider"
    (generate_simple_response q context) = true.
Proof.
  unfold generate_simple_response.
  destruct (existsb _ _); [vm_compute; reflexivity|].
  destruct (_ || _ || _); [apply contains_app_r, contains_app_r; vm_compute; reflexivity|].
  destruct (_ || _ || _); apply contains_app_r, contains_app_r; vm_compute; reflexivity.
Qed.

End Composer.

(** ** The query pipeline *)

Section Pipeline.
Import Rag.

Section WithHash.
Variable hash : string -> Z.

Lemma collect_rows (docs : list string) (metas : list (gmap string Py.value))
    (dists : list Float.float) (mrest : list (list (gmap string Py.value)))
    (drest : list (list Float.float)) (i : nat) :
  (i + length docs = length metas)%nat ->
  (i + length docs = length dists)%nat ->
  exists found,
    collect i docs (Some (metas :: mrest)) (Some (dists :: drest)) = Py.Ok found
    /\ map content found = docs
    /\ map metadata found = drop i metas
    /\ map distance found = drop i dists.
Proof.
  revert i. induction docs as [|doc docs IH]; intros i Hm Hd; cbn [length] in *.
  - exists []. cbn. rewrite !drop_ge by lia. repeat split.
  - destruct (lookup_lt_is_Some_2 metas i ltac:(lia)) as [m Em].
    destruct (lookup_lt_is_Some_2 dists i ltac:(lia)) as [d Ed].
    destruct (IH (S i) ltac:(lia) ltac:(lia)) as (found & E & C & M & D).
    exists ({| content := doc; metadata := m; distance := d |} :: found).
    cbn [collect cell first_row Py.bind]. rewrite Em, Ed. cbn [Py.bind].
    rewrite E. cbn [Py.bind map content metadata distance].
    rewrite C, M, D, (drop_S _ _ _ Em), (drop_S _ _ _ Ed). repeat split.
Qed.

Lemma collect_short (docs : list string) (metas : list (gmap string Py.value))
    (dists : list Float.float) (mrest : list (list (gmap string Py.value)))
    (drest : list (list Float.float)) (i : nat) :
  (i <= length metas)%nat ->
  (length metas < i + length docs)%nat ->
  collect i docs (Some (metas :: mrest)) (Some (dists :: drest))
  = Py.Raise (Py.IndexError "list index out of range").
Proof.
  revert i. induction docs as [|doc docs IH]; intros i Hi H; cbn [length] in *; [lia|].
  cbn [collect cell first_row Py.bind].
  destruct (metas !! i) as [m|] eqn:Em; [|reflexivity]. cbn [Py.bind].
  destruct (dists !! i) as [d|]; [|reflexivity]. cbn [Py.bind].
  apply lookup_lt_Some in Em.
  rewrite (IH (S i)) by lia. reflexivity.
Qed.

(** X5. [retrieve_context] pairs the first rows of the answer of the
    index by position: rows of equal length give one context document per
    retrieved text, in order, with its metadata and its distance; a
    metadata row shorter than the document row is an IndexError. *)
Theorem retrieve_context_pairs_rows (self : HealthcareRAGPipeline) (q : string)
    (n : nat) (results : VectorDB.QueryResult)
    (docs : list string) (metas : list (gmap string Py.value)) (dists : list Float.float)
    (rest : list (list string)) (mrest : list (list (gmap string Py.value)))
    (drest : list (list Float.float)) :
  VectorDB.search hash (vector_db self) q n None = Py.Ok results ->
  VectorDB.documents results = Some (docs :: rest) ->
  VectorDB.metadatas results = Some (metas :: mrest) ->
  VectorDB.distances results = Some (dists :: drest) ->
  (length metas = length docs -> length dists = length docs ->
   exists found,
     retrieve_context hash self q n = Py.Ok found
     /\ map content found = docs
     /\ map metadata found = metas
     /\ map distance found = dists)
  /\ ((length metas < length docs)%nat ->
      retrieve_context hash self q n
      = Py.Raise (Py.IndexError "list index out of range")).
Proof.
  intros S D M T. unfold retrieve_context. rewrite S. cbn [Py.bind].
  rewrite D, M, T. split.
  - intros Hm Hd.
    destruct (collect_rows docs metas dists mrest drest 0) as (found & E & C & Mm & Dd);
      [cbn; lia|cbn; lia|].
    exists found. rewrite E. repeat split; assumption.
  - intros H. apply collect_short; lia.
Qed.

(** X6. A triage document without a textual urgency level in its
    metadata makes the whole query fail: when the first retrieved triage
    document has none, [process_query] raises an AttributeError instead of
    answering. *)
Theorem missing_urgency_fails_query (self : HealthcareRAGPipeline) (q : string)
    (docs : list context_doc) (doc : context_doc) :
  retrieve_context hash self q 5 = Py.Ok docs ->
  find is_triage docs = Some doc ->
  (forall u, metadata doc !! "urgency_level" <> Some (Py.VStr u)) ->
  Py.raises (process_query hash self q) "AttributeError".
Proof.
  intros R F U. unfold process_query. rewrite R. cbn [Py.bind].
  destruct docs as [|d docs]; [discriminate F|].
  unfold extract_triage_info. rewrite F.
  unfold generate_next_steps. rewrite bool_decide_eq_false_2 by apply insert_non_empty.
  unfold get_or. rewrite lookup_insert_eq. cbn [default].
  unfold get. destruct (metadata doc !! "urgency_level") as [[| b | z | u]|] eqn:E;
    cbn [default Py.bind]; try (eexists; reflexivity).
  exfalso. apply (U u). reflexivity.
Qed.

(** X7. The generative model shapes the answer text and nothing else:
    two pipelines over the same store fail alike or give responses with
    the same sources, confidence, triage hint and next steps. *)
Theorem llm_only_shapes_answer (self self' : HealthcareRAGPipeline) (q : string) :
  vector_db self = vector_db self' ->
  match process_query hash self q, process_query hash self' q with
  | Py.Ok r, Py.Ok r' =>
      sources r = sources r' /\ confidence r = confidence r'
      /\ triage_info r = triage_info r' /\ next_steps r = next_steps r'
  | Py.Raise e, Py.Raise e' => e = e'
  | _, _ => False
  end.
Proof.
  intros V. unfold process_query.
  assert (R : retrieve_context hash self q 5 = retrieve_context hash self' q 5)
    by (unfold retrieve_context; rewrite V; reflexivity).
  rewrite R. destruct (retrieve_context hash self' q 5) as [docs|e]; [|reflexivity].
  cbn [Py.bind]. destruct docs as [|doc docs]; [repeat split|].
  destruct (generate_next_steps _ q) as [steps|e]; cbn [Py.bind]; [repeat split|reflexivity].
Qed.

(** X8. A generative model that fails on every call is never seen by the
    caller: the responses are those of the rule-based pipeline. *)
Theorem failing_llm_degrades_silently (self : HealthcareRAGPipeline) (q : string) :
  use_advanced_llm self = false ->
  process_query hash (Cases.with_failing_llm self) q = process_query hash self q.
Proof.
  intros U. unfold process_query.
  change (retrieve_context hash (Cases.with_failing_llm self) q 5)
    with (retrieve_context hash self q 5).
  destruct (retrieve_context hash self q 5) as [docs|e]; [|reflexivity].
  cbn [Py.bind]. destruct docs as [|doc docs]; [reflexivity|].
  rewrite U. reflexivity.
Qed.

Lemma source_preview_bound (doc : context_doc) :
  (String.length (content_preview (source_of doc)) <= 203)%nat.
Proof.
  unfold source_of. cbn [content_preview].
  destruct (Nat.ltb_spec 200 (String.length (content doc))) as [H|H]; [|lia].
  rewrite string_length_app. pose proof (take_length 200 (content doc)). cbn. lia.
Qed.

(** X9. A response lists one source per retrieved document, in order; a
    preview is the content itself up to 200 characters and its first 200
    characters followed by three dots beyond, so never longer than 203. *)
Theorem sources_follow_documents (self : HealthcareRAGPipeline) (q : string)
    (docs : list context_doc) (r : RAGResponse) :
  retrieve_context hash self q 5 = Py.Ok docs ->
  process_query hash self q = Py.Ok r ->
  Forall2
    (fun doc src =>
       type src = get_or (metadata doc) "type" (Py.VStr "unknown")
       /\ (String.length (content_preview src) <= 203)%nat
       /\ ((String.length (content doc) <= 200)%nat ->
           content_preview src = content doc)
       /\ ((200 < String.length (content doc))%nat ->
           content_preview src = Py.take 200 (content doc) ++ "..."))
    docs (sources r).
Proof.
  intros R. unfold process_query. rewrite R. cbn [Py.bind].
  assert (G : Forall2
    (fun doc src =>
       type src = get_or (metadata doc) "type" (Py.VStr "unknown")
       /\ (String.length (content_preview src) <= 203)%nat
       /\ ((String.length (content doc) <= 200)%nat ->
           content_preview src = content doc)
       /\ ((200 < String.length (content doc))%nat ->
           content_preview src = Py.take 200 (content doc) ++ "..."))
    docs (map source_of docs)).
  { clear. induction docs as [|doc docs IH]; constructor; [|exact IH].
    split; [reflexivity|]. split; [apply source_preview_bound|].
    unfold source_of. cbn [content_preview].
    destruct (Nat.ltb_spec 200 (String.length (content doc))); split; intros; try lia;
      reflexivity. }
  destruct docs as [|doc docs]; [intros [= <-]; constructor|].
  destruct (generate_next_steps _ q); [|discriminate].
  intros [= <-]. exact G.
Qed.

Lemma format_doc_ends_with_content (doc : context_doc) :
  exists label, format_doc doc = label ++ content doc.
Proof.
  unfold format_doc. generalize (get_or (metadata doc) "type" (Py.VStr "unknown")).
  intros [| b | z | s]; try (exists ""; reflexivity).
  repeat (match goal with
          | |- context [match ?x with EmptyString => _ | String _ _ => _ end] =>
              destruct x as [|[[] [] [] [] [] [] [] []] ?]
          end;
          try (exists ""; reflexivity); try (eexists; reflexivity)).
Qed.

(** X10. The formatted context shows every retrieved document: the
    content of each one occurs in it. *)
Theorem context_shows_every_document (docs : list context_doc) (doc : context_doc) :
  In doc docs -> Py.contains (content doc) (format_context docs) = true.
Proof.
  intros H. unfold format_context.
  destruct docs as [|d docs]; [destruct H|].
  apply (contains_join _ _ _ (format_doc doc)).
  - apply in_map. exact H.
  - destruct (format_doc_ends_with_content doc) as [label ->].
    apply contains_app_r, contains_refl.
Qed.

End WithHash.

Lemma retrieve_context_pairs_rows_witness :
  (exists found,
      retrieve_context Fixtures.flat_hash (Cases.answering Cases.rash_results) "rash" 5
      = Py.Ok found
      /\ map content found
         = [content Fixtures.copay_doc; content Cases.rash_triage])
  /\ retrieve_context Fixtures.flat_hash
       (Cases.answering Cases.short_metadata_results) "rash" 5
     = Py.Raise (Py.IndexError "list index out of range").
Proof.
  split.
  - destruct (retrieve_context_pairs_rows Fixtures.flat_hash (Cases.answering Cases.rash_results) "rash" 5
                Cases.rash_results
                [content Fixtures.copay_doc; content Cases.rash_triage]
                [metadata Fixtures.copay_doc; metadata Cases.rash_triage]
                [distance Fixtures.copay_doc; distance Cases.rash_triage]
                [] [] [] eq_refl eq_refl eq_refl eq_refl) as [H _].
    destruct (H eq_refl eq_refl) as (found & E & C & _).
    exists found. split; assumption.
  - apply (retrieve_context_pairs_rows Fixtures.flat_hash (Cases.answering Cases.short_metadata_results)
             "rash" 5 Cases.short_metadata_results
             ["first"; "second"] [∅] [Float.decimal 1 10; Float.decimal 2 10] [] [] []
             eq_refl eq_refl eq_refl eq_refl).
    cbn. lia.
Defined.

Lemma missing_urgency_fails_query_witness :
  retrieve_context Fixtures.flat_hash (Cases.answering Cases.bare_triage_results) "rash" 5
    = Py.Ok [Cases.bare_triage]
  /\ Py.raises
       (process_query Fixtures.flat_hash (Cases.answering Cases.bare_triage_results) "rash")
       "AttributeError".
Proof.
  assert (R : retrieve_context Fixtures.flat_hash
                (Cases.answering Cases.bare_triage_results) "rash" 5
              = Py.Ok [Cases.bare_triage]) by (vm_compute; reflexivity).
  split; [exact R|].
  apply (missing_urgency_fails_query Fixtures.flat_hash (Cases.answering Cases.bare_triage_results) "rash"
           [Cases.bare_triage] Cases.bare_triage R eq_refl).
  intros u. vm_compute. discriminate.
Defined.

Lemma llm_only_shapes_answer_witness :
  vector_db Fixtures.copay_pipeline
    = vector_db (Cases.with_failing_llm Fixtures.copay_pipeline)
  /\ match process_query Fixtures.flat_hash Fixtures.copay_pipeline "copay",
           process_query Fixtures.flat_hash
             (Cases.with_failing_llm Fixtures.copay_pipeline) "copay" with
     | Py.Ok r, Py.Ok r' =>
         sources r = sources r' /\ confidence r = confidence r'
         /\ triage_info r = triage_info r' /\ next_steps r = next_steps r'
     | Py.Raise e, Py.Raise e' => e = e'
     | _, _ => False
     end.
Proof.
  split; [reflexivity|].
  apply (llm_only_shapes_answer Fixtures.flat_hash Fixtures.copay_pipeline
           (Cases.with_failing_llm Fixtures.copay_pipeline) "copay" eq_refl).
Defined.

Lemma failing_llm_degrades_silently_witness :
  use_advanced_llm Fixtures.copay_pipeline = false
  /\ process_query Fixtures.flat_hash (Cases.with_failing_llm Fixtures.copay_pipeline)
       "what is my copay"
     = process_query Fixtures.flat_hash Fixtures.copay_pipeline "what is my copay".
Proof.
  split; [reflexivity|].
  apply (failing_llm_degrades_silently Fixtures.flat_hash Fixtures.copay_pipeline
           "what is my copay" eq_refl).
Defined.

Lemma sources_follow_documents_witness :
  retrieve_context Fixtures.flat_hash Fixtures.copay_pipeline "copay" 5
    = Py.Ok [Fixtures.copay_doc]
  /\ exists r,
       process_query Fixtures.flat_hash Fixtures.copay_pipeline "copay" = Py.Ok r
       /\ length (sources r) = 1%nat.
Proof.
  assert (R : retrieve_context Fixtures.flat_hash Fixtures.copay_pipeline "copay" 5
              = Py.Ok [Fixtures.copay_doc]) by (vm_compute; reflexivity).
  split; [exact R|].
  destruct (process_query Fixtures.flat_hash Fixtures.copay_pipeline "copay")
    as [r|e] eqn:P; [|vm_compute in P; discriminate P].
  exists r. split; [reflexivity|].
  pose proof (sources_follow_documents Fixtures.flat_hash Fixtures.copay_pipeline
                "copay" [Fixtures.copay_doc] r R P) as F.
  apply Forall2_length in F. symmetry. exact F.
Defined.

Lemma context_shows_every_document_witness :
  In Cases.rash_triage [Fixtures.copay_doc; Cases.rash_triage]
  /\ Py.contains (content Cases.rash_triage)
       (format_context [Fixtures.copay_doc; Cases.rash_triage]) = true.
Proof.
  assert (H : In Cases.rash_triage [Fixtures.copay_doc; Cases.rash_triage])
    by (right; left; reflexivity).
  split; [exact H|].
  apply (context_shows_every_document [Fixtures.copay_doc; Cases.rash_triage]
           Cases.rash_triage H).
Defined.

End Pipeline.

(** ** Intake and triage *)

Section Triage.
Import Intake.

(** X11. A collection method fails only for want of a session: in a
    started session each of the five returns, whatever its arguments (a
    severity that is no number included). *)
Theorem collection_fails_only_without_session (self : PatientIntakeSystem) :
  (forall c l d v loc,
      (exists s, collect_symptoms c l d v loc self = Py.Ok s)
      <-> current_patient self <> None)
  /\ (forall h m a,
      (exists s, collect_medical_history h m a self = Py.Ok s)
      <-> current_patient self <> None)
  /\ (forall pr mid,
      (exists s, collect_insurance_info pr mid self = Py.Ok s)
      <-> current_patient self <> None)
  /\ (forall ph em,
      (exists s, collect_contact_info ph em self = Py.Ok s)
      <-> current_patient self <> None)
  /\ (forall t u,
      (exists s, collect_preferences t u self = Py.Ok s)
      <-> current_patient self <> None).
Proof.
  unfold collect_symptoms, collect_medical_history, collect_insurance_info,
    collect_contact_info, collect_preferences.
  destruct (current_patient self) as [p|];
    repeat split; intros; try congruence; try (eexists; reflexivity);
    match goal with H : exists _, _ |- _ => destruct H as [? H]; discriminate H end.
Qed.

(** X12. In a started session the steps of different field groups can be
    taken in any order: for each of the fifteen pairs of the six groups
    (basic information, symptoms, medical history, insurance, contact,
    preferences) the session the two steps leave is the same. *)
Theorem collection_steps_commute (self : PatientIntakeSystem)
    (sid stamp : string) (a : Z) (g : string)
    (c : string) (l : list string) (d v : string) (loc : option string)
    (h m al : list string) (pr : string) (mid : option string)
    (ph : string) (em : option string) (t u : string) :
  current_patient self <> None ->
  collect_symptoms c l d v loc (collect_basic_info sid stamp a g self)
    = Py.bind (collect_symptoms c l d v loc self)
        (fun s => Py.Ok (collect_basic_info sid stamp a g s))
  /\ collect_medical_history h m al (collect_basic_info sid stamp a g self)
    = Py.bind (collect_medical_history h m al self)
        (fun s => Py.Ok (collect_basic_info sid stamp a g s))
  /\ collect_insurance_info pr mid (collect_basic_info sid stamp a g self)
    = Py.bind (collect_insurance_info pr mid self)
        (fun s => Py.Ok (collect_basic_info sid stamp a g s))
  /\ collect_contact_info ph em (collect_basic_info sid stamp a g self)
    = Py.bind (collect_contact_info ph em self)
        (fun s => Py.Ok (collect_basic_info sid stamp a g s))
  /\ collect_preferences t u (collect_basic_info sid stamp a g self)
    = Py.bind (collect_preferences t u self)
        (fun s => Py.Ok (collect_basic_info sid stamp a g s))
  /\ Py.bind (collect_symptoms c l d v loc self) (collect_medical_history h m al)
     = Py.bind (collect_medical_history h m al self) (collect_symptoms c l d v loc)
  /\ Py.bind (collect_symptoms c l d v loc self) (collect_insurance_info pr mid)
     = Py.bind (collect_insurance_info pr mid self) (collect_symptoms c l d v loc)
  /\ Py.bind (collect_symptoms c l d v loc self) (collect_contact_info ph em)
     = Py.bind (collect_contact_info ph em self) (collect_symptoms c l d v loc)
  /\ Py.bind (collect_symptoms c l d v loc self) (collect_preferences t u)
     = Py.bind (collect_preferences t u self) (collect_symptoms c l d v loc)
  /\ Py.bind (collect_medical_history h m al self) (collect_insurance_info pr mid)
     = Py.bind (collect_insurance_info pr mid self) (collect_medical_history h m al)
  /\ Py.bind (collect_medical_history h m al self) (collect_contact_info ph em)
     = Py.bind (collect_contact_info ph em self) (collect_medical_history h m al)
  /\ Py.bind (collect_medical_history h m al self) (collect_preferences t u)
     = Py.bind (collect_preferences t u self) (collect_medical_history h m al)
  /\ Py.bind (collect_insurance_info pr mid self) (collect_contact_info ph em)
     = Py.bind (collect_contact_info ph em self) (collect_insurance_info pr mid)
  /\ Py.bind (collect_insurance_info pr mid self) (collect_preferences t u)
     = Py.bind (collect_preferences t u self) (collect_insurance_info pr mid)
  /\ Py.bind (collect_contact_info ph em self) (collect_preferences t u)
     = Py.bind (collect_preferences t u self) (collect_contact_info ph em).
Proof.
  intros S.
  unfold collect_symptoms, collect_medical_history, collect_insurance_info,
    collect_contact_info, collect_preferences, collect_basic_info.
  destruct (current_patient self) as [p|] eqn:E; [|congruence].
  cbn [Py.bind current_patient with_patient]. rewrite ?E.
  cbn [Py.bind current_patient with_patient]. repeat split.
Qed.

Lemma collection_steps_commute_witness :
  current_patient Fixtures.started_system <> None
  /\ Py.bind (collect_medical_history ["asthma"] [] [] Fixtures.started_system)
       (collect_contact_info "555-0100" None)
     = Py.bind (collect_contact_info "555-0100" None Fixtures.started_system)
         (collect_medical_history ["asthma"] [] [])
  /\ collect_preferences "morning" "urgent"
       (collect_basic_info "" "" 40 "Male" Fixtures.started_system)
     = Py.bind (collect_preferences "morning" "urgent" Fixtures.started_system)
         (fun s => Py.Ok (collect_basic_info "" "" 40 "Male" s)).
Proof.
  assert (S : current_patient Fixtures.started_system <> None) by discriminate.
  split; [exact S|].
  pose proof (collection_steps_commute Fixtures.started_system "" "" 40 "Male"
                "" [] "" "" None ["asthma"] [] [] "Acme Health" None "555-0100" None
                "morning" "urgent" S) as K.
  split; [apply K|apply K].
Defined.

Lemma collect_symptoms_patient (self s' : PatientIntakeSystem)
    (c : string) (l : list string) (d v : string) (loc : option string) :
  collect_symptoms c l d v loc self = Py.Ok s' ->
  exists p p',
    current_patient self = Some p /\ current_patient s' = Some p'
    /\ emergency_keywords s' = emergency_keywords self
    /\ chief_complaint p' = Some c /\ symptoms p' = l
    /\ symptom_severity p' = Some (convert_severity self v)
    /\ age p' = age p.
Proof.
  unfold collect_symptoms. destruct (current_patient self) as [p|]; [|discriminate].
  intros [= <-]. eexists _, _. repeat split.
Qed.

Lemma flags_of (self : PatientIntakeSystem) (p : PatientInfo) :
  current_patient self = Some p ->
  check_emergency_indicators self
  = ((0 <? length (keyword_flags (emergency_keywords self) (symptoms_text p)
                   ++ severity_flags p ++ age_flags p (symptoms_text p)))%nat,
     (keyword_flags (emergency_keywords self) (symptoms_text p)
      ++ severity_flags p ++ age_flags p (symptoms_text p))%list).
Proof. intros E. unfold check_emergency_indicators. rewrite E. reflexivity. Qed.

(** X13. The severity label alone can decide: after [collect_symptoms]
    with "severe" or "unbearable" (in any capitalisation) the patient is
    an emergency whatever the symptoms, while "mild", "moderate" and a text
    that is neither a label nor a number never raise the severity flag. *)
Theorem severity_label_decides (self s' : PatientIntakeSystem)
    (c : string) (l : list string) (d v : string) (loc : option string) :
  reachable self ->
  collect_symptoms c l d v loc self = Py.Ok s' ->
  (Py.lower v = "severe" \/ Py.lower v = "unbearable" ->
   fst (check_emergency_indicators s') = true)
  /\ (Py.lower v = "mild" \/ Py.lower v = "moderate"
      \/ (~ In (Py.lower v) severity_labels /\ Py.int v = None) ->
      forall p', current_patient s' = Some p' -> severity_flags p' = []).
Proof.
  intros R E.
  destruct (collect_symptoms_patient _ _ _ _ _ _ _ E)
    as (p & p' & _ & E' & _ & _ & _ & Sev & _).
  pose proof (convert_severity_configured self v (reachable_configured self R)) as CS.
  split.
  - intros H. rewrite (flags_of s' p' E'). cbn [fst].
    apply Nat.ltb_lt. rewrite !length_app.
    assert (0 < length (severity_flags p'))%nat; [|lia].
    unfold severity_flags. rewrite Sev, CS.
    destruct H as [H|H]; rewrite H; repeat case_decide; try congruence; cbn; lia.
  - intros H p'' E''. rewrite E' in E''. injection E'' as <-.
    unfold severity_flags. rewrite Sev, CS.
    destruct H as [H|[H|[N I]]].
    + rewrite H. repeat case_decide; try congruence; reflexivity.
    + rewrite H. repeat case_decide; try congruence; reflexivity.
    + unfold severity_labels in N. cbn [In] in N.
      repeat case_decide; try (exfalso; apply N; intuition congruence).
      rewrite I. reflexivity.
Qed.

Lemma severity_label_decides_witness :
  reachable Fixtures.started_system
  /\ (exists s',
        collect_symptoms "cough" ["cough"] "1 day" "Unbearable" None
          Fixtures.started_system = Py.Ok s'
        /\ fst (check_emergency_indicators s') = true)
  /\ Py.lower "Unbearable" = "unbearable".
Proof.
  assert (R : reachable Fixtures.started_system) by (apply reach_start, reach_init).
  split; [exact R|]. split; [|reflexivity].
  eexists. split; [reflexivity|].
  eapply (severity_label_decides Fixtures.started_system _ "cough" ["cough"] "1 day"
            "Unbearable" None R eq_refl).
  right. reflexivity.
Defined.

(** X14. The rule for the elderly never decides: whenever it fires, the
    keyword "chest pain" has fired already. *)
Theorem elderly_rule_never_decides (self : PatientIntakeSystem) :
  reachable self ->
  In "Chest pain in elderly patient" (snd (check_emergency_indicators self)) ->
  In "Emergency keyword detected: chest pain" (snd (check_emergency_indicators self)).
Proof.
  intros R. pose proof (reachable_configured self R) as C.
  destruct (current_patient self) as [p|] eqn:E.
  - rewrite (flags_of self p E). cbn [snd]. intros H.
    apply in_or_app. left.
    apply in_app_or in H. destruct H as [H|H];
      [apply keyword_flag_shape in H; destruct H as [k H]; discriminate H|].
    apply in_app_or in H. destruct H as [H|H];
      [apply severity_flag_shape in H; destruct H as [k H]; discriminate H|].
    rewrite keyword_flags_filter. apply in_map_iff. exists "chest pain".
    split; [reflexivity|]. apply filter_In. split.
    + rewrite C. cbn. left. reflexivity.
    + unfold age_flags in H. destruct (nonzero (age p)) as [a|]; [|contradiction].
      apply in_app_or in H. destruct H as [H|H].
      * destruct (65 <=? a); [|contradiction]. cbn [andb] in H.
        destruct (Py.contains "chest pain" (symptoms_text p)); [reflexivity|contradiction].
      * destruct ((a <? 5) && Py.contains "fever" (symptoms_text p));
          [destruct H as [H|[]]; discriminate H|contradiction].
  - unfold check_emergency_indicators. rewrite E. intros [].
Qed.

Lemma elderly_rule_never_decides_witness :
  exists s,
    Fixtures.chest_pain_at_70 = Py.Ok s
    /\ reachable s
    /\ In "Chest pain in elderly patient" (snd (check_emergency_indicators s))
    /\ In "Emergency keyword detected: chest pain" (snd (check_emergency_indicators s)).
Proof.
  eexists. split; [reflexivity|].
  match goal with |- reachable ?s /\ _ =>
    assert (R : reachable s)
      by (eapply reach_symptoms; [apply reach_basic, reach_init|reflexivity])
  end.
  split; [exact R|].
  match goal with |- In ?x ?l /\ _ =>
    assert (H : In x l) by (vm_compute; right; left; reflexivity)
  end.
  split; [exact H|].
  exact (elderly_rule_never_decides _ R H).
Defined.

Lemma string_app_nil_r (a : string) : a ++ "" = a.
Proof.
  induction a as [|c a IH]; [reflexivity|].
  change (String c a ++ "") with (String c (a ++ "")). rewrite IH. reflexivity.
Qed.

Lemma join_extends (sep x : string) (l extra : list string) :
  exists rest, Py.join sep ((x :: l) ++ extra) = Py.join sep (x :: l) ++ rest.
Proof.
  unfold Py.join. revert x. induction l as [|y l IH]; intros x.
  - destruct extra as [|e extra].
    + exists "". rewrite string_app_nil_r. reflexivity.
    + eexists. reflexivity.
  - destruct (IH y) as [rest E]. exists rest.
    change (String.concat sep ((x :: y :: l) ++ extra))
      with (x ++ sep ++ String.concat sep ((y :: l) ++ extra)).
    rewrite E.
    change (String.concat sep (x :: y :: l))
      with (x ++ sep ++ String.concat sep (y :: l)).
    rewrite !string_app_assoc. reflexivity.
Qed.

Lemma symptoms_text_extends (p p' : PatientInfo) (extra : list string) :
  chief_complaint p' = chief_complaint p ->
  symptoms p' = (symptoms p ++ extra)%list ->
  exists rest, symptoms_text p' = symptoms_text p ++ rest.
Proof.
  intros C S. unfold symptoms_text. rewrite C, S.
  destruct (join_extends " " (match chief_complaint p with Some c => c | None => "" end)
              (symptoms p) extra) as [rest E].
  change (?c :: symptoms p ++ extra)%list with ((c :: symptoms p) ++ extra)%list.
  rewrite E. unfold Py.lower. rewrite map_chars_app. eauto.
Qed.

(** X15. Reporting more symptoms never lowers the urgency: every flag
    raised for a list of symptoms is raised for a longer list, so an
    emergency stays one. *)
Theorem more_symptoms_keep_emergency (self s1 s2 : PatientIntakeSystem)
    (c : string) (l extra : list string) (d v : string) (loc : option string) :
  collect_symptoms c l d v loc self = Py.Ok s1 ->
  collect_symptoms c (l ++ extra) d v loc self = Py.Ok s2 ->
  incl (snd (check_emergency_indicators s1)) (snd (check_emergency_indicators s2))
  /\ (fst (check_emergency_indicators s1) = true ->
      fst (check_emergency_indicators s2) = true).
Proof.
  intros E1 E2.
  destruct (collect_symptoms_patient _ _ _ _ _ _ _ E1)
    as (p & p1 & P & P1 & K1 & C1 & S1 & V1 & A1).
  destruct (collect_symptoms_patient _ _ _ _ _ _ _ E2)
    as (p' & p2 & P' & P2 & K2 & C2 & S2 & V2 & A2).
  rewrite P in P'. injection P' as <-.
  destruct (symptoms_text_extends p1 p2 extra) as [rest T];
    [congruence|congruence|].
  assert (M : forall k, Py.contains k (symptoms_text p1) = true ->
                        Py.contains k (symptoms_text p2) = true).
  { intros k H. rewrite T. apply contains_app_l. exact H. }
  assert (I : incl (snd (check_emergency_indicators s1))
                   (snd (check_emergency_indicators s2))).
  { rewrite (flags_of s1 p1 P1), (flags_of s2 p2 P2). cbn [snd]. rewrite K1, K2.
    apply incl_app_app; [|apply incl_app_app].
    - rewrite !keyword_flags_filter. intros x Hx.
      apply in_map_iff in Hx. destruct Hx as (k & <- & Hk).
      apply filter_In in Hk. destruct Hk as [Hin Hk].
      apply in_map_iff. exists k. split; [reflexivity|].
      apply filter_In. split; [exact Hin|apply M; exact Hk].
    - unfold severity_flags. rewrite V1, V2. apply incl_refl.
    - unfold age_flags. rewrite A1, A2.
      destruct (nonzero (age p)) as [a|]; [|apply incl_refl].
      apply incl_app_app.
      + destruct (65 <=? a); [|apply incl_refl]. cbn [andb].
        destruct (Py.contains "chest pain" (symptoms_text p1)) eqn:H;
          [rewrite (M _ H); apply incl_refl|intros x []].
      + destruct (a <? 5); [|apply incl_refl]. cbn [andb].
        destruct (Py.contains "fever" (symptoms_text p1)) eqn:H;
          [rewrite (M _ H); apply incl_refl|intros x []]. }
  split; [exact I|].
  rewrite (flags_of s1 p1 P1), (flags_of s2 p2 P2) in *. cbn [fst snd] in *.
  intros H. apply Nat.ltb_lt in H. apply Nat.ltb_lt.
  destruct (keyword_flags (emergency_keywords s1) (symptoms_text p1)
            ++ severity_flags p1 ++ age_flags p1 (symptoms_text p1))%list
    as [|x xs]; [cbn in H; lia|].
  specialize (I x (or_introl eq_refl)).
  destruct (keyword_flags (emergency_keywords s2) (symptoms_text p2)
            ++ severity_flags p2 ++ age_flags p2 (symptoms_text p2))%list;
    [destruct I|cbn; lia].
Qed.

Lemma more_symptoms_keep_emergency_witness :
  exists s1 s2,
    collect_symptoms "dizzy" ["chest pain"] "1 day" "mild" None Fixtures.started_system
      = Py.Ok s1
    /\ collect_symptoms "dizzy" (["chest pain"] ++ ["cough"]) "1 day" "mild" None
         Fixtures.started_system = Py.Ok s2
    /\ fst (check_emergency_indicators s1) = true
    /\ fst (check_emergency_indicators s2) = true.
Proof.
  eexists _, _. split; [reflexivity|]. split; [reflexivity|].
  match goal with |- ?a = true /\ _ => assert (H : a = true) by (vm_compute; reflexivity) end.
  split; [exact H|].
  exact (proj2 (more_symptoms_keep_emergency Fixtures.started_system _ _
                  "dizzy" ["chest pain"] ["cough"] "1 day" "mild" None eq_refl eq_refl) H).
Defined.

(** X16. There are at most 15 flags (13 keywords, the severity, and one
    of the two age rules, which exclude each other), and the patient is an
    emergency exactly when there is at least one. *)
Theorem emergency_flags_bounded (self : PatientIntakeSystem) :
  reachable self ->
  (length (snd (check_emergency_indicators self)) <= 15)%nat
  /\ (fst (check_emergency_indicators self) = true
      <-> snd (check_emergency_indicators self) <> []).
Proof.
  intros R. pose proof (reachable_configured self R) as C.
  destruct (current_patient self) as [p|] eqn:E.
  - rewrite (flags_of self p E). cbn [fst snd]. split.
    + rewrite !length_app, keyword_flags_filter, length_map.
      pose proof (List.filter_length_le
                    (fun k => Py.contains k (symptoms_text p)) (emergency_keywords self)) as F.
      assert (K : length (emergency_keywords self) = 13%nat) by (rewrite C; reflexivity).
      assert (S : (length (severity_flags p) <= 1)%nat).
      { unfold severity_flags. destruct (nonzero _) as [sev|]; [|cbn; lia].
        destruct (8 <=? sev); cbn; lia. }
      assert (A : (length (age_flags p (symptoms_text p)) <= 1)%nat).
      { unfold age_flags. destruct (nonzero _) as [a|]; [|cbn; lia].
        rewrite length_app.
        destruct (Z.leb_spec 65 a), (Z.ltb_spec a 5); try lia; cbn [andb];
          repeat match goal with |- context [if ?b then _ else _] => destruct b end;
          cbn; lia. }
      lia.
    + rewrite Nat.ltb_lt.
      destruct (keyword_flags _ _ ++ severity_flags p ++ age_flags p _)%list;
        cbn; split; intros; try lia; congruence.
  - unfold check_emergency_indicators. rewrite E. cbn. split; [lia|].
    split; intros; congruence.
Qed.

Lemma emergency_flags_bounded_witness :
  exists s,
    Cases.every_alarm = Py.Ok s
    /\ reachable s
    /\ length (snd (check_emergency_indicators s)) = 15%nat
    /\ In "High severity score: 10/10" (snd (check_emergency_indicators s))
    /\ In "Chest pain in elderly patient" (snd (check_emergency_indicators s))
    /\ (length (snd (check_emergency_indicators s)) <= 15)%nat
    /\ fst (check_emergency_indicators s) = true.
Proof.
  eexists. split; [reflexivity|].
  match goal with |- reachable ?s /\ _ =>
    assert (R : reachable s)
      by (eapply reach_symptoms; [apply reach_basic, reach_init|reflexivity]);
    pose proof (emergency_flags_bounded s R) as [B I];
    assert (L : length (snd (check_emergency_indicators s)) = 15%nat)
      by (vm_compute; reflexivity)
  end.
  split; [exact R|]. split; [exact L|].
  split; [vm_compute; do 13 right; left; reflexivity|].
  split; [vm_compute; do 14 right; left; reflexivity|].
  split; [exact B|].
  apply I. intros E. rewrite E in L. discriminate L.
Defined.

Lemma time_slots_of (self : PatientIntakeSystem) (k : string) :
  configured self ->
  time_slots self !! k =
  if decide (k = "emergency") then Some ["immediately"; "ASAP"]
  else if decide (k = "urgent")
       then Some ["within 2 hours"; "today if possible"; "this evening"]
  else if decide (k = "routine")
       then Some ["within 1-2 weeks"; "next available appointment";
                  "at your convenience"]
  else None.
Proof.
  intros C. rewrite C.
  change (time_slots (with_patient (init (rag_pipeline self)) (current_patient self)))
    with (time_slots (init (rag_pipeline self))).
  cbn [time_slots init]. rewrite !lookup_insert, lookup_empty.
  repeat case_decide; congruence.
Qed.

(** X17. The time slots follow the urgency in any capitalisation, the
    alternative options only the exact upper-case words: an urgency
    written "Urgent" gets the urgent slots and the routine options. An
    unknown urgency gets the routine slots. *)
Theorem slots_ignore_case_options_do_not (self : PatientIntakeSystem) (u : string) :
  reachable self ->
  (Py.lower u = "urgent" ->
   _get_recommended_time_slots self (Py.VStr u)
   = Py.Ok ["within 2 hours"; "today if possible"; "this evening"])
  /\ (Py.lower u = "emergency" ->
      _get_recommended_time_slots self (Py.VStr u) = Py.Ok ["immediately"; "ASAP"])
  /\ (Py.lower u <> "urgent" -> Py.lower u <> "emergency" ->
      _get_recommended_time_slots self (Py.VStr u)
      = Py.Ok ["within 1-2 weeks"; "next available appointment"; "at your convenience"])
  /\ (u <> "URGENT" -> u <> "EMERGENCY" ->
      _get_alternative_options (Py.VStr u)
      = ["Regular appointment"; "Telehealth consultation"; "Walk-in clinic"]).
Proof.
  intros R. pose proof (reachable_configured self R) as C.
  unfold _get_recommended_time_slots.
  rewrite (time_slots_of self "routine" C), (time_slots_of self (Py.lower u) C).
  cbn [default].
  split; [|split; [|split]].
  - intros ->. reflexivity.
  - intros ->. reflexivity.
  - intros N1 N2. repeat case_decide; try congruence; reflexivity.
  - intros N1 N2. unfold _get_alternative_options, Py.is_str.
    destruct (String.eqb_spec u "EMERGENCY"); [congruence|].
    destruct (String.eqb_spec u "URGENT"); [congruence|]. reflexivity.
Qed.

Lemma slots_ignore_case_options_do_not_witness :
  reachable Fixtures.started_system
  /\ Py.lower "Urgent" = "urgent"
  /\ _get_recommended_time_slots Fixtures.started_system (Py.VStr "Urgent")
     = Py.Ok ["within 2 hours"; "today if possible"; "this evening"]
  /\ _get_alternative_options (Py.VStr "Urgent")
     = ["Regular appointment"; "Telehealth consultation"; "Walk-in clinic"].
Proof.
  assert (R : reachable Fixtures.started_system) by (apply reach_start, reach_init).
  destruct (slots_ignore_case_options_do_not Fixtures.started_system "Urgent" R)
    as (U & _ & _ & O).
  split; [exact R|]. split; [reflexivity|]. split; [apply U; reflexivity|].
  apply O; discriminate.
Defined.

Section WithHash.
Variable hash : string -> Z.

Lemma insurance_fold_keeps (provider k : string) (v : Py.value)
    (srcs : list Rag.source_info) (info : gmap string Py.value) :
  k <> "emergency_copay" ->
  info !! k = Some v ->
  fold_left
    (fun (info : gmap string Py.value) src =>
       if Py.is_str (Rag.type src) "insurance"
          && Py.contains (Py.lower provider) (Py.lower (Rag.content_preview src))
       then match emergency_copay_of (Rag.content_preview src) with
            | Some copay => <["emergency_copay" := Py.VStr copay]> info
            | None => info
            end
       else info) srcs info !! k = Some v.
Proof.
  intros N. revert info. induction srcs as [|src srcs IH]; intros info H; [exact H|].
  cbn [fold_left]. apply IH.
  destruct (_ && _); [|exact H].
  destruct (emergency_copay_of _); [|exact H].
  rewrite lookup_insert_ne by congruence. exact H.
Qed.

Lemma insurance_lookup_keys (provider : string) (self : PatientIntakeSystem)
    (info : gmap string Py.value) :
  snd (get_insurance_info hash self provider) = Py.Ok info ->
  info !! "primary_care_copay" = Some (Py.VStr "Contact insurance for details").
Proof.
  unfold get_insurance_info. cbn [fst snd].
  destruct (Rag.process_query hash (rag_pipeline self) _) as [response|e];
    [|discriminate].
  cbn [Py.bind]. intros [= <-].
  apply insurance_fold_keeps; [discriminate|].
  rewrite !lookup_insert; repeat case_decide; congruence.
Qed.

(** X18. The insurance lookup never learns more than the emergency copay:
    whatever is retrieved, the provider is reported as accepted and the
    urgent-care, specialist and primary-care copays stay "Contact
    insurance for details". *)
Theorem insurance_lookup_defaults (self : PatientIntakeSystem) (provider : string)
    (info : gmap string Py.value) :
  snd (get_insurance_info hash self provider) = Py.Ok info ->
  fst (get_insurance_info hash self provider) = ["insurance coverage copay " ++ provider]
  /\ info !! "provider" = Some (Py.VStr provider)
  /\ info !! "accepted" = Some (Py.VBool true)
  /\ info !! "urgent_care_copay" = Some (Py.VStr "Contact insurance for details")
  /\ info !! "specialist_copay" = Some (Py.VStr "Contact insurance for details")
  /\ info !! "primary_care_copay" = Some (Py.VStr "Contact insurance for details").
Proof.
  unfold get_insurance_info. cbn [fst snd].
  destruct (Rag.process_query hash (rag_pipeline self) _) as [response|e];
    [|discriminate].
  cbn [Py.bind]. intros [= <-]. split; [reflexivity|].
  repeat split; apply insurance_fold_keeps; try discriminate;
    rewrite !lookup_insert; repeat case_decide; congruence.
Qed.

Lemma process_query_hint_textual (pl : Rag.HealthcareRAGPipeline) (q : string)
    (r : Rag.RAGResponse) (info : gmap string Py.value) :
  Rag.process_query hash pl q = Py.Ok r ->
  Rag.triage_info r = Some info ->
  info <> ∅ /\ exists u, info !! "urgency_level" = Some (Py.VStr u).
Proof.
  unfold Rag.process_query.
  destruct (Rag.retrieve_context hash pl q 5) as [docs|e]; [|discriminate].
  cbn [Py.bind]. destruct docs as [|doc docs]; [intros [= <-]; discriminate|].
  destruct (Rag.generate_next_steps _ q) as [steps|e] eqn:G; [|discriminate].
  cbn [Py.bind]. intros [= <-]. cbn [Rag.triage_info]. intros T.
  rewrite T in G. unfold Rag.generate_next_steps in G.
  assert (N : info <> ∅).
  { unfold Rag.extract_triage_info in T.
    destruct (find Rag.is_triage (doc :: docs)); [|discriminate].
    injection T as <-. apply insert_non_empty. }
  split; [exact N|].
  rewrite bool_decide_eq_false_2 in G by exact N.
  assert (L : exists v, info !! "urgency_level" = Some v).
  { unfold Rag.extract_triage_info in T.
    destruct (find Rag.is_triage (doc :: docs)); [|discriminate].
    injection T as <-. rewrite lookup_insert_eq. eauto. }
  destruct L as [v L]. unfold Rag.get_or in G. rewrite L in G. cbn [default] in G.
  destruct v as [| b | z | u]; try discriminate G. eauto.
Qed.

(** X19. Triage fails only when the pipeline does: if the recommendation
    cannot be produced, the error is the one of the triage query or of the
    insurance query. *)
Theorem triage_fails_only_with_pipeline (self : PatientIntakeSystem) (p : PatientInfo) :
  reachable self ->
  current_patient self = Some p ->
  match snd (generate_triage_recommendation hash self) with
  | Py.Ok _ => True
  | Py.Raise e =>
      Rag.process_query hash (rag_pipeline self) (_build_triage_query p) = Py.Raise e
      \/ exists provider,
           insurance_provider p = Some provider
           /\ Rag.process_query hash (rag_pipeline self)
                ("insurance coverage copay " ++ provider) = Py.Raise e
  end.
Proof.
  intros R E. pose proof (reachable_configured self R) as C.
  unfold generate_triage_recommendation. rewrite E.
  destruct (check_emergency_indicators self) as [[|] flags]; [exact I|].
  destruct (Rag.process_query hash (rag_pipeline self) (_build_triage_query p))
    as [response|e] eqn:PQ; [|left; reflexivity].
  assert (U : exists u,
             match match Rag.triage_info response with
                   | Some info => if bool_decide (info = ∅) then None else Some info
                   | None => None
                   end with
             | Some info => Rag.get_or info "urgency_level" (Py.VStr "ROUTINE")
             | None => Py.VStr "ROUTINE"
             end = Py.VStr u).
  { destruct (Rag.triage_info response) as [info|] eqn:T; [|eauto].
    destruct (process_query_hint_textual _ _ _ _ PQ T) as [N [u L]].
    rewrite bool_decide_eq_false_2 by exact N.
    unfold Rag.get_or. rewrite L. eauto. }
  destruct U as [u U]. rewrite U.
  assert (S : exists slots, _get_recommended_time_slots self (Py.VStr u) = Py.Ok slots).
  { unfold _get_recommended_time_slots.
    rewrite (time_slots_of self "routine" C). cbn. eauto. }
  destruct S as [slots S]. rewrite S.
  unfold nonempty. destruct (insurance_provider p) as [provider|]; [|exact I].
  destruct (String.eqb provider ""); [exact I|].
  unfold get_insurance_info.
  destruct (Rag.process_query hash (rag_pipeline self)
              ("insurance coverage copay " ++ provider)) as [ir|e] eqn:IQ.
  - exact I.
  - cbn. right. exists provider. split; [reflexivity|exact IQ].
Qed.

(** X20. The estimated cost is one of three fixed texts and never an
    amount: "Emergency copay applies" on the emergency path, and on the
    retrieval path "Contact insurance for details" for a patient with an
    insurance provider and "Contact insurance for estimate" for one
    without, whatever the documents retrieved. *)
Theorem estimated_cost_is_never_an_amount (self : PatientIntakeSystem) :
  match snd (generate_triage_recommendation hash self) with
  | Py.Ok r =>
      exists p,
        current_patient self = Some p
        /\ (fst (check_emergency_indicators self) = true ->
            estimated_cost r = Py.VStr "Emergency copay applies")
        /\ (fst (check_emergency_indicators self) = false ->
            (forall provider, insurance_provider p = Some provider -> provider <> "" ->
                              estimated_cost r = Py.VStr "Contact insurance for details")
            /\ (insurance_provider p = None \/ insurance_provider p = Some "" ->
                estimated_cost r = Py.VStr "Contact insurance for estimate"))
  | Py.Raise _ => True
  end.
Proof.
  unfold generate_triage_recommendation.
  destruct (current_patient self) as [p|] eqn:E; [|exact I].
  destruct (check_emergency_indicators self) as [[|] flags]; cbn [fst].
  { exists p. split; [reflexivity|]. split; [reflexivity|discriminate]. }
  destruct (Rag.process_query hash (rag_pipeline self) (_build_triage_query p))
    as [response|e]; [|exact I].
  destruct (nonempty (insurance_provider p)) as [provider|] eqn:NE.
  - pose proof (insurance_lookup_keys provider self) as K.
    destruct (get_insurance_info hash self provider) as [asked [info|e]];
      cbn [snd Py.bind]; [|exact I].
    destruct (_get_recommended_time_slots self _); cbn [Py.bind]; [|exact I].
    exists p. split; [reflexivity|]. split; [discriminate|]. intros _.
    cbn [estimated_cost]. unfold Rag.get_or. rewrite (K info eq_refl).
    split; [reflexivity|].
    unfold nonempty in NE. intros [H|H]; rewrite H in NE; discriminate NE.
  - cbn [snd Py.bind].
    destruct (_get_recommended_time_slots self _); cbn [Py.bind]; [|exact I].
    exists p. split; [reflexivity|]. split; [discriminate|]. intros _.
    cbn [estimated_cost]. split; [|reflexivity].
    intros provider H N. unfold nonempty in NE. rewrite H in NE.
    destruct (String.eqb_spec provider ""); [contradiction|discriminate NE].
Qed.

(** X21. The visit plan follows the triage: the same queries, the same
    failure if triage fails, and otherwise that recommendation for the
    current patient with confidence 0.85; check-in and total time are
    read off the exact words EMERGENCY and URGENT, and follow-up is asked
    exactly for URGENT and ROUTINE. *)
Theorem visit_plan_follows_triage (in_two_hours : string)
    (self : PatientIntakeSystem) (p : PatientInfo) :
  current_patient self = Some p ->
  fst (generate_visit_plan hash in_two_hours self)
  = fst (generate_triage_recommendation hash self)
  /\ match snd (generate_triage_recommendation hash self) with
     | Py.Raise e => snd (generate_visit_plan hash in_two_hours self) = Py.Raise e
     | Py.Ok r =>
         exists plan,
           snd (generate_visit_plan hash in_two_hours self) = Py.Ok plan
           /\ triage_recommendation plan = r
           /\ patient_info plan = p
           /\ confidence_score plan = Float.decimal 85 100
           /\ (follow_up_needed plan = true
               <-> urgency_level r = Py.VStr "URGENT"
                   \/ urgency_level r = Py.VStr "ROUTINE")
           /\ (urgency_level r = Py.VStr "EMERGENCY" ->
               check_in_time plan = "Immediately"
               /\ estimated_total_time plan = "2-4 hours")
           /\ (urgency_level r = Py.VStr "URGENT" ->
               check_in_time plan = in_two_hours
               /\ estimated_total_time plan = "1-2 hours")
           /\ (urgency_level r <> Py.VStr "EMERGENCY" ->
               urgency_level r <> Py.VStr "URGENT" ->
               check_in_time plan = "Next available appointment"
               /\ estimated_total_time plan = "1 hour")
     end.
Proof.
  intros E. unfold generate_visit_plan. rewrite E.
  destruct (generate_triage_recommendation hash self) as [asked [r|e]];
    cbn [fst snd Py.bind]; [|split; reflexivity].
  split; [reflexivity|].
  assert (S : forall w, Py.is_str (urgency_level r) w = true
                        <-> urgency_level r = Py.VStr w).
  { intros w. unfold Py.is_str. destruct (urgency_level r) as [| | |u];
      try (split; intros; discriminate).
    rewrite String.eqb_eq. split; congruence. }
  destruct (Py.is_str (urgency_level r) "EMERGENCY") eqn:Em;
    [|destruct (Py.is_str (urgency_level r) "URGENT") eqn:Ur].
  - apply S in Em. eexists. split; [reflexivity|].
    cbn [triage_recommendation patient_info confidence_score follow_up_needed
         check_in_time estimated_total_time].
    rewrite Em. cbn. repeat split; try congruence;
      intros; try discriminate; intuition discriminate.
  - apply S in Ur. eexists. split; [reflexivity|].
    cbn [triage_recommendation patient_info confidence_score follow_up_needed
         check_in_time estimated_total_time].
    rewrite Ur. cbn. repeat split; try congruence; auto; intros; try discriminate.
  - eexists. split; [reflexivity|].
    cbn [triage_recommendation patient_info confidence_score follow_up_needed
         check_in_time estimated_total_time].
    assert (NE : urgency_level r <> Py.VStr "EMERGENCY")
      by (intros H; apply S in H; congruence).
    assert (NU : urgency_level r <> Py.VStr "URGENT")
      by (intros H; apply S in H; congruence).
    split; [reflexivity|]. split; [reflexivity|]. split; [reflexivity|].
    split.
    { cbn [orb]. rewrite S. split; [intros H; right; exact H|].
      intros [H|H]; [congruence|exact H]. }
    repeat split; intros; congruence.
Qed.

End WithHash.

Lemma insurance_lookup_defaults_witness :
  emergency_copay_of (Rag.content Fixtures.copay_doc) = Some "$250"
  /\ exists info,
    snd (get_insurance_info Fixtures.flat_hash (init Fixtures.copay_pipeline) "Acme Health")
      = Py.Ok info
    /\ info !! "accepted" = Some (Py.VBool true)
    /\ info !! "primary_care_copay" = Some (Py.VStr "Contact insurance for details").
Proof.
  split; [vm_compute; reflexivity|].
  assert (G : exists info,
             snd (get_insurance_info Fixtures.flat_hash (init Fixtures.copay_pipeline)
                    "Acme Health") = Py.Ok info).
  { unfold get_insurance_info. cbn [snd].
    destruct (Rag.process_query Fixtures.flat_hash
                (rag_pipeline (init Fixtures.copay_pipeline))
                ("insurance coverage copay " ++ "Acme Health")) as [r|e] eqn:P;
      [|vm_compute in P; discriminate P].
    cbn [Py.bind]. eexists. reflexivity. }
  destruct G as [info G]. exists info. split; [exact G|].
  destruct (insurance_lookup_defaults Fixtures.flat_hash (init Fixtures.copay_pipeline)
              "Acme Health" info G) as (_ & _ & A & _ & _ & C).
  split; [exact A|exact C].
Defined.

Lemma rash_session_is (pipeline : Rag.HealthcareRAGPipeline) :
  Cases.rash_session pipeline = Py.Ok (Cases.rash_system pipeline).
Proof. reflexivity. Qed.

Lemma rash_system_reachable (pipeline : Rag.HealthcareRAGPipeline) :
  reachable (Cases.rash_system pipeline).
Proof.
  apply (reach_insurance "Acme Health" None
           (with_patient (init pipeline)
              (Some {| age := Some 28; gender := Some "female";
                       chief_complaint := Some "skin rash";
                       symptoms := ["rash"; "itching"];
                       symptom_duration := Some "2 days";
                       symptom_severity := Some 1;
                       pain_location := None; medical_history := [];
                       current_medications := []; allergies := [];
                       insurance_provider := None;
                       insurance_member_id := None; phone_number := None;
                       email := None; preferred_time := None;
                       urgency_perception := None;
                       session_id := "20240101_090000";
                       timestamp := "2024-01-01T09:00:00" |})));
    [|reflexivity].
  apply (reach_symptoms "skin rash" ["rash"; "itching"] "2 days" "mild" None
           (collect_basic_info "20240101_090000" "2024-01-01T09:00:00" 28 "female"
              (init pipeline)));
    [|reflexivity].
  apply reach_basic, reach_init.
Qed.

Lemma triage_fails_only_with_pipeline_witness :
  reachable (Cases.rash_system (Cases.answering Cases.bare_triage_results))
  /\ current_patient (Cases.rash_system (Cases.answering Cases.bare_triage_results))
     = Some Cases.rash_patient
  /\ snd (generate_triage_recommendation Fixtures.flat_hash
            (Cases.rash_system (Cases.answering Cases.bare_triage_results)))
     = Py.Raise (Py.no_attribute Py.VNone "upper")
  /\ match snd (generate_triage_recommendation Fixtures.flat_hash
                  (Cases.rash_system (Cases.answering Cases.bare_triage_results))) with
     | Py.Ok _ => True
     | Py.Raise e =>
         Rag.process_query Fixtures.flat_hash
           (rag_pipeline (Cases.rash_system (Cases.answering Cases.bare_triage_results)))
           (_build_triage_query Cases.rash_patient) = Py.Raise e
         \/ exists provider,
              insurance_provider Cases.rash_patient = Some provider
              /\ Rag.process_query Fixtures.flat_hash
                   (rag_pipeline
                      (Cases.rash_system (Cases.answering Cases.bare_triage_results)))
                   ("insurance coverage copay " ++ provider) = Py.Raise e
     end.
Proof.
  split; [apply rash_system_reachable|].
  split; [reflexivity|].
  split; [vm_compute; reflexivity|].
  exact (triage_fails_only_with_pipeline Fixtures.flat_hash
           (Cases.rash_system (Cases.answering Cases.bare_triage_results))
           Cases.rash_patient
           (rash_system_reachable (Cases.answering Cases.bare_triage_results))
           eq_refl).
Defined.

Lemma visit_plan_follows_triage_witness :
  exists s p,
    Fixtures.chest_pain_at_55 = Py.Ok s
    /\ current_patient s = Some p
    /\ exists plan,
         snd (generate_visit_plan Fixtures.flat_hash "11:00 AM today" s) = Py.Ok plan
         /\ check_in_time plan = "Immediately"
         /\ follow_up_needed plan = false.
Proof.
  eexists _, _. split; [reflexivity|]. split; [reflexivity|].
  match goal with |- exists plan, snd (generate_visit_plan _ _ ?s) = _ /\ _ =>
    pose proof (visit_plan_follows_triage Fixtures.flat_hash "11:00 AM today" s _ eq_refl)
      as [_ V];
    assert (G : exists r, snd (generate_triage_recommendation Fixtures.flat_hash s)
                          = Py.Ok r /\ urgency_level r = Py.VStr "EMERGENCY")
      by (eexists; split; [vm_compute; reflexivity|reflexivity])
  end.
  destruct G as (r & G & U). rewrite G in V.
  destruct V as (plan & P & _ & _ & _ & F & Em & _).
  exists plan. split; [exact P|]. split; [apply Em; exact U|].
  destruct (follow_up_needed plan); [|reflexivity].
  destruct (proj1 F eq_refl) as [H|H]; rewrite U in H; discriminate H.
Defined.

End Triage.

(** ** Ingest and setup *)

Section Ingest.
Import DataProcessor VectorDB.

Lemma to_records_fields (ids documents : list string)
    (metadatas : list (gmap string Py.value)) (embeddings : list (list R)) :
  length documents = length ids -> length metadatas = length ids ->
  length embeddings = length ids ->
  map rec_document (to_records ids documents metadatas embeddings) = documents
  /\ map rec_metadata (to_records ids documents metadatas embeddings) = metadatas
  /\ map rec_embedding (to_records ids documents metadatas embeddings) = embeddings.
Proof.
  unfold to_records. rewrite !map_map.
  revert documents metadatas embeddings.
  induction ids as [|i ids IH]; intros [|d ds] [|m ms] [|e es]; cbn;
    try discriminate; auto.
  intros [= H1] [= H2] [= H3]. destruct (IH ds ms es H1 H2 H3) as (A & B & C).
  rewrite A, B, C. auto.
Qed.

Section WithHash.
Variable hash : string -> Z.

Lemma metadata_rejected (docs : list Document) :
  Exists (fun doc => metadata doc = ∅) docs ->
  existsb (fun m : gmap string Py.value => bool_decide (m = ∅)) (map metadata docs)
  = true.
Proof.
  induction 1 as [doc docs H|doc docs _ IH]; cbn [map existsb].
  - rewrite bool_decide_eq_true_2 by exact H. reflexivity.
  - rewrite IH. apply orb_true_r.
Qed.

(** A document without metadata makes the whole call fail: ChromaDB
    rejects the batch and nothing is stored. *)
Lemma add_documents_rejects (docs : list Document) (self : HealthcareVectorDB) :
  use_custom_embeddings self = true ->
  Exists (fun doc => metadata doc = ∅) docs ->
  add_documents hash self docs
  = Py.Raise (Py.ValueError
                "Expected metadata to be a non-empty dict, got 0 metadata attributes").
Proof.
  intros U M.
  rewrite add_documents_nonempty by (intros ->; inversion M).
  unfold add, create_embeddings. rewrite U.
  rewrite !length_map, document_ids_length, !Nat.eqb_refl.
  rewrite (has_duplicate_NoDup _ (document_ids_NoDup _)).
  rewrite (metadata_rejected _ M). reflexivity.
Qed.

Lemma fresh_store_records (docs : list Document) (self : HealthcareVectorDB) :
  use_custom_embeddings self = true ->
  records (collection self) = [] ->
  docs <> [] ->
  Forall (fun doc => metadata doc <> ∅) docs ->
  add_documents hash self docs
  = Py.Ok (with_collection self
             {| name := name (collection self);
                records := to_records (document_ids docs) (map content docs)
                             (map metadata docs)
                             (map (simple_embedding hash) (map content docs));
                nn_search := nn_search (collection self) |}).
Proof.
  intros U E N M.
  rewrite add_documents_nonempty by exact N.
  unfold add, create_embeddings. rewrite U, E.
  rewrite !length_map, document_ids_length, !Nat.eqb_refl.
  rewrite (has_duplicate_NoDup _ (document_ids_NoDup _)).
  rewrite (metadata_accepted _ M).
  cbn [negb andb Py.bind app map].
  rewrite forallb_filter_id; [reflexivity|].
  apply forallb_forall. intros r _. reflexivity.
Qed.

(** X22. Ingest into an empty collection with the fallback embedding keeps
    every document when each has metadata: one record per document, in
    the order given, with the document's content and metadata, its
    positional id and the fallback embedding of its content, the
    directory and the collection name unchanged. One document with empty
    metadata makes the call raise the ValueError of ChromaDB. *)
Theorem fresh_ingest_keeps_documents (docs : list Document)
    (self : HealthcareVectorDB) :
  use_custom_embeddings self = true ->
  records (collection self) = [] ->
  (Forall (fun doc => metadata doc <> ∅) docs ->
   exists self',
     add_documents hash self docs = Py.Ok self'
     /\ total_documents self' = length docs
     /\ map rec_id (records (collection self')) = document_ids docs
     /\ map rec_document (records (collection self')) = map content docs
     /\ map rec_metadata (records (collection self')) = map metadata docs
     /\ map rec_embedding (records (collection self'))
        = map (fun doc => simple_embedding hash (content doc)) docs
     /\ persist_directory self' = persist_directory self
     /\ name (collection self') = name (collection self))
  /\ (Exists (fun doc => metadata doc = ∅) docs ->
      add_documents hash self docs
      = Py.Raise (Py.ValueError
                    "Expected metadata to be a non-empty dict, got 0 metadata attributes")).
Proof.
  intros U E. split; [|apply add_documents_rejects; exact U].
  intros Md. destruct docs as [|doc docs].
  - exists self. unfold total_documents, count. rewrite E. repeat split.
  - set (ds := doc :: docs) in *.
    assert (L1 : length (map content ds) = length (document_ids ds))
      by (rewrite length_map, document_ids_length; reflexivity).
    assert (L2 : length (map metadata ds) = length (document_ids ds))
      by (rewrite length_map, document_ids_length; reflexivity).
    assert (L3 : length (map (simple_embedding hash) (map content ds))
                 = length (document_ids ds))
      by (rewrite !length_map, document_ids_length; reflexivity).
    destruct (to_records_fields _ _ _ _ L1 L2 L3) as (D & M & V).
    pose proof (to_records_ids _ _ _ _ L1 L2 L3) as I.
    eexists.
    split; [apply fresh_store_records; [exact U|exact E|discriminate|exact Md]|].
    cbn [collection with_collection records name persist_directory].
    unfold total_documents, count. cbn [collection with_collection records].
    split.
    { rewrite <- (length_map rec_id), I. apply document_ids_length. }
    split; [exact I|]. split; [exact D|]. split; [exact M|].
    split; [rewrite V; apply map_map|]. split; reflexivity.
Qed.

Lemma fresh_store_count (docs : list Document) :
  length (to_records (document_ids docs) (map content docs) (map metadata docs)
            (map (simple_embedding hash) (map content docs))) = length docs.
Proof.
  rewrite <- (length_map rec_id), to_records_ids;
    rewrite ?length_map, ?document_ids_length; reflexivity.
Qed.

(** X23. Setup ingests once: a first run on an empty store ingests the
    whole corpus, and a second run on the store it leaves ingests nothing,
    even when the corpus has changed in between. (Every document of the
    corpus has metadata, as the corpus builder gives each a type; a
    document without would make the first run fail in ChromaDB.) *)
Theorem setup_ingests_once (db_dir : string) (persisted : Collection)
    (corpus corpus' : list Document)
    (loaded' : option (list string -> list (list R))) :
  records persisted = [] ->
  corpus <> [] ->
  (Forall (fun doc => metadata doc <> ∅) corpus ->
   exists first,
     setup_vector_database hash db_dir persisted None corpus false
     = ([ProcessAllData; AddDocuments (length corpus)], Py.Ok first)
     /\ total_documents first = length corpus
     /\ setup_vector_database hash db_dir (collection first) loaded' corpus' false
        = ([], Py.Ok (init db_dir (collection first) loaded')))
  /\ (Exists (fun doc => metadata doc = ∅) corpus ->
      setup_vector_database hash db_dir persisted None corpus false
      = ([ProcessAllData; AddDocuments (length corpus)],
         Py.Raise (Py.ValueError
                     "Expected metadata to be a non-empty dict, got 0 metadata attributes"))).
Proof.
  intros E N.
  assert (S : setup_vector_database hash db_dir persisted None corpus false
              = ([ProcessAllData; AddDocuments (length corpus)],
                 add_documents hash (init db_dir persisted None) corpus)).
  { unfold setup_vector_database.
    unfold total_documents, count. cbn [init collection]. rewrite E.
    cbn [length Nat.ltb Nat.leb]. destruct corpus; [congruence|reflexivity]. }
  rewrite S. split.
  - intros M.
    rewrite (fresh_store_records corpus (init db_dir persisted None) eq_refl E N M).
    eexists. split; [reflexivity|]. split.
    + unfold total_documents, count. cbn [collection with_collection records].
      apply fresh_store_count.
    + apply populated_store_short_circuit.
      unfold count. cbn [collection with_collection records].
      rewrite fresh_store_count.
      destruct corpus; [congruence|cbn; lia].
  - intros M.
    rewrite (add_documents_rejects corpus (init db_dir persisted None) eq_refl M).
    reflexivity.
Qed.

(** X24. Setup with [reset] rebuilds the store from the corpus alone:
    whatever the store held, it ends with exactly the corpus documents, in
    order, under their positional ids. (Every document of the corpus has
    metadata; a document without would make the rebuild fail in ChromaDB,
    after the store was emptied.) *)
Theorem reset_rebuilds_from_corpus (db_dir : string) (persisted : Collection)
    (corpus : list Document) :
  corpus <> [] ->
  (Forall (fun doc => metadata doc <> ∅) corpus ->
   exists rebuilt,
     setup_vector_database hash db_dir persisted None corpus true
     = ([ProcessAllData; AddDocuments (length corpus)], Py.Ok rebuilt)
     /\ total_documents rebuilt = length corpus
     /\ map rec_id (records (collection rebuilt)) = document_ids corpus
     /\ map rec_document (records (collection rebuilt)) = map content corpus)
  /\ (Exists (fun doc => metadata doc = ∅) corpus ->
      setup_vector_database hash db_dir persisted None corpus true
      = ([ProcessAllData; AddDocuments (length corpus)],
         Py.Raise (Py.ValueError
                     "Expected metadata to be a non-empty dict, got 0 metadata attributes"))).
Proof.
  intros N.
  assert (S : setup_vector_database hash db_dir persisted None corpus true
              = ([ProcessAllData; AddDocuments (length corpus)],
                 add_documents hash (reset_database (init db_dir persisted None)) corpus)).
  { unfold setup_vector_database.
    change (total_documents (reset_database (init db_dir persisted None))) with 0%nat.
    cbn [Nat.ltb Nat.leb]. destruct corpus; [congruence|reflexivity]. }
  rewrite S. split.
  - intros M.
    rewrite (fresh_store_records corpus
               (reset_database (init db_dir persisted None)) eq_refl eq_refl N M).
    assert (L1 : length (map content corpus) = length (document_ids corpus))
      by (rewrite length_map, document_ids_length; reflexivity).
    assert (L2 : length (map metadata corpus) = length (document_ids corpus))
      by (rewrite length_map, document_ids_length; reflexivity).
    assert (L3 : length (map (simple_embedding hash) (map content corpus))
                 = length (document_ids corpus))
      by (rewrite !length_map, document_ids_length; reflexivity).
    eexists. split; [reflexivity|]. split; [|split].
    + unfold total_documents, count. cbn [collection with_collection records].
      apply fresh_store_count.
    + cbn [collection with_collection records].
      apply to_records_ids; assumption.
    + cbn [collection with_collection records].
      apply (to_records_fields _ _ _ _ L1 L2 L3).
  - intros M.
    rewrite (add_documents_rejects corpus
               (reset_database (init db_dir persisted None)) eq_refl M).
    reflexivity.
Qed.

End WithHash.

Lemma fresh_ingest_keeps_documents_witness :
  use_custom_embeddings Fixtures.silent_db = true
  /\ records (collection Fixtures.silent_db) = []
  /\ (exists self',
        add_documents Fixtures.flat_hash Fixtures.silent_db
          [Fixtures.faq; Fixtures.cardiology] = Py.Ok self'
        /\ total_documents self' = 2%nat
        /\ map rec_document (records (collection self'))
           = [content Fixtures.faq; content Fixtures.cardiology])
  /\ Py.raises
       (add_documents Fixtures.flat_hash Fixtures.silent_db
          [Fixtures.faq; Cases.untyped_note]) "ValueError".
Proof.
  split; [reflexivity|]. split; [reflexivity|].
  destruct (fresh_ingest_keeps_documents Fixtures.flat_hash
              [Fixtures.faq; Fixtures.cardiology] Fixtures.silent_db eq_refl eq_refl)
    as [K _].
  destruct (fresh_ingest_keeps_documents Fixtures.flat_hash
              [Fixtures.faq; Cases.untyped_note] Fixtures.silent_db eq_refl eq_refl)
    as [_ J].
  split.
  - destruct K as (self' & A & T & _ & D & _);
      [repeat constructor; apply insert_non_empty|].
    exists self'. split; [exact A|]. split; [exact T|exact D].
  - eexists. apply J. right. left. reflexivity.
Defined.

Lemma setup_ingests_once_witness :
  records Fixtures.silent_collection = []
  /\ [Fixtures.faq; Fixtures.cardiology] <> []
  /\ exists first,
       setup_vector_database Fixtures.flat_hash "./chroma_db" Fixtures.silent_collection
         None [Fixtures.faq; Fixtures.cardiology] false
       = ([ProcessAllData; AddDocuments 2], Py.Ok first)
       /\ total_documents first = 2%nat
       /\ setup_vector_database Fixtures.flat_hash "./chroma_db" (collection first)
            None [Fixtures.cardiology] false
          = ([], Py.Ok (init "./chroma_db" (collection first) None)).
Proof.
  assert (N : [Fixtures.faq; Fixtures.cardiology] <> []) by discriminate.
  split; [reflexivity|]. split; [exact N|].
  apply (setup_ingests_once Fixtures.flat_hash "./chroma_db" Fixtures.silent_collection
           [Fixtures.faq; Fixtures.cardiology] [Fixtures.cardiology] None eq_refl N).
  repeat constructor; apply insert_non_empty.
Defined.

Lemma reset_rebuilds_from_corpus_witness :
  count Fixtures.held_collection = 1%nat
  /\ [Fixtures.faq; Fixtures.cardiology] <> []
  /\ exists rebuilt,
       setup_vector_database Fixtures.flat_hash "./chroma_db" Fixtures.held_collection
         None [Fixtures.faq; Fixtures.cardiology] true
       = ([ProcessAllData; AddDocuments 2], Py.Ok rebuilt)
       /\ total_documents rebuilt = 2%nat
       /\ map rec_id (records (collection rebuilt))
          = ["hospital_faqs_0"; "department_policies_1"].
Proof.
  assert (N : [Fixtures.faq; Fixtures.cardiology] <> []) by discriminate.
  split; [reflexivity|]. split; [exact N|].
  destruct (reset_rebuilds_from_corpus Fixtures.flat_hash "./chroma_db"
              Fixtures.held_collection [Fixtures.faq; Fixtures.cardiology] N)
    as [K _].
  destruct K as (rebuilt & A & T & I & _);
    [repeat constructor; apply insert_non_empty|].
  exists rebuilt. split; [exact A|]. split; [exact T|exact I].
Defined.

End Ingest.

(** ** Unit vectors *)

Section UnitVectors.
Import VectorDB.
Local Open Scope R_scope.

Lemma squares_bound (v : list R) (x : R) : In x v -> x * x <= squares v.
Proof.
  induction v as [|y v IH]; [intros []|].
  rewrite squares_cons. pose proof (squares_nonneg v).
  intros [-> |H']; [Lra.nra|]. specialize (IH H'). Lra.nra.
Qed.

Lemma normalize_nonneg (v : list R) :
  Forall (fun y => 0 <= y) v -> Forall (fun y => 0 <= y) (normalize v).
Proof.
  intros N. unfold normalize. destruct (Rlt_dec 0 (l2_norm v)) as [P|_]; [|exact N].
  rewrite List.Forall_forall in *. intros y Hy.
  apply in_map_iff in Hy. destruct Hy as (x & <- & Hx).
  apply Rle_mult_inv_pos; [apply N; exact Hx|exact P].
Qed.

Section WithHash.
Variable hash : string -> Z.

Lemma accumulate_nonneg (words : list string) :
  Forall (fun y => 0 <= y) (accumulate hash words).
Proof.
  unfold accumulate. apply fold_embed_grows; [apply repeat_length|apply zeros_nonneg].
Qed.

(** X25. A text with at least one token gets a unit vector whatever the
    hash does: the weights added are all positive, so collisions cannot
    cancel, the norm is 1 and every entry lies between 0 and 1. *)
Theorem tokens_give_unit_embedding (text : string) :
  Py.split (Py.lower text) <> [] ->
  l2_norm (simple_embedding hash text) = 1
  /\ Forall (fun x => 0 <= x <= 1) (simple_embedding hash text).
Proof.
  intros H. unfold simple_embedding.
  set (v := accumulate hash (Py.split (Py.lower text))).
  assert (E : Exists (fun x => x <> 0) v) by (apply accumulate_nonzero; exact H).
  assert (U : l2_norm (normalize v) = 1)
    by (apply normalize_cases, normalize_nonzero; exact E).
  split; [exact U|].
  pose proof (normalize_nonneg v (accumulate_nonneg _)) as N.
  assert (S : squares (normalize v) = 1).
  { rewrite l2_norm_squares in U.
    rewrite <- (sqrt_sqrt (squares (normalize v))) by apply squares_nonneg.
    rewrite U. Lra.lra. }
  rewrite List.Forall_forall in *. intros x Hx.
  pose proof (N x Hx). pose proof (squares_bound _ x Hx). Lra.nra.
Qed.

End WithHash.

Lemma tokens_give_unit_embedding_witness :
  Py.split (Py.lower "Chest pain") <> []
  /\ l2_norm (simple_embedding Fixtures.shifted_hash "Chest pain") = 1.
Proof.
  assert (N : Py.split (Py.lower "Chest pain") <> []) by discriminate.
  split; [exact N|].
  exact (proj1 (tokens_give_unit_embedding Fixtures.shifted_hash "Chest pain" N)).
Defined.

End UnitVectors.

(** ** What the patient is told *)

Section Wording.
Import Intake.

(** X26. The triage query leaves out nothing the patient reported: the
    chief complaint and every symptom occur in it as given. *)
Theorem triage_query_mentions_intake (p : PatientInfo) (s : string) :
  chief_complaint p = Some s \/ In s (symptoms p) ->
  Py.contains s (_build_triage_query p) = true.
Proof.
  intros H. unfold _build_triage_query.
  destruct s as [|c s].
  { destruct (Py.join " " _); reflexivity. }
  apply (contains_join _ _ _ (String c s)); [|apply contains_refl].
  assert (I : In (String c s)
                (match nonempty (chief_complaint p) with
                 | Some c0 => [c0] | None => [] end ++ symptoms p)%list).
  { apply in_app_iff. destruct H as [H|H]; [left|right; exact H].
    rewrite H. cbn. left. reflexivity. }
  revert I.
  generalize (match nonempty (chief_complaint p) with
              | Some c0 => [c0] | None => [] end ++ symptoms p)%list.
  intros parts I.
  destruct (nonzero (age p)) as [a|];
    destruct (nonzero (symptom_severity p)) as [sev|];
    repeat match goal with |- context [if ?b then _ else _] => destruct b end;
    repeat (apply in_app_iff; left); exact I.
Qed.

Lemma triage_query_mentions_intake_witness :
  In "itching" (symptoms Cases.rash_patient)
  /\ _build_triage_query Cases.rash_patient = "skin rash rash itching age 28"
  /\ Py.contains "itching" (_build_triage_query Cases.rash_patient) = true.
Proof.
  assert (I : In "itching" (symptoms Cases.rash_patient)) by (right; left; reflexivity).
  split; [exact I|]. split; [reflexivity|].
  exact (triage_query_mentions_intake Cases.rash_patient "itching" (or_intror I)).
Defined.

Section WithHash.
Variable hash : string -> Z.

(** X27. A visit plan made before the basic information was collected
    prints the missing age as the word None: the summary starts with
    "Patient: None-year-old". *)
Theorem visit_summary_prints_missing_age (in_two_hours : string)
    (self : PatientIntakeSystem) (p : PatientInfo) (plan : VisitPlan) :
  current_patient self = Some p ->
  age p = None ->
  snd (generate_visit_plan hash in_two_hours self) = Py.Ok plan ->
  String.prefix "Patient: None-year-old " (visit_summary plan) = true.
Proof.
  intros E A. unfold generate_visit_plan. rewrite E.
  destruct (generate_triage_recommendation hash self) as [asked [r|e]];
    cbn [snd Py.bind]; [|discriminate].
  destruct (if Py.is_str (urgency_level r) "EMERGENCY" then _ else _) as [ci tot].
  intros [= <-]. cbn [visit_summary]. unfold _generate_visit_summary. rewrite A.
  cbn [str_of_option_Z].
  change ("Patient: " ++ "None" ++ "-year-old " ++ str_of_option (gender p))%string
    with ("Patient: None-year-old " ++ str_of_option (gender p))%string.
  destruct (nonempty (insurance_provider p)); cbn [app Py.join String.concat];
    repeat apply prefix_app; apply prefix_refl.
Qed.

End WithHash.

Lemma visit_summary_prints_missing_age_witness :
  exists s p,
    collect_symptoms "chest pain" [] "1 hour" "severe" None Fixtures.started_system
    = Py.Ok s
    /\ current_patient s = Some p
    /\ age p = None
    /\ exists plan,
         snd (generate_visit_plan Fixtures.flat_hash "11:00 AM today" s) = Py.Ok plan
         /\ String.prefix "Patient: None-year-old " (visit_summary plan) = true.
Proof.
  eexists _, _. split; [reflexivity|]. split; [reflexivity|]. split; [reflexivity|].
  match goal with |- exists plan, snd ?g = _ /\ _ =>
    destruct (snd g) as [plan|e] eqn:P; [|vm_compute in P; discriminate P]
  end.
  exists plan. split; [reflexivity|].
  refine (visit_summary_prints_missing_age Fixtures.flat_hash "11:00 AM today" _ _ plan
            _ _ P); reflexivity.
Defined.

End Wording.
